(** * Headline scraping toolkit: extraction-and-normalisation pipeline

    A shallow embedding of the three crawlers of the repository

      - [naver_section_101_crawler.py]         (static HTTP + BeautifulSoup),
      - [naver_section_101_crawler_visual.py]  (Selenium, paginated),
      - [naver_shopping_ranking_scroll5.py]    (Selenium, scroll growth),

    and of the readers of the files they save ([jsonl_to_html.py] and the
    data endpoint of [web_server.py]), followed by the properties of the
    specification that are stated about them.  Pure helpers are Rocq
    functions; a run of a crawler is a function from the answers of the
    outside world (documents fetched, what the browser driver answers,
    what the library functions that can raise return) to the outcome of
    the run together with the trace of the calls it made on the session or
    driver.  A string is a Python [str] given by its UTF-8 encoding. *)

From Stdlib Require Import List String Ascii Bool ZArith QArith Lia.
From Stdlib Require Import DecimalString DecimalZ.
Import ListNotations.

#[global] Set Warnings "-register-all".

Close Scope Q_scope.
Open Scope string_scope.
Open Scope list_scope.

(* ================================================================== *)
(** ** Python values shared by the programs *)
(* ================================================================== *)

Module Py.

(** [a or b] on values whose truthiness is "is not None" (bs4 tags, and
    the non-empty strings returned by [extract_text]). *)
Definition or_else {A} (a b : option A) : option A :=
  match a with
  | Some x => Some x
  | None => b
  end.

(** [s or ""] for an optional non-empty string. *)
Definition or_empty (a : option string) : string :=
  match a with
  | Some s => s
  | None => ""
  end.

(** Python floats, as far as ordering is concerned: a double is NaN, an
    infinity, or a rational number; comparisons on doubles agree with the
    comparisons of the numbers they denote, and any comparison with NaN
    is false. *)
Inductive float :=
| NaN
| NegInf
| Fin (q : Q)
| PosInf.

Definition Qltb (a b : Q) : bool := negb (Qle_bool b a).

(** [a < b] *)
Definition flt (a b : float) : bool :=
  match a, b with
  | NaN, _ | _, NaN => false
  | NegInf, NegInf => false
  | NegInf, _ => true
  | _, NegInf => false
  | PosInf, _ => false
  | Fin _, PosInf => true
  | Fin x, Fin y => Qltb x y
  end.

(** [a > b] *)
Definition fgt (a b : float) : bool := flt b a.

(** [a <= b] *)
Definition fle (a b : float) : bool :=
  match a, b with
  | NaN, _ | _, NaN => false
  | NegInf, _ => true
  | _, PosInf => true
  | _, NegInf => false
  | PosInf, _ => false
  | Fin x, Fin y => Qle_bool x y
  end.

(** The builtin [max(a, b)]: the first argument is kept unless a later
    one compares strictly greater. *)
Definition fmax (a b : float) : float := if fgt b a then b else a.

Definition zmax (a b : Z) : Z := if (b >? a)%Z then b else a.

(** [range(a, b)] *)
Definition range (a b : Z) : list Z :=
  map (fun i => (a + Z.of_nat i)%Z) (seq 0 (Z.to_nat (b - a))).

(** *** Text

    A [str] is given by its UTF-8 encoding, one [ascii] per byte, so a
    character takes one to four bytes.  The characters for which
    [str.isspace] holds, and which [str.strip] removes, are U+0009 to
    U+000D, U+001C to U+0020, U+0085, U+00A0, U+1680, U+2000 to U+200A,
    U+2028, U+2029, U+202F, U+205F and U+3000; they are told by the one,
    two or three bytes of their encoding. *)

Definition byte_is (n : nat) (c : ascii) : bool := (nat_of_ascii c =? n)%nat.

(** U+0009..U+000D and U+001C..U+0020 *)
Definition space1 (a : ascii) : bool :=
  let n := nat_of_ascii a in
  (((9 <=? n) && (n <=? 13)) || ((28 <=? n) && (n <=? 32)))%nat.

(** U+0085 (C2 85) and U+00A0 (C2 A0) *)
Definition space2 (a b : ascii) : bool :=
  byte_is 194 a && (byte_is 133 b || byte_is 160 b).

(** U+1680 (E1 9A 80); U+2000..U+200A, U+2028, U+2029 and U+202F
    (E2 80 80..8A, A8, A9, AF); U+205F (E2 81 9F); U+3000 (E3 80 80) *)
Definition space3 (a b c : ascii) : bool :=
  (byte_is 225 a && byte_is 154 b && byte_is 128 c)
  || (byte_is 226 a && byte_is 128 b
      && (((128 <=? nat_of_ascii c) && (nat_of_ascii c <=? 138))%nat
          || byte_is 168 c || byte_is 169 c || byte_is 175 c))
  || (byte_is 226 a && byte_is 129 b && byte_is 159 c)
  || (byte_is 227 a && byte_is 128 b && byte_is 128 c).

(** The text that follows the whitespace character a string starts
    with, when it starts with one. *)
Definition after_space (s : string) : option string :=
  match s with
  | String a r =>
      if space1 a then Some r
      else match r with
           | String b r2 =>
               if space2 a b then Some r2
               else match r2 with
                    | String c r3 => if space3 a b c then Some r3 else None
                    | EmptyString => None
                    end
           | EmptyString => None
           end
  | EmptyString => None
  end.

(** [s.lstrip()]: the whitespace characters at the start are dropped one
    after the other. *)
Fixpoint lstrip (s : string) : string :=
  match s with
  | String a r =>
      if space1 a then lstrip r
      else match r with
           | String b r2 =>
               if space2 a b then lstrip r2
               else match r2 with
                    | String c r3 => if space3 a b c then lstrip r3 else s
                    | EmptyString => s
                    end
           | EmptyString => s
           end
  | EmptyString => EmptyString
  end.

(** The string holds nothing but whitespace characters. *)
Definition blank (s : string) : bool := String.eqb (lstrip s) "".

(** [s.rstrip()]: the string is cut where what follows is blank. *)
Fixpoint rstrip (s : string) : string :=
  match s with
  | EmptyString => EmptyString
  | String a r => if blank s then EmptyString else String a (rstrip r)
  end.

(** [s.strip()] *)
Definition strip (s : string) : string := rstrip (lstrip s).

(** A non-empty string with no whitespace at either end. *)
Definition clean (s : string) : Prop :=
  s <> "" /\ lstrip s = s /\ rstrip s = s.

(** [sep.join(parts)] *)
Definition join (sep : string) (parts : list string) : string :=
  String.concat sep parts.

(** [needle in haystack] on strings. *)
Fixpoint contains (needle haystack : string) : bool :=
  String.prefix needle haystack
  || match haystack with
     | EmptyString => false
     | String _ r => contains needle r
     end.

(** [x in xs] on a list of strings. *)
Definition mem (x : string) (xs : list string) : bool :=
  existsb (String.eqb x) xs.

(** *** Text files *)

Definition LF : ascii := "010"%char.
Definition CR : ascii := "013"%char.

Definition is_LF (c : ascii) : bool := Ascii.eqb c LF.
Definition is_CR (c : ascii) : bool := Ascii.eqb c CR.

(** What [f.write(text)] stores in a file opened in text mode with the
    default newline handling: every line feed becomes the line separator
    of the platform, which is a line feed, or a carriage return and a line
    feed on Windows. *)
Fixpoint write_text (windows : bool) (text : string) : string :=
  match text with
  | EmptyString => EmptyString
  | String c r =>
      if is_LF c && windows
      then String CR (String LF (write_text windows r))
      else String c (write_text windows r)
  end.

(** What reading such a file gives back: a carriage return followed by a
    line feed, and a lone carriage return, are read as a line feed. *)
Fixpoint read_text (stored : string) : string :=
  match stored with
  | EmptyString => EmptyString
  | String c r =>
      if is_CR c
      then match r with
           | String c' r' =>
               if is_LF c' then String LF (read_text r')
               else String LF (read_text r)
           | EmptyString => String LF EmptyString
           end
      else String c (read_text r)
  end.

(** [for line in f]: the text cut after each line feed; a last line
    without a line feed is yielded as it is. *)
Fixpoint lines (text : string) : list string :=
  match text with
  | EmptyString => []
  | String c r =>
      if is_LF c then String c EmptyString :: lines r
      else match lines r with
           | [] => [String c EmptyString]
           | l :: ls => String c l :: ls
           end
  end.

(** The characters of a string. *)
Fixpoint chars (s : string) : list ascii :=
  match s with
  | EmptyString => []
  | String c r => c :: chars r
  end.

End Py.

(* ================================================================== *)
(** ** The [json] module, as far as the programs use it *)
(* ================================================================== *)

Module Json.

Definition quote : ascii := "034"%char.
Definition backslash : ascii := "092"%char.

(** A lowercase hexadecimal digit. *)
Definition hex_digit (n : nat) : ascii :=
  if (n <? 10)%nat then ascii_of_nat (48 + n) else ascii_of_nat (87 + n).

(** ['\\u{0:04x}'.format(n)] for a code below 0x20. *)
Definition u_escape (n : nat) : string :=
  String backslash
    (String "u" (String "0" (String "0"
       (String (hex_digit (n / 16)) (String (hex_digit (n mod 16)) EmptyString))))).

(** What the encoder writes for one character with [ensure_ascii=False]:
    the entry of [ESCAPE_DCT] for a quote, a backslash and the control
    characters below 0x20, and the character itself otherwise. *)
Definition replace (c : ascii) : string :=
  let n := nat_of_ascii c in
  if (n =? 34)%nat then String backslash (String quote EmptyString)
  else if (n =? 92)%nat then String backslash (String backslash EmptyString)
  else if (n =? 8)%nat then String backslash "b"
  else if (n =? 12)%nat then String backslash "f"
  else if (n =? 10)%nat then String backslash "n"
  else if (n =? 13)%nat then String backslash "r"
  else if (n =? 9)%nat then String backslash "t"
  else if (n <? 32)%nat then u_escape n
  else String c EmptyString.

Fixpoint escape (s : string) : string :=
  match s with
  | EmptyString => EmptyString
  | String c r => replace c ++ escape r
  end.

(** [encode_basestring(s)] *)
Definition encode_basestring (s : string) : string :=
  String quote (escape s ++ String quote EmptyString).

(** The values the records hold. *)
Inductive value :=
| Null
| Bool (b : bool)
| Int (z : Z)
| Str (s : string).

Definition of_option {A} (f : A -> value) (a : option A) : value :=
  match a with
  | Some x => f x
  | None => Null
  end.

Definition dumps_value (v : value) : string :=
  match v with
  | Null => "null"
  | Bool true => "true"
  | Bool false => "false"
  | Int z => NilZero.string_of_int (Z.to_int z)
  | Str s => encode_basestring s
  end.

Definition dumps_item (kv : string * value) : string :=
  encode_basestring (fst kv) ++ ": " ++ dumps_value (snd kv).

(** [json.dumps(d, ensure_ascii=False)] for a dict of such values, with
    the default separators. *)
Definition dumps (d : list (string * value)) : string :=
  "{" ++ Py.join ", " (map dumps_item d) ++ "}".

End Json.

(* ================================================================== *)
(** ** The parsed document (BeautifulSoup, [html.parser]) *)
(* ================================================================== *)

Module Dom.

(** A start tag: its name, its attributes other than [class], and the
    value of [class], which bs4 keeps as the list of its
    whitespace-separated words ([[]] when the attribute is absent). *)
Record tag := mk_tag {
  tag_name : string;
  tag_attrs : list (string * string);
  tag_class : list string
}.

(** The classes of string, other than a plain [NavigableString], that
    the parser puts in the tree: markup that is not text, and the strings
    it finds inside one of its string containers ([<script>], [<style>],
    [<template>], [<rt>], [<rp>]). *)
Inductive string_class :=
| CData
| Comment
| Declaration
| Doctype
| ProcessingInstruction
| Stylesheet
| Script
| TemplateString
| RubyTextString
| RubyParenthesisString.

Inductive node :=
| Text (s : string)                          (* a plain NavigableString *)
| Other (k : string_class) (s : string)      (* a string of another class *)
| Elem (t : tag) (kids : list node).

(** A parsed document is the list of its top-level nodes. *)
Definition soup := list node.

(** An element handed out by a search, with the tags of its ancestors,
    nearest first: CSS combinators look at them. *)
Record element := mk_element {
  el_anc : list tag;
  el_tag : tag;
  el_kids : list node
}.

(** [tag.get(name)] *)
Fixpoint get (name : string) (attrs : list (string * string)) : option string :=
  match attrs with
  | [] => None
  | (k, v) :: rest => if String.eqb k name then Some v else get name rest
  end.

Definition attr (name : string) (t : tag) : option string :=
  get name (tag_attrs t).

(** *** Document-order search *)

Section Search.
Variable p : list tag -> tag -> bool.

(** The elements at or below [n] that satisfy [p], in document order. *)
Fixpoint search_node (anc : list tag) (n : node) : list element :=
  match n with
  | Text _ | Other _ _ => []
  | Elem t kids =>
      (if p anc t then [mk_element anc t kids] else [])
      ++ flat_map (search_node (t :: anc)) kids
  end.

Definition search_forest (anc : list tag) (ns : list node) : list element :=
  flat_map (search_node anc) ns.
End Search.

(** A search predicate, read on an element that was found. *)
Definition on_element (p : list tag -> tag -> bool) (e : element) : bool :=
  p (el_anc e) (el_tag e).

(** Every element at or below a node, in document order: the node
    itself, then the elements of its children from first to last. *)
Fixpoint elements_of (anc : list tag) (n : node) : list element :=
  match n with
  | Text _ | Other _ _ => []
  | Elem t kids => mk_element anc t kids :: flat_map (elements_of (t :: anc)) kids
  end.

(** Every element of a forest, in document order. *)
Definition elements (anc : list tag) (ns : list node) : list element :=
  flat_map (elements_of anc) ns.

(** The proper descendants of an element, in document order. *)
Definition descendants (e : element) : list element :=
  elements (el_tag e :: el_anc e) (el_kids e).

(** The children of an element that are elements themselves. *)
Definition children (e : element) : list element :=
  flat_map (fun n => match n with
                     | Text _ | Other _ _ => []
                     | Elem t kids => [mk_element (el_tag e :: el_anc e) t kids]
                     end) (el_kids e).

(** *** CSS selectors (the fragment the crawlers use) *)

Inductive attr_test :=
| HasAttr (name : string)                 (* [name]          *)
| AttrPrefix (name value : string).       (* [name^="value"] *)

(** A compound selector such as [a.sa_text_title[href]]. *)
Record compound := mk_compound {
  c_tag : option string;
  c_classes : list string;
  c_attrs : list attr_test
}.

(** A complex selector built with the descendant combinator:
    [.sa_text_press em] has subject [em] and one requirement on the
    ancestors, [.sa_text_press].  Requirements are listed nearest first. *)
Record selector := mk_selector {
  s_subject : compound;
  s_ancestors : list compound
}.

Definition attr_test_holds (t : tag) (a : attr_test) : bool :=
  match a with
  | HasAttr name =>
      match attr name t with Some _ => true | None => false end
  | AttrPrefix name value =>
      match attr name t with
      | Some v => negb (String.eqb value "") && String.prefix value v
      | None => false
      end
  end.

Definition compound_matches (c : compound) (t : tag) : bool :=
  match c_tag c with
  | Some nm => String.eqb nm (tag_name t)
  | None => true
  end
  && forallb (fun cl => Py.mem cl (tag_class t)) (c_classes c)
  && forallb (attr_test_holds t) (c_attrs c).

Fixpoint anc_match (reqs : list compound) (anc : list tag) : bool :=
  match reqs with
  | [] => true
  | c :: reqs' =>
      match anc with
      | [] => false
      | a :: anc' =>
          if compound_matches c a then anc_match reqs' anc'
          else anc_match reqs anc'
      end
  end.

Definition sel_matches (s : selector) (anc : list tag) (t : tag) : bool :=
  compound_matches (s_subject s) t && anc_match (s_ancestors s) anc.

(** [soup.select(sel)] *)
Definition soup_select (s : selector) (doc : soup) : list element :=
  search_forest (sel_matches s) [] doc.

(** [el.select(sel)]: the proper descendants of [el] that match. *)
Definition select (s : selector) (e : element) : list element :=
  search_forest (sel_matches s) (el_tag e :: el_anc e) (el_kids e).

(** [el.select_one(sel)] *)
Definition select_one (s : selector) (e : element) : option element :=
  hd_error (select s e).

(** The [id] attribute of the tag is exactly [v]. *)
Definition has_id (v : string) (t : tag) : bool :=
  match attr "id" t with
  | Some i => String.eqb i v
  | None => false
  end.

(** [soup.find(id=v)] for a non-empty [v]: the first element of the
    document, in document order, whose [id] attribute is exactly [v]. *)
Definition soup_find_id (v : string) (doc : soup) : option element :=
  hd_error (search_forest (fun _ t => has_id v t) [] doc).

(** *** Text *)

Definition string_class_eqb (a b : string_class) : bool :=
  match a, b with
  | CData, CData | Comment, Comment | Declaration, Declaration
  | Doctype, Doctype | ProcessingInstruction, ProcessingInstruction
  | Stylesheet, Stylesheet | Script, Script
  | TemplateString, TemplateString | RubyTextString, RubyTextString
  | RubyParenthesisString, RubyParenthesisString => true
  | _, _ => false
  end.

(** [builder.string_containers.get(name)]: the class of the strings the
    parser creates inside a tag of that name, for the tags that have one. *)
Definition string_container (name : string) : option string_class :=
  if String.eqb name "rt" then Some RubyTextString
  else if String.eqb name "rp" then Some RubyParenthesisString
  else if String.eqb name "style" then Some Stylesheet
  else if String.eqb name "script" then Some Script
  else if String.eqb name "template" then Some TemplateString
  else None.

(** [type(descendant) in tag.interesting_string_types], where [None]
    stands for a plain [NavigableString]: a string container keeps the
    strings of its own class only, any other tag the plain strings and
    the [CData] sections. *)
Definition interesting (name : string) (k : option string_class) : bool :=
  match string_container name with
  | Some c =>
      match k with
      | Some k' => string_class_eqb c k'
      | None => false
      end
  | None =>
      match k with
      | None | Some CData => true
      | Some _ => false
      end
  end.

(** The strings at or below a node whose class [keep] accepts, in
    document order. *)
Fixpoint strings (keep : option string_class -> bool) (n : node) : list string :=
  match n with
  | Text s => if keep None then [s] else []
  | Other k s => if keep (Some k) then [s] else []
  | Elem _ kids => flat_map (strings keep) kids
  end.

(** What [_all_strings(strip=True)] yields on an element: the strings
    below it of the classes interesting for its tag (so neither comments
    nor, below an ordinary tag, the text of scripts and style sheets),
    each one stripped, the ones that become empty left out. *)
Definition stripped_strings (e : element) : list string :=
  filter (fun s => negb (String.eqb s ""))
         (map Py.strip
              (flat_map (strings (interesting (tag_name (el_tag e))))
                        (el_kids e))).

(** [el.get_text(sep, strip=True)] *)
Definition get_text (sep : string) (e : element) : string :=
  Py.join sep (stripped_strings e).

(** Selectors written as in the source. *)
Definition by_class (c : string) : selector :=
  mk_selector (mk_compound None [c] []) [].
Definition by_tag (t : string) : selector :=
  mk_selector (mk_compound (Some t) [] []) [].
Definition inside (outer : compound) (s : selector) : selector :=
  mk_selector (s_subject s) (s_ancestors s ++ [outer]).

End Dom.

(* ================================================================== *)
(** ** What a run does to the outside world *)
(* ================================================================== *)

Module Effects.

(** The URL a page is requested from: [with_page] returns the section
    URL itself for the first page, and otherwise the section URL with its
    [page] query parameter set; the rewritten URL is kept symbolic. *)
Inductive page_url :=
| Plain (url : string)
| Paged (url : string) (page : Z).

(** The URL of a page of a section: what [with_page] returns when it
    returns. *)
Definition page_address (url : string) (page : Z) : page_url :=
  if (page <=? 1)%Z then Plain url else Paged url page.

(** The resource a run owns: the [requests.Session] of the static
    crawler, the Chrome driver of the two Selenium crawlers. *)
Inductive resource := Session | Driver.

Inductive event :=
| Acquire (r : resource)      (* build_session / webdriver.Chrome(...)   *)
| Release (r : resource)      (* session.close() / driver.quit()         *)
| Get (u : page_url)          (* session.get(url) / driver.get(url)      *)
| Sleep (d : Py.float)        (* time.sleep(d)                           *)
| ScrollDown                  (* window.scrollTo(0, scrollHeight)        *)
| Locate                      (* locate_ul(driver, ...)                  *)
| Report (page : Z).          (* print(f"[ERROR] ... {page} ...")        *)

Definition trace := list event.

(** The resources still held after a trace: acquired and not released
    since. *)
Definition resource_eqb (a b : resource) : bool :=
  match a, b with
  | Session, Session | Driver, Driver => true
  | _, _ => false
  end.

Fixpoint held_after (held : list resource) (tr : trace) : list resource :=
  match tr with
  | [] => held
  | Acquire r :: tr' => held_after (r :: held) tr'
  | Release r :: tr' =>
      held_after (filter (fun x => negb (resource_eqb x r)) held) tr'
  | _ :: tr' => held_after held tr'
  end.

(** Every resource acquired during the trace has been released by its
    end. *)
Definition all_released (tr : trace) : bool :=
  match held_after [] tr with
  | [] => true
  | _ :: _ => false
  end.

(** Events that neither acquire nor release anything. *)
Definition neutral (e : event) : bool :=
  match e with
  | Acquire _ | Release _ => false
  | _ => true
  end.

Definition is_scroll (e : event) : bool :=
  match e with ScrollDown => true | _ => false end.

(** Number of scroll steps performed. *)
Definition scrolls_done (tr : trace) : nat := List.length (filter is_scroll tr).

(** [tr'] continues [tr] with calls that acquire and release nothing. *)
Definition extends (tr tr' : trace) : Prop :=
  exists ext, tr' = tr ++ ext /\ forallb neutral ext = true.

Definition is_get (e : event) : bool :=
  match e with Get _ => true | _ => false end.

(** Number of pages requested. *)
Definition gets (tr : trace) : nat := List.length (filter is_get tr).

End Effects.

(* ================================================================== *)
(** ** [naver_section_101_crawler.py] *)
(* ================================================================== *)

Module Section101.
Import Dom Effects.

Definition DEFAULT_SECTION_URL := "https://news.naver.com/section/101".
Definition DEFAULT_LIST_ID := "_SECTION_HEADLINE_LIST_4aiik".

Record HeadlineItem := mk_item {
  title : string;
  url : string;
  press : option string;
  datetime : option string;
  lede : option string;
  is_blind : bool;
  rank : option Z
}.

Definition set_rank (r : Z) (it : HeadlineItem) : HeadlineItem :=
  mk_item (title it) (url it) (press it) (datetime it) (lede it)
          (is_blind it) (Some r).

(** How a run can end other than by returning its records. *)
Inductive error :=
| RuntimeError (list_id : string)   (* the f-string names list_id      *)
| FetchError (u : page_url)         (* whatever fetch_html raised      *)
| SleepError (d : Py.float)         (* whatever time.sleep raised      *)
| ValueError.                       (* urllib.parse on a malformed URL *)

(** The outside world of a run: what [fetch_html] followed by
    [BeautifulSoup(html, "html.parser")] gives for a URL ([None] when
    [fetch_html] raises), whether [time.sleep(d)] returns (it raises on a
    duration it cannot represent), and the two functions of
    [urllib.parse] that can raise [ValueError] on a malformed URL such as
    [//[]: whether [urlparse(url)] returns, and what [urljoin(base, url)]
    returns ([None] when it raises). *)
Record web := mk_web {
  fetch : page_url -> option soup;
  on_sleep : Py.float -> bool;
  urlparse : string -> bool;
  urljoin : string -> string -> option string
}.

(** [with_page(url, page)]; the rewritten URL is kept symbolic, and the
    result is [None] when [urlparse] raises. *)
Definition with_page (w : web) (url : string) (page : Z) : option page_url :=
  if (page <=? 1)%Z then Some (Plain url)
  else if urlparse w url then Some (Paged url page)
  else None.

(** Selectors of the module. *)
Definition sel_ul_prefix : selector :=        (* ul[id^="_SECTION_HEADLINE_LIST_"] *)
  mk_selector
    (mk_compound (Some "ul") [] [AttrPrefix "id" "_SECTION_HEADLINE_LIST_"]) [].
Definition sel_target_li : selector :=        (* li.sa_item._SECTION_HEADLINE *)
  mk_selector
    (mk_compound (Some "li") ["sa_item"; "_SECTION_HEADLINE"] []) [].
Definition sel_title_link : selector :=       (* a.sa_text_title[href] *)
  mk_selector (mk_compound (Some "a") ["sa_text_title"] [HasAttr "href"]) [].
Definition sel_any_link : selector :=         (* a[href] *)
  mk_selector (mk_compound (Some "a") [] [HasAttr "href"]) [].
Definition c_press : compound := mk_compound None ["sa_text_press"] [].

Definition press_selectors : list selector :=
  [ by_class "sa_text_press";                 (* .sa_text_press      *)
    inside c_press (by_tag "em");             (* .sa_text_press em   *)
    inside c_press (by_tag "span") ].         (* .sa_text_press span *)
Definition datetime_selectors : list selector :=
  [ by_class "sa_text_datetime";
    by_class "_SECTION_HEADLINE_LIST_TIME";
    by_tag "time" ].
Definition lede_selectors : list selector :=
  [ by_class "sa_text_lede";
    by_class "sa_text_lede_text" ].

Definition pick_ul (doc : soup) (list_id : string) : option element :=
  match soup_find_id list_id doc with
  | Some ul => Some ul
  | None =>
      (* for candidate in soup.select(...): return candidate *)
      match soup_select sel_ul_prefix doc with
      | candidate :: _ => Some candidate
      | [] => None
      end
  end.

Definition iter_target_lis (ul : element) : list element :=
  select sel_target_li ul.

Definition extract_text (el : option element) : option string :=
  match el with
  | None => None
  | Some e =>
      let txt := get_text " " e in
      if String.eqb txt "" then None else Some txt
  end.

(** [extract_text(li.select_one(s1)) or extract_text(li.select_one(s2))
    or ...], the way [parse_item] fills [press], [datetime] and [lede]. *)
Fixpoint first_text (li : element) (candidates : list selector) : option string :=
  match candidates with
  | [] => None
  | s :: rest =>
      Py.or_else (extract_text (select_one s li)) (first_text li rest)
  end.

(** [parse_item(li, base_url)]: the record, [inr None] for [return None],
    and [inl ValueError] when [urljoin] raises. *)
Definition parse_item (w : web) (li : element) (base_url : string)
  : error + option HeadlineItem :=
  let classes := tag_class (el_tag li) in
  let is_blind := Py.mem "is_blind" classes in
  match Py.or_else (select_one sel_title_link li) (select_one sel_any_link li) with
  | None => inr None
  | Some link =>
      match attr "href" (el_tag link) with
      | None => inr None
      | Some href =>
          if String.eqb href "" then inr None
          else
            let title := Py.or_empty (extract_text (Some link)) in
            match urljoin w base_url href with
            | None => inl ValueError
            | Some url =>
                let press := first_text li press_selectors in
                let dt := first_text li datetime_selectors in
                let lede := first_text li lede_selectors in
                inr (Some (mk_item title url press dt lede is_blind None))
            end
      end
  end.

(** The inner loop of [crawl]: [for li in lis: ...]. *)
Fixpoint accept (w : web) (base_url : string) (lis : list element)
         (all_items : list HeadlineItem) : error + list HeadlineItem :=
  match lis with
  | [] => inr all_items
  | li :: rest =>
      match parse_item w li base_url with
      | inl e => inl e
      | inr None => accept w base_url rest all_items
      | inr (Some item) =>
          let item' := set_rank (Z.of_nat (List.length all_items) + 1) item in
          accept w base_url rest (all_items ++ [item'])
      end
  end.

Section Crawl.
Variable w : web.
Variables (section_url list_id : string) (pages : Z) (sleep : Py.float).

(** The outer loop of [crawl] over the pages still to visit. *)
Fixpoint crawl_pages (todo : list Z) (all_items : list HeadlineItem)
         (tr : trace) : trace * (error + list HeadlineItem) :=
  match todo with
  | [] => (tr, inr all_items)
  | page :: rest =>
      match with_page w section_url page with
      | None => (tr, inl ValueError)
      | Some url =>
          let tr1 := tr ++ [Get url] in
          match fetch w url with
          | None => (tr1, inl (FetchError url))
          | Some doc =>
              match pick_ul doc list_id with
              | None => (tr1, inl (RuntimeError list_id))
              | Some ul =>
                  let lis := iter_target_lis ul in
                  match accept w section_url lis all_items with
                  | inl e => (tr1, inl e)
                  | inr all_items' =>
                      if (page <? pages)%Z && Py.fgt sleep (Py.Fin 0)
                      then
                        if on_sleep w sleep
                        then crawl_pages rest all_items' (tr1 ++ [Sleep sleep])
                        else (tr1 ++ [Sleep sleep], inl (SleepError sleep))
                      else crawl_pages rest all_items' tr1
                  end
              end
          end
      end
  end.

Definition crawl : trace * (error + list HeadlineItem) :=
  crawl_pages (Py.range 1 (pages + 1)) [] [Acquire Session].
End Crawl.

(** The command line as [argparse] returns it. *)
Record args := mk_args {
  arg_url : string;
  arg_list_id : string;
  arg_pages : Z;
  arg_sleep : Py.float;
  arg_timeout : Py.float
}.

(** The arguments [main] calls [crawl] with. *)
Record crawl_call := mk_call {
  call_section_url : string;
  call_list_id : string;
  call_pages : Z;
  call_sleep : Py.float;
  call_timeout : Py.float
}.

Definition main_call (a : args) : crawl_call :=
  mk_call (arg_url a) (arg_list_id a)
          (Py.zmax 1 (arg_pages a))
          (Py.fmax (Py.Fin 0) (arg_sleep a))
          (Py.fmax (Py.Fin 1) (arg_timeout a)).

(** The crawl [main] performs.  [crawl] hands its [timeout] to
    [build_session], and every request is made with it: the site is given
    as a function of the timeout of the requests. *)
Definition main_crawl (site : Py.float -> web) (a : args)
  : trace * (error + list HeadlineItem) :=
  let c := main_call a in
  crawl (site (call_timeout c))
        (call_section_url c) (call_list_id c) (call_pages c) (call_sleep c).

End Section101.

(* ================================================================== *)
(** ** The Selenium driver, seen from the crawlers *)
(* ================================================================== *)

Module Selenium.

(** The exceptions the two browser crawlers tell apart.  The first three
    are [WebDriverException] and its two subclasses named in the source;
    [OtherException] is any other subclass of [Exception] ([ValueError]
    from [time.sleep], a transport error); [KeyboardInterrupt] is not an
    [Exception]. *)
Inductive exn :=
| TimeoutException
| NoSuchElementException
| WebDriverException
| OtherException
| KeyboardInterrupt.

Definition is_WebDriverException (e : exn) : bool :=
  match e with
  | TimeoutException | NoSuchElementException | WebDriverException => true
  | _ => false
  end.

Definition is_Exception (e : exn) : bool :=
  match e with
  | KeyboardInterrupt => false
  | _ => true
  end.

(** What a call on the driver or on an element answers. *)
Inductive reply (A : Type) :=
| Ok (a : A)
| Raises (e : exn).
Arguments Ok {A} a.
Arguments Raises {A} e.

(** Sequencing of calls: the first exception raised ends the block. *)
Definition bind {A B} (r : reply A) (k : A -> reply B) : reply B :=
  match r with
  | Ok a => k a
  | Raises e => Raises e
  end.

(** [time.sleep(d)] the usual way: it returns on a finite non-negative
    duration, and raises [ValueError] on a negative one or NaN and
    [OverflowError] on an infinite one. *)
Definition usual_sleep (d : Py.float) : reply unit :=
  match d with
  | Py.Fin q => if Qle_bool 0 q then Ok tt else Raises OtherException
  | _ => Raises OtherException
  end.

End Selenium.

Declare Scope reply_scope.
Delimit Scope reply_scope with reply.
Notation "x <- c ;; k" := (Selenium.bind c (fun x => k))
  (at level 61, c at next level, right associativity) : reply_scope.

(* ================================================================== *)
(** ** [naver_section_101_crawler_visual.py] *)
(* ================================================================== *)

Module Section101Visual.
Import Effects Selenium.

Record HeadlineItem := mk_item {
  title : string;
  url : option string;          (* a_tag.get_attribute("href") *)
  press : option string;
  datetime : option string;
  lede : option string;
  is_blind : bool;
  rank : option Z
}.

(** The answers of an anchor element. *)
Record link_answers := mk_link {
  on_text : reply string;                 (* a_tag.text                  *)
  on_href : reply (option string)         (* a_tag.get_attribute("href") *)
}.

(** The answers of one [li] element.  For the four text fields the
    answer is that of [find_element(...)] followed by [.text]. *)
Record li_answers := mk_li {
  on_class : reply (option string);       (* li.get_attribute("class")   *)
  on_title_link : reply link_answers;     (* find_element a.sa_text_title *)
  on_any_link : reply link_answers;       (* find_element a[href]        *)
  on_press : reply string;                (* .sa_text_press              *)
  on_lede : reply string;                 (* .sa_text_lede               *)
  on_datetime : reply string;             (* .sa_text_datetime           *)
  on_list_time : reply string             (* ._SECTION_HEADLINE_LIST_TIME *)
}.

(** The answers of the browser once asked for a page; the [ul] element
    that [find_element] returns is given by what its [find_elements]
    answers. *)
Record page_answers := mk_page {
  on_get : reply unit;                    (* driver.get(target_url)      *)
  on_wait : reply unit;                   (* WebDriverWait(...).until(...) *)
  on_find_ul : reply (reply (list li_answers))
                                          (* driver.find_element(ul...),
                                             then ul.find_elements(li...) *)
}.

Record world := mk_world {
  on_build : reply unit;                  (* webdriver.Chrome(options=opts) *)
  on_page : page_url -> page_answers;
  on_sleep : Py.float -> reply unit;      (* time.sleep(d)               *)
  on_quit : reply unit;                   (* driver.quit()               *)
  urlparse : string -> bool               (* whether urlparse(url) returns *)
}.

(** [with_page(url, page)]; the rewritten URL is kept symbolic, and
    [urlparse] raises [ValueError] on a malformed URL. *)
Definition with_page (w : world) (url : string) (page : Z) : reply page_url :=
  if (page <=? 1)%Z then Ok (Plain url)
  else if urlparse w url then Ok (Paged url page)
  else Raises OtherException.

Definition extract_text (r : reply string) : reply (option string) :=
  match r with
  | Ok t =>
      let t' := Py.strip t in
      Ok (if String.eqb t' "" then None else Some t')
  | Raises NoSuchElementException => Ok None
  | Raises e => Raises e
  end.

(** The body of the [try] around one [li]; a raised exception is the one
    the [except Exception] clause gets to see. *)
Definition parse_li (li : li_answers) (n : nat) : reply HeadlineItem :=
  (classes <- on_class li ;;
   let is_blind :=
     match classes with
     | Some c => if String.eqb c "" then false else Py.contains "is_blind" c
     | None => false
     end in
   a_tag <- match on_title_link li with
            | Raises NoSuchElementException => on_any_link li
            | r => r
            end ;;
   text <- on_text a_tag ;;
   let title := Py.strip text in
   link <- on_href a_tag ;;
   press <- extract_text (on_press li) ;;
   lede <- extract_text (on_lede li) ;;
   dt <- extract_text (on_datetime li) ;;
   dt' <- match dt with
          | Some _ => Ok dt
          | None => extract_text (on_list_time li)
          end ;;
   Ok (mk_item title link press dt' lede is_blind (Some (Z.of_nat n + 1)%Z))
  )%reply.

(** [for li in lis: try: ... except Exception: continue]. *)
Fixpoint accept (lis : list li_answers) (all_items : list HeadlineItem)
  : reply (list HeadlineItem) :=
  match lis with
  | [] => Ok all_items
  | li :: rest =>
      match parse_li li (List.length all_items) with
      | Ok item => accept rest (all_items ++ [item])
      | Raises e =>
          if is_Exception e then accept rest all_items else Raises e
      end
  end.

Section Crawl.
Variable w : world.
Variables (section_url : string) (pages : Z) (sleep : Py.float).

(** The [for page in ...] loop inside the [try]. *)
Fixpoint visit (todo : list Z) (all_items : list HeadlineItem) (tr : trace)
  : trace * reply (list HeadlineItem) :=
  match todo with
  | [] => (tr, Ok all_items)
  | page :: rest =>
      match with_page w section_url page with
      | Raises e => (tr, Raises e)
      | Ok target_url =>
          let a := on_page w target_url in
          let tr1 := tr ++ [Get target_url] in
          match on_get a with
          | Raises e => (tr1, Raises e)
          | Ok _ =>
              match on_wait a with
              | Raises TimeoutException =>
                  visit rest all_items (tr1 ++ [Report page])
              | Raises e => (tr1, Raises e)
              | Ok _ =>
                  match on_find_ul a with
                  | Raises NoSuchElementException => visit rest all_items tr1
                  | Raises e => (tr1, Raises e)
                  | Ok ul =>
                      match ul with
                      | Raises e => (tr1, Raises e)
                      | Ok lis =>
                          match accept lis all_items with
                          | Raises e => (tr1, Raises e)
                          | Ok all_items' =>
                              match on_sleep w sleep with
                              | Raises e => (tr1 ++ [Sleep sleep], Raises e)
                              | Ok _ =>
                                  visit rest all_items' (tr1 ++ [Sleep sleep])
                              end
                          end
                      end
                  end
              end
          end
      end
  end.

(** [driver = build_driver(...)], then [try: ... finally: driver.quit()]. *)
Definition crawl_visual : trace * reply (list HeadlineItem) :=
  match on_build w with
  | Raises e => ([], Raises e)
  | Ok _ =>
      let '(tr, r) := visit (Py.range 1 (pages + 1)) [] [Acquire Driver] in
      match on_quit w with
      | Raises e => (tr ++ [Release Driver], Raises e)
      | Ok _ => (tr ++ [Release Driver], r)
      end
  end.
End Crawl.

(** [asdict(it)] *)
Definition asdict (it : HeadlineItem) : list (string * Json.value) :=
  [ ("title", Json.Str (title it));
    ("url", Json.of_option Json.Str (url it));
    ("press", Json.of_option Json.Str (press it));
    ("datetime", Json.of_option Json.Str (datetime it));
    ("lede", Json.of_option Json.Str (lede it));
    ("is_blind", Json.Bool (is_blind it));
    ("rank", Json.of_option Json.Int (rank it)) ].

(** The text [save_jsonl] writes. *)
Fixpoint save_jsonl (items : list HeadlineItem) : string :=
  match items with
  | [] => EmptyString
  | it :: rest =>
      ((Json.dumps (asdict it) ++ String Py.LF EmptyString) ++ save_jsonl rest)%string
  end.

(** The command line as [argparse] returns it. *)
Record args := mk_args {
  arg_url : string;
  arg_pages : Z;
  arg_sleep : Py.float
}.

(** [main]: the crawl, and on its return the text saved to [args.out]. *)
Definition main (w : world) (a : args) : trace * reply string :=
  match crawl_visual w (arg_url a) (arg_pages a) (arg_sleep a) with
  | (tr, Ok items) => (tr, Ok (save_jsonl items))
  | (tr, Raises e) => (tr, Raises e)
  end.

End Section101Visual.

(* ================================================================== *)
(** ** [naver_shopping_ranking_scroll5.py] *)
(* ================================================================== *)

Module ShoppingScroll.
Import Effects Selenium.

Record LiItem := mk_item {
  idx : Z;
  text : string;
  outer_html : string
}.

(** The two waits of [locate_ul]: each answers the element it finds,
    given by what that element answers afterwards (a value of [A]), or
    raises. *)
Record locate_answers (A : Type) := mk_locate {
  on_css : reply A;           (* WebDriverWait(...).until(presence CSS)   *)
  on_xpath : reply A          (* WebDriverWait(...).until(presence XPATH) *)
}.
Arguments mk_locate {A} on_css on_xpath.
Arguments on_css {A} l.
Arguments on_xpath {A} l.

(** The [ul] a scroll step finds is given by what its
    [find_elements(By.CSS_SELECTOR, "li")] answers (the length of the list
    found, or the exception) at each turn of the [while] loop entered with
    [time.time() < end_t]; the list ends where the clock has reached
    [end_t]. *)
Record step_answers := mk_step {
  on_scroll : reply unit;     (* driver.execute_script(scrollTo ...)      *)
  on_locate : locate_answers (list (reply nat))
}.

Record li_answers := mk_li {
  on_text : reply (option string);        (* li.text                     *)
  on_outer : reply (option string)        (* li.get_attribute("outerHTML") *)
}.

(** An element below the [ul] when the items are read: its tag name,
    what it answers, and its children. *)
Inductive below :=
| Node (name : string) (a : li_answers) (kids : list below).

(** The [ul] found before any scroll is given by the count of its [li]
    elements, and the one found after the last scroll by the elements
    below it, unless its [find_elements] raises. *)
Record world := mk_world {
  on_chrome : reply unit;     (* webdriver.Chrome(options=opts)           *)
  on_cdp : reply unit;        (* driver.execute_cdp_cmd(...)              *)
  on_get : reply unit;        (* driver.get(url)                          *)
  on_ready : reply unit;      (* wait_ready(driver, timeout)              *)
  on_first_locate : locate_answers (reply nat);
  on_step : Z -> step_answers;
  on_sleep : Py.float -> reply unit;      (* time.sleep(d)               *)
  on_last_locate : locate_answers (reply (list below));
  on_quit : reply unit        (* driver.quit()                            *)
}.

Definition locate_ul {A} (a : locate_answers A) : reply A :=
  match on_css a with
  | Raises TimeoutException => on_xpath a
  | r => r
  end.

Definition li_count_under_ul (found : reply nat) : reply nat :=
  match found with
  | Ok n => Ok n
  | Raises e => if is_WebDriverException e then Ok 0 else Raises e
  end.

(** [while time.time() < end_t: ...], given what [time.sleep(0.2)]
    answers. *)
Fixpoint poll (nap : reply unit) (polls : list (reply nat)) (prev_count : nat)
         (tr : trace) : trace * reply nat :=
  match polls with
  | [] => (tr, Ok prev_count)
  | found :: later =>
      match li_count_under_ul found with
      | Raises e => (tr, Raises e)
      | Ok cur_count =>
          if (prev_count <? cur_count)%nat then (tr, Ok cur_count)
          else
            let tr1 := tr ++ [Sleep (Py.Fin (1 # 5))] in
            match nap with
            | Raises e => (tr1, Raises e)
            | Ok _ => poll nap later prev_count tr1
            end
      end
  end.

(** What [ul.find_elements(By.CSS_SELECTOR, "li")] finds: the [li]
    elements below the [ul], at any depth, in document order. *)
Fixpoint lis_at (n : below) : list li_answers :=
  match n with
  | Node name a kids =>
      (if String.eqb name "li" then [a] else []) ++ flat_map lis_at kids
  end.

Definition find_lis (kids : list below) : list li_answers :=
  flat_map lis_at kids.

(** [for idx, li in enumerate(li_elems, start=1): items.append(...)] *)
Fixpoint snapshot (li_elems : list li_answers) (idx : Z) (items : list LiItem)
  : reply (list LiItem) :=
  match li_elems with
  | [] => Ok items
  | li :: rest =>
      (t <- on_text li ;;
       h <- on_outer li ;;
       snapshot rest (idx + 1)
                (items ++ [mk_item idx (Py.strip (Py.or_empty t)) (Py.or_empty h)])
      )%reply
  end.

Section Crawl.
Variable w : world.
Variables (url : string) (scrolls : Z) (wait_sec : Py.float).

(** [for i in range(scrolls): ...] *)
Fixpoint scroll_loop (todo : list Z) (prev_count : nat) (tr : trace)
  : trace * reply nat :=
  match todo with
  | [] => (tr, Ok prev_count)
  | i :: rest =>
      let a := on_step w i in
      let tr1 := tr ++ [ScrollDown] in
      match on_scroll a with
      | Raises e => (tr1, Raises e)
      | Ok _ =>
          let d := Py.fmax (Py.Fin (1 # 10)) wait_sec in
          let tr2 := tr1 ++ [Sleep d] in
          match on_sleep w d with
          | Raises e => (tr2, Raises e)
          | Ok _ =>
              let tr3 := tr2 ++ [Locate] in
              match locate_ul (on_locate a) with
              | Raises e => (tr3, Raises e)
              | Ok ul =>
                  match poll (on_sleep w (Py.Fin (1 # 5))) ul prev_count tr3 with
                  | (tr4, Raises e) => (tr4, Raises e)
                  | (tr4, Ok prev_count') => scroll_loop rest prev_count' tr4
                  end
              end
          end
      end
  end.

(** The body of the [try] once [build_driver] has returned. *)
Definition body (tr : trace) : trace * reply (list LiItem) :=
  let tr1 := tr ++ [Get (Plain url)] in
  match on_get w with
  | Raises e => (tr1, Raises e)
  | Ok _ =>
      match on_ready w with
      | Raises e => (tr1, Raises e)
      | Ok _ =>
          let tr2 := tr1 ++ [Locate] in
          match locate_ul (on_first_locate w) with
          | Raises e => (tr2, Raises e)
          | Ok ul =>
              match li_count_under_ul ul with
              | Raises e => (tr2, Raises e)
              | Ok prev_count =>
                  match scroll_loop (Py.range 0 scrolls) prev_count tr2 with
                  | (tr3, Raises e) => (tr3, Raises e)
                  | (tr3, Ok _) =>
                      let tr4 := tr3 ++ [Locate] in
                      match locate_ul (on_last_locate w) with
                      | Raises e => (tr4, Raises e)
                      | Ok ul' =>
                          match ul' with
                          | Raises e => (tr4, Raises e)
                          | Ok kids => (tr4, snapshot (find_lis kids) 1 [])
                          end
                      end
                  end
              end
          end
      end
  end.

(** [driver = None; try: driver = build_driver(...) ... finally:
    if driver: try: driver.quit() except Exception: pass]. *)
Definition crawl : trace * reply (list LiItem) :=
  match on_chrome w with
  | Raises e => ([], Raises e)
  | Ok _ =>
      match on_cdp w with
      | Raises e => ([Acquire Driver], Raises e)   (* [driver] is still None *)
      | Ok _ =>
          let '(tr, r) := body [Acquire Driver] in
          let tr' := tr ++ [Release Driver] in
          match on_quit w with
          | Ok _ => (tr', r)
          | Raises e => if is_Exception e then (tr', r) else (tr', Raises e)
          end
      end
  end.
End Crawl.

Record args := mk_args {
  arg_url : string;
  arg_scrolls : Z;
  arg_wait_sec : Py.float;
  arg_timeout : Py.float
}.

Record crawl_call := mk_call {
  call_url : string;
  call_scrolls : Z;
  call_wait_sec : Py.float;
  call_timeout : Py.float
}.

Definition main_call (a : args) : crawl_call :=
  mk_call (arg_url a)
          (Py.zmax 0 (arg_scrolls a))
          (Py.fmax (Py.Fin 0) (arg_wait_sec a))
          (Py.fmax (Py.Fin 1) (arg_timeout a)).

(** The crawl [main] performs.  Every wait of [crawl] is made with its
    [timeout]: the browser is given as a function of the timeout of the
    waits. *)
Definition main_crawl (browser : Py.float -> world) (a : args)
  : trace * reply (list LiItem) :=
  let c := main_call a in
  crawl (browser (call_timeout c)) (call_url c) (call_scrolls c) (call_wait_sec c).

(** [asdict(it)] *)
Definition asdict (it : LiItem) : list (string * Json.value) :=
  [ ("idx", Json.Int (idx it));
    ("text", Json.Str (text it));
    ("outer_html", Json.Str (outer_html it)) ].

(** The text [save_jsonl] writes. *)
Fixpoint save_jsonl (items : list LiItem) : string :=
  match items with
  | [] => EmptyString
  | it :: rest =>
      ((Json.dumps (asdict it) ++ String Py.LF EmptyString) ++ save_jsonl rest)%string
  end.

End ShoppingScroll.

(* ================================================================== *)
(** ** [jsonl_to_html.py] and the data endpoint of [web_server.py] *)
(* ================================================================== *)

Module Dashboard.

(** How [json.loads] can fail: with [JSONDecodeError] on a text that is
    not JSON, or with another exception ([RecursionError] on a text
    nested too deeply, a plain [ValueError] on an integer with too many
    digits). *)
Inductive failure :=
| JSONDecodeError
| OtherError.

Definition is_JSONDecodeError (f : failure) : bool :=
  match f with
  | JSONDecodeError => true
  | OtherError => false
  end.

Section Readers.
(** The parsed form of a line, and [json.loads(line)]. *)
Variable J : Type.
Variable loads : string -> failure + J.

(** [if line.strip():] *)
Definition nonblank (line : string) : bool :=
  negb (String.eqb (Py.strip line) "").

(** The loop of [load_data]: whatever [json.loads] raises ends it. *)
Fixpoint load_lines (todo : list string) (items : list J) : failure + list J :=
  match todo with
  | [] => inr items
  | line :: rest =>
      if nonblank line then
        match loads line with
        | inr item => load_lines rest (items ++ [item])
        | inl f => inl f
        end
      else load_lines rest items
  end.

(** [load_data(file_path)] of [jsonl_to_html.py]; the file is given by its
    lines, or is [None] when [os.path.exists] is false. *)
Definition load_data (file : option (list string)) : failure + list J :=
  match file with
  | None => inr []
  | Some todo => load_lines todo []
  end.

(** The loop of [get_data]: [except json.JSONDecodeError: continue]
    passes over a line that is not JSON; any other exception ends the
    loop. *)
Fixpoint get_lines (todo : list string) (items : list J) : failure + list J :=
  match todo with
  | [] => inr items
  | line :: rest =>
      if nonblank line then
        match loads line with
        | inr item => get_lines rest (items ++ [item])
        | inl f => if is_JSONDecodeError f then get_lines rest items else inl f
        end
      else get_lines rest items
  end.

(** [get_data()] of [web_server.py]. *)
Definition get_data (file : option (list string)) : failure + list J :=
  match file with
  | None => inr []
  | Some todo => get_lines todo []
  end.

(** How [main] of [jsonl_to_html.py] ends. *)
Inductive outcome :=
| LoadError (f : failure)     (* json.loads raised                     *)
| NothingWritten              (* "if not items: return"                *)
| RenderError                 (* generate_html raised                  *)
| Written (html : string).    (* f.write(generate_html(items))         *)

(** [main()] of [jsonl_to_html.py], given [generate_html], which is
    [None] where it raises (an item that is not an object has no [get]);
    the messages it prints are left out. *)
Definition main (generate_html : list J -> option string)
    (file : option (list string)) : outcome :=
  match load_data file with
  | inl f => LoadError f
  | inr [] => NothingWritten
  | inr items =>
      match generate_html items with
      | Some html => Written html
      | None => RenderError
      end
  end.
End Readers.

End Dashboard.

(* ================================================================== *)
(** ** The specification's wording of the locator and the filter *)
(* ================================================================== *)

Module Claimed.
Import Dom.

Definition id_is (v : string) (e : element) : bool := has_id v (el_tag e).

Definition id_starts_with (prefix : string) (e : element) : bool :=
  match attr "id" (el_tag e) with
  | Some v => String.prefix prefix v
  | None => false
  end.

Definition named (nm : string) (e : element) : bool :=
  String.eqb nm (tag_name (el_tag e)).

(** The class set of the element is a superset of [required]. *)
Definition has_classes (required : list string) (e : element) : bool :=
  forallb (fun c => Py.mem c (tag_class (el_tag e))) required.

(** Section 4.1: the node whose identifier equals [primary_id], else the
    first node in document order whose identifier starts with
    [prefix_pattern], else nothing. *)
Definition locate (doc : soup) (primary_id prefix_pattern : string)
  : option element :=
  match find (id_is primary_id) (elements [] doc) with
  | Some n => Some n
  | None => find (id_starts_with prefix_pattern) (elements [] doc)
  end.

(** Section 4.2: the child nodes of the container whose class set is a
    superset of the base and marker classes, in document order. *)
Definition filter_children (container : element) : list element :=
  filter (has_classes ["sa_item"; "_SECTION_HEADLINE"]) (children container).

(** Section 4.3 asks for text with its internal whitespace collapsed:
    no two whitespace characters in a row. *)
Definition two_spaces (s : string) : bool :=
  match Py.after_space s with
  | Some rest =>
      match Py.after_space rest with
      | Some _ => true
      | None => false
      end
  | None => false
  end.

Fixpoint whitespace_collapsed (s : string) : bool :=
  match s with
  | EmptyString => true
  | String _ r => negb (two_spaces s) && whitespace_collapsed r
  end.

(** The text a candidate selector yields on an item: that of its first
    match, the empty string when nothing matches. *)
Definition candidate_text (li : element) (s : selector) : string :=
  match select_one s li with
  | Some e => get_text " " e
  | None => ""
  end.

(** Section 3: the title is non-empty after trimming. *)
Definition nonempty_after_trim (s : string) : bool :=
  negb (String.eqb (Py.strip s) "").

End Claimed.

Module ClaimedRun.
Import Section101.

(** The ranks of a record sequence are exactly 1..N, in order. *)
Definition ranked (items : list HeadlineItem) : Prop :=
  map rank items
  = map (fun i => Some (Z.of_nat i)) (seq 1 (List.length items)).

(** The records an item list contributes, before ranks are set: one per
    item that parses, in order. *)
Definition accepted (w : web) (base_url : string) (lis : list Dom.element)
  : list HeadlineItem :=
  flat_map (fun li => match parse_item w li base_url with
                      | inr (Some item) => [item]
                      | _ => []
                      end) lis.

(** The error of the first item, if any, on which [parse_item] raises. *)
Fixpoint first_error (w : web) (base_url : string) (lis : list Dom.element)
  : option error :=
  match lis with
  | [] => None
  | li :: rest =>
      match parse_item w li base_url with
      | inl e => Some e
      | inr _ => first_error w base_url rest
      end
  end.

(** Records numbered consecutively from [n]. *)
Fixpoint numbered_from (n : Z) (items : list HeadlineItem) : list HeadlineItem :=
  match items with
  | [] => []
  | it :: rest => set_rank n it :: numbered_from (n + 1) rest
  end.

(** A page goes through: its URL can be built, the page fetched, its
    container located, and no item of the container makes [urljoin]
    raise. *)
Definition goes_through (w : web) (section_url list_id : string) (page : Z)
  : Prop :=
  exists doc ul,
    with_page w section_url page = Some (Effects.page_address section_url page)
    /\ fetch w (Effects.page_address section_url page) = Some doc
    /\ pick_ul doc list_id = Some ul
    /\ first_error w section_url (iter_target_lis ul) = None.

(** An item of the container of one of the pages 1..pages of a section. *)
Definition item_of_page (w : web) (section_url list_id : string) (pages : Z)
           (li : Dom.element) : Prop :=
  exists page doc ul,
    (1 <= page <= pages)%Z
    /\ fetch w (Effects.page_address section_url page) = Some doc
    /\ pick_ul doc list_id = Some ul
    /\ In li (iter_target_lis ul).

End ClaimedRun.

Module ClaimedScroll.
Import Selenium ShoppingScroll.

(** A poll that does not end the run: it answers a count, or fails with a
    [WebDriverException], which [li_count_under_ul] turns into 0. *)
Definition answers (found : reply nat) : bool :=
  match found with
  | Ok _ => true
  | Raises e => is_WebDriverException e
  end.

(** A poll that shows no growth over [prev_count]. *)
Definition no_growth (prev_count : nat) (found : reply nat) : bool :=
  match found with
  | Ok n => (n <=? prev_count)%nat
  | Raises e => is_WebDriverException e
  end.

(** [driver.quit()] returns, or raises something the [except Exception]
    around it swallows. *)
Definition quit_contained (r : reply unit) : bool :=
  match r with
  | Ok _ => true
  | Raises e => is_Exception e
  end.

(** The element a call of [locate_ul] finds: the one the CSS wait
    answers, and when that wait times out the one the XPath wait
    answers. *)
Definition located {A} (a : locate_answers A) (found : A) : Prop :=
  on_css a = Ok found
  \/ (on_css a = Raises TimeoutException /\ on_xpath a = Ok found).

(** An [li] element that answers its text and its markup. *)
Definition answered (th : option string * option string) : li_answers :=
  mk_li (Ok (fst th)) (Ok (snd th)).

(** The items present, numbered by position from [idx]. *)
Fixpoint numbered (idx : Z) (present : list (option string * option string))
  : list LiItem :=
  match present with
  | [] => []
  | th :: rest =>
      mk_item idx (Py.strip (Py.or_empty (fst th))) (Py.or_empty (snd th))
      :: numbered (idx + 1) rest
  end.

End ClaimedScroll.

(* ================================================================== *)
(** ** What a run can be observed to do *)
(* ================================================================== *)

Module Observed.
Import Effects.

(** The records a page contributes to a run of the static crawler, before
    ranks are set: those of the items of its container, in document
    order. *)
Definition page_records (w : Section101.web) (section_url list_id : string)
           (page : Z) : list Section101.HeadlineItem :=
  match Section101.fetch w (page_address section_url page) with
  | Some doc =>
      match Section101.pick_ul doc list_id with
      | Some ul =>
          ClaimedRun.accepted w section_url (Section101.iter_target_lis ul)
      | None => []
      end
  | None => []
  end.

(** The calls a page costs a run of the static crawler that goes through:
    the request, and a pause when another page follows and [sleep > 0]. *)
Definition page_events (section_url : string) (pages : Z) (sleep : Py.float)
           (page : Z) : trace :=
  Get (page_address section_url page)
  :: (if (page <? pages)%Z && Py.fgt sleep (Py.Fin 0) then [Sleep sleep] else []).

(** The anchor the browser crawler reads the title and the link of an
    item from: the one [a.sa_text_title] finds, and when there is none the
    one [a[href]] finds. *)
Definition anchor (li : Section101Visual.li_answers)
           (a_tag : Section101Visual.link_answers) : Prop :=
  Section101Visual.on_title_link li = Selenium.Ok a_tag
  \/ (Section101Visual.on_title_link li
      = Selenium.Raises Selenium.NoSuchElementException
      /\ Section101Visual.on_any_link li = Selenium.Ok a_tag).

(** The ranks of the records of the browser crawler are exactly 1..N. *)
Definition ranked_visual (items : list Section101Visual.HeadlineItem) : Prop :=
  map Section101Visual.rank items
  = map (fun i => Some (Z.of_nat i)) (seq 1 (List.length items)).

(** The positions of the items of the scroll crawler are exactly 1..N. *)
Definition positioned (items : list ShoppingScroll.LiItem) : Prop :=
  map ShoppingScroll.idx items
  = map Z.of_nat (seq 1 (List.length items)).

(** The item was read from the element: its text is the text the
    element answered, trimmed, and its markup the [outerHTML] the element
    answered, each one the empty string when the element answered none. *)
Definition read_from (li : ShoppingScroll.li_answers) (it : ShoppingScroll.LiItem)
  : Prop :=
  exists t h,
    ShoppingScroll.on_text li = Selenium.Ok t
    /\ ShoppingScroll.on_outer li = Selenium.Ok h
    /\ ShoppingScroll.text it = Py.strip (Py.or_empty t)
    /\ ShoppingScroll.outer_html it = Py.or_empty h.

(** A count that one of the polls answered. *)
Definition polled (n : nat) (polls : list (Selenium.reply nat)) : Prop :=
  exists found, In found polls /\ ShoppingScroll.li_count_under_ul found = Selenium.Ok n.

(** The same browser, whose [driver.quit()] answers [r]. *)
Definition with_quit (r : Selenium.reply unit) (w : ShoppingScroll.world)
  : ShoppingScroll.world :=
  ShoppingScroll.mk_world
    (ShoppingScroll.on_chrome w) (ShoppingScroll.on_cdp w)
    (ShoppingScroll.on_get w) (ShoppingScroll.on_ready w)
    (ShoppingScroll.on_first_locate w)
    (ShoppingScroll.on_step w) (ShoppingScroll.on_sleep w)
    (ShoppingScroll.on_last_locate w) r.

(** The lines that parse among the non-blank lines of a file, in order. *)
Definition parsed {J : Type} (loads : string -> Dashboard.failure + J)
           (todo : list string) : list J :=
  flat_map (fun line =>
              if Dashboard.nonblank line
              then match loads line with
                   | inr item => [item]
                   | inl _ => []
                   end
              else []) todo.

(** The first failure of [json.loads] on a non-blank line that the
    reader does not catch. *)
Fixpoint first_failure {J : Type} (caught : Dashboard.failure -> bool)
         (loads : string -> Dashboard.failure + J) (todo : list string)
  : option Dashboard.failure :=
  match todo with
  | [] => None
  | line :: rest =>
      if Dashboard.nonblank line then
        match loads line with
        | inl f => if caught f then first_failure caught loads rest else Some f
        | inr _ => first_failure caught loads rest
        end
      else first_failure caught loads rest
  end.

(** Every non-blank line parses. *)
Definition all_parse {J : Type} (loads : string -> Dashboard.failure + J)
           (todo : list string) : Prop :=
  forall line, In line todo -> Dashboard.nonblank line = true ->
               exists item, loads line = inr item.

(** [line] is the first non-blank line of the file that does not parse,
    and [json.loads] fails on it with [f]. *)
Definition first_bad_line {J : Type} (loads : string -> Dashboard.failure + J)
           (todo : list string) (line : string) (f : Dashboard.failure) : Prop :=
  exists before after,
    todo = before ++ line :: after
    /\ all_parse loads before
    /\ Dashboard.nonblank line = true
    /\ loads line = inl f.

(** The text of a JSONL file that holds the documents [docs]. *)
Fixpoint jsonl (docs : list string) : string :=
  match docs with
  | [] => EmptyString
  | d :: rest => ((d ++ String Py.LF EmptyString) ++ jsonl rest)%string
  end.

(** The byte is not that of a control character below U+0020. *)
Definition printable (c : ascii) : bool := (32 <=? nat_of_ascii c)%nat.

(** The string holds no control character. *)
Definition all_printable (s : string) : Prop :=
  forallb printable (Py.chars s) = true.

End Observed.

(* ================================================================== *)
(** ** Sample documents *)
(* ================================================================== *)

Module Samples.
Import Dom.

Definition a_link (cls : list string) (href text : string) : node :=
  Elem (mk_tag "a" [("href", href)] cls) [Text text].
Definition li (cls : list string) (kids : list node) : node :=
  Elem (mk_tag "li" [] cls) kids.
Definition ul (id : string) (kids : list node) : node :=
  Elem (mk_tag "ul" [("id", id)] []) kids.
Definition headline (href text : string) : node :=
  li ["sa_item"; "_SECTION_HEADLINE"] [a_link ["sa_text_title"] href text].

(** A [div] and then a [ul], both with a prefixed id, neither with the
    configured one. *)
Definition doc_div_then_ul : soup :=
  [ Elem (mk_tag "div" [("id", "_SECTION_HEADLINE_LIST_a")] []) [];
    ul "_SECTION_HEADLINE_LIST_b" [headline "/n/1" "one"] ].

(** A container with two children: a [div] that carries both classes,
    and a plain [li] that wraps a nested list with one headline item. *)
Definition ul_nested : element :=
  mk_element [] (mk_tag "ul" [("id", "_SECTION_HEADLINE_LIST_4aiik")] [])
    [ Elem (mk_tag "div" [] ["sa_item"; "_SECTION_HEADLINE"]) [Text "banner"];
      li ["group"] [ Elem (mk_tag "ul" [] []) [headline "/n/1" "one"] ] ].

(** The three items of the filter-precision property. *)
Definition ul_three : element :=
  mk_element [] (mk_tag "ul" [("id", "_SECTION_HEADLINE_LIST_4aiik")] [])
    [ li ["sa_item"; "_SECTION_HEADLINE"; "is_blind"] [a_link [] "/n/1" "one"];
      li ["sa_item"] [a_link [] "/n/2" "two"];
      li ["sa_item"; "_SECTION_HEADLINE"] [a_link [] "/n/3" "three"] ].

(** An item whose press line holds two spaces in a row, between a
    comment and a script. *)
Definition li_wide_press : element :=
  mk_element [] (mk_tag "li" [] ["sa_item"; "_SECTION_HEADLINE"])
    [ a_link ["sa_text_title"] "/n/1" "one";
      Elem (mk_tag "div" [] ["sa_text_press"])
           [ Other Comment " press ";
             Text " Yonhap  News ";
             Elem (mk_tag "script" [] []) [Other Script "track()"] ] ].

(** Items as the filter hands them out of a top-level list. *)
Definition item_of (n : node) : element :=
  match n with
  | Elem t kids => mk_element [mk_tag "ul" [("id", "_SECTION_HEADLINE_LIST_4aiik")] []] t kids
  | Text _ | Other _ _ => mk_element [] (mk_tag "" [] []) []
  end.

(** A headline item without any anchor. *)
Definition li_unlinked : element :=
  item_of (li ["sa_item"; "_SECTION_HEADLINE"] [Text "no link here"]).

(** Five headline items, the third one without a link. *)
Definition five_items : list element :=
  [ item_of (headline "/n/1" "one"); item_of (headline "/n/2" "two");
    li_unlinked;
    item_of (headline "/n/4" "four"); item_of (headline "/n/5" "five") ].

(** A page of [n] headlines in the configured list. *)
Definition page_of (n : nat) : soup :=
  [ ul "_SECTION_HEADLINE_LIST_4aiik"
       (map (fun _ => headline "/n/x" "headline") (seq 0 n)) ].

(** [urljoin] on the links of the samples, which are paths on the host
    of the section; a link that starts with [//[] makes it raise. *)
Definition host_urljoin (base href : string) : option string :=
  if String.prefix "//[" href then None
  else Some ("https://news.naver.com" ++ href)%string.

(** A site that serves the documents [fetch] gives, on which pauses
    return and [urlparse] accepts the section URL. *)
Definition site (fetch : Effects.page_url -> option soup) : Section101.web :=
  Section101.mk_web fetch (fun _ => true) (fun _ => true) host_urljoin.

(** A site whose first page has 10 headlines and every other page 7. *)
Definition site_10_7 : Section101.web :=
  site (fun u => match u with
                 | Effects.Plain _ => Some (page_of 10)
                 | Effects.Paged _ _ => Some (page_of 7)
                 end).

(** What a two-page run over that site returns. *)
Definition records_10_7 : list Section101.HeadlineItem :=
  Eval vm_compute in
    match snd (Section101.crawl site_10_7 Section101.DEFAULT_SECTION_URL
                                Section101.DEFAULT_LIST_ID 2 (Py.Fin 0)) with
    | inr items => items
    | inl _ => []
    end.
Definition trace_10_7 : Effects.trace :=
  Eval vm_compute in
    fst (Section101.crawl site_10_7 Section101.DEFAULT_SECTION_URL
                          Section101.DEFAULT_LIST_ID 2 (Py.Fin 0)).

(** A site whose second page has lost its list. *)
Definition site_broken_page2 : Section101.web :=
  site (fun u => match u with
                 | Effects.Paged _ 2 =>
                     Some [Elem (mk_tag "div" [] []) [Text "maintenance"]]
                 | _ => Some (page_of 3)
                 end).

(** A page whose only headline links through its thumbnail: the anchor
    holds an image and no text. *)
Definition doc_thumbnail_only : soup :=
  [ ul "_SECTION_HEADLINE_LIST_4aiik"
       [ li ["sa_item"; "_SECTION_HEADLINE"]
            [ Elem (mk_tag "a" [("href", "/n/1")] ["sa_thumb_link"])
                   [Elem (mk_tag "img" [("src", "/t.png")] []) []] ] ] ].

(** [--pages -3 --sleep nan --timeout 0.5], and [--scrolls -1
    --wait-sec -2 --timeout nan] for the scroll crawler. *)
Definition args_no_pages : Section101.args :=
  Section101.mk_args Section101.DEFAULT_SECTION_URL Section101.DEFAULT_LIST_ID
                     (-3) Py.NaN (Py.Fin (1 # 2)).
Definition args_ten_seconds : Section101.args :=
  Section101.mk_args Section101.DEFAULT_SECTION_URL Section101.DEFAULT_LIST_ID
                     3 (Py.Fin (4 # 5)) (Py.Fin 10).
Definition args_scroll : ShoppingScroll.args :=
  ShoppingScroll.mk_args "https://shopping.naver.com/promotion" (-1)
                         (Py.Fin (-2 # 1)) Py.NaN.

(** A site that serves that page. *)
Definition site_thumbnail_only : Section101.web :=
  site (fun _ => Some doc_thumbnail_only).

(** The record parsed from that headline. *)
Definition untitled_record : Section101.HeadlineItem :=
  Section101.mk_item "" "https://news.naver.com/n/1"
                     None None None false (Some 1%Z).

(** The first item of [ul_three], as the filter hands it out, and the
    record parsed from it. *)
Definition blind_li : element :=
  mk_element [el_tag ul_three]
             (mk_tag "li" [] ["sa_item"; "_SECTION_HEADLINE"; "is_blind"])
             [a_link [] "/n/1" "one"].
Definition blind_record : Section101.HeadlineItem :=
  Section101.mk_item "one" "https://news.naver.com/n/1"
                     None None None true None.

End Samples.

Module VisualSamples.
Import Effects Selenium Section101Visual.

Definition li_one : li_answers :=
  mk_li (Ok (Some "sa_item _SECTION_HEADLINE"))
        (Ok (mk_link (Ok "one") (Ok (Some "https://n.news.naver.com/article/1"))))
        (Raises NoSuchElementException)
        (Ok "Press") (Raises NoSuchElementException)
        (Ok "1 min") (Raises NoSuchElementException).

Definition page_without_list : page_answers :=
  mk_page (Ok tt) (Raises TimeoutException) (Raises NoSuchElementException).

Definition page_with_one : page_answers :=
  mk_page (Ok tt) (Ok tt) (Ok (Ok [li_one])).

(** The list never shows up on the first page; the second page is fine. *)
Definition world_page1_missing : world :=
  mk_world (Ok tt)
           (fun u => match u with
                     | Plain _ => page_without_list
                     | Paged _ _ => page_with_one
                     end)
           usual_sleep
           (Ok tt)
           (fun _ => true).

End VisualSamples.

Module ScrollSamples.
Import Effects Selenium ShoppingScroll.

(** A [ul] found by the CSS wait, and one found by the XPath wait only. *)
Definition found {A} (ul : A) : locate_answers A :=
  mk_locate (Ok ul) (Raises TimeoutException).
Definition found_by_xpath {A} (ul : A) : locate_answers A :=
  mk_locate (Raises TimeoutException) (Ok ul).

(** A step during which five polls see the 20 items already counted. *)
Definition step_without_growth : step_answers :=
  mk_step (Ok tt) (found_by_xpath [Ok 20; Ok 20; Ok 20; Ok 20; Ok 20]%nat).

(** A step whose second poll sees 40 items. *)
Definition step_with_growth : step_answers :=
  mk_step (Ok tt) (found [Ok 20; Ok 40; Ok 40]%nat).

Definition two_lis : list (option string * option string) :=
  [ (Some " first ", Some "<li>first</li>"); (Some "second", None) ].

(** The elements below the final [ul]: the two items, the second one
    below a [div]. *)
Definition below_two_lis : list below :=
  [ Node "li" (ClaimedScroll.answered (Some " first ", Some "<li>first</li>")) [];
    Node "div" (ClaimedScroll.answered (None, None))
         [ Node "li" (ClaimedScroll.answered (Some "second", None)) [] ] ].

(** A page that starts with 20 items, stalls on the first scroll and
    grows on the later ones. *)
Definition world_stalls_once : world :=
  mk_world (Ok tt) (Ok tt) (Ok tt) (Ok tt) (found (Ok 20%nat))
           (fun i => if (i =? 0)%Z then step_without_growth else step_with_growth)
           usual_sleep
           (found_by_xpath (Ok below_two_lis))
           (Ok tt).

(** The same browser, on a site that cannot be reached. *)
Definition world_unreachable : world :=
  mk_world (Ok tt) (Ok tt) (Raises WebDriverException) (Ok tt)
           (found (Ok 0%nat))
           (fun _ => step_without_growth) usual_sleep (found (Ok [])) (Ok tt).

End ScrollSamples.

Module ExtraSamples.
Import Dom.

(** An item whose title link has an empty [href], followed by an ordinary
    link. *)
Definition li_empty_title_href : element :=
  Samples.item_of
    (Samples.li ["sa_item"; "_SECTION_HEADLINE"]
       [ Samples.a_link ["sa_text_title"] "" "headline";
         Samples.a_link [] "/n/1" "more" ]).

End ExtraSamples.

Module ExtraVisualSamples.
Import Effects Selenium Section101Visual.

(** An [li] without any anchor. *)
Definition li_no_anchor : li_answers :=
  mk_li (Ok (Some "sa_item _SECTION_HEADLINE"))
        (Raises NoSuchElementException) (Raises NoSuchElementException)
        (Ok "Press") (Ok "lede") (Ok "1 min") (Raises NoSuchElementException).

(** An [li] whose class attribute holds [is_blind] inside a longer word. *)
Definition li_blindish : li_answers :=
  mk_li (Ok (Some ("sa_item not_" ++ "is_blind" ++ "_any_more")%string))
        (Ok (mk_link (Ok " two ") (Ok None)))
        (Raises NoSuchElementException)
        (Ok "  ") (Raises NoSuchElementException)
        (Raises NoSuchElementException) (Ok "2 min").

(** A site with the same three items on every page. *)
Definition world_three_items : world :=
  mk_world (Ok tt)
           (fun _ => mk_page (Ok tt) (Ok tt)
                             (Ok (Ok [VisualSamples.li_one; li_no_anchor;
                                      li_blindish])))
           usual_sleep (Ok tt) (fun _ => true).

Definition records_three_items : list HeadlineItem :=
  Eval vm_compute in
    match snd (crawl_visual world_three_items "https://news.naver.com/section/101"
                            2 (Py.Fin 2)) with
    | Ok items => items
    | Raises _ => []
    end.
Definition trace_three_items : trace :=
  Eval vm_compute in
    fst (crawl_visual world_three_items "https://news.naver.com/section/101"
                      2 (Py.Fin 2)).

(** The record of [li_blindish] on the first page: the second one, the
    item without an anchor taking no rank. *)
Definition record_two : HeadlineItem :=
  mk_item "two" None None (Some "2 min") None true (Some 2%Z).

(** The ideographic space U+3000 and the no-break space U+00A0. *)
Definition ideographic_space : string :=
  String "227" (String "128" (String "128" EmptyString)).
Definition no_break_space : string :=
  String "194" (String "160" EmptyString).

(** The two syllables U+C81C U+BAA9 of the Korean word for a title; the
    second byte of the first one is A0. *)
Definition title_word : string :=
  String "236" (String "160" (String "156"
    (String "235" (String "170" (String "169" EmptyString))))).

(** That word between an ideographic space and a no-break space. *)
Definition padded_title_word : string :=
  ideographic_space ++ title_word ++ no_break_space.

End ExtraVisualSamples.

Module ExtraScrollSamples.
Import Effects Selenium ShoppingScroll.

(** The browser of [world_stalls_once], whose [quit] fails. *)
Definition world_quit_fails : world :=
  Observed.with_quit (Raises WebDriverException) ScrollSamples.world_stalls_once.

Definition items_stalls_once : list LiItem :=
  [ mk_item 1 "first" "<li>first</li>"; mk_item 2 "second" "" ].

Definition trace_stalls_once : trace :=
  Eval vm_compute in
    fst (crawl ScrollSamples.world_stalls_once
               "https://shopping.naver.com/promotion" 5 (Py.Fin (9 # 10))).

End ExtraScrollSamples.

Module StorageSamples.

(** A reader that keeps the line it is given, and fails on a line that
    does not start with a brace. *)
Definition keep_object (line : string) : Dashboard.failure + string :=
  match line with
  | String "{" _ => inr line
  | _ => inl Dashboard.JSONDecodeError
  end.

(** The line that [save_jsonl] writes for a record of the scroll crawler. *)
Definition line_of (it : ShoppingScroll.LiItem) : string :=
  Json.dumps (ShoppingScroll.asdict it) ++ String Py.LF EmptyString.

(** A line that is not JSON. *)
Definition bad_line : string := "oops" ++ String Py.LF EmptyString.

(** A file with a blank line and a line that is not JSON. *)
Definition noisy_file : list string :=
  [ String "{" (String "}" (String Py.LF EmptyString));
    String " " (String Py.LF EmptyString);
    bad_line;
    String "{" (String "}" EmptyString) ].

(** A file of two records around a blank line. *)
Definition two_records : list string :=
  [ String "{" (String "}" (String Py.LF EmptyString));
    String " " (String Py.LF EmptyString);
    String "{" (String "}" EmptyString) ].

(** A renderer that writes the number of its items, up to two. *)
Definition count_lines (items : list string) : option string :=
  match items with
  | [] => Some "0"
  | [_] => Some "1"
  | [_; _] => Some "2"
  | _ => None
  end.

(** A file of blank lines only. *)
Definition blank_file : list string :=
  [ String " " (String Py.LF EmptyString); String Py.LF EmptyString ].

End StorageSamples.

(* ================================================================== *)
(** ** Facts about document search *)
(* ================================================================== *)

Section NodeInduction.
Variable P : Dom.node -> Prop.
Hypothesis text_case : forall s, P (Dom.Text s).
Hypothesis other_case : forall k s, P (Dom.Other k s).
Hypothesis elem_case : forall t kids, Forall P kids -> P (Dom.Elem t kids).

Fixpoint node_induction (n : Dom.node) : P n :=
  match n with
  | Dom.Text s => text_case s
  | Dom.Other k s => other_case k s
  | Dom.Elem t kids =>
      elem_case t kids
        ((fix all (ks : list Dom.node) : Forall P ks :=
            match ks with
            | [] => Forall_nil P
            | k :: ks' => Forall_cons k (node_induction k) (all ks')
            end) kids)
  end.
End NodeInduction.

Section SearchFacts.
Import Dom.
Variable p : list tag -> tag -> bool.

Lemma flat_map_filter {A B} (f g : A -> list B) (q : B -> bool) (l : list A) :
  Forall (fun a => f a = filter q (g a)) l ->
  flat_map f l = filter q (flat_map g l).
Proof.
  induction 1 as [| a l Ha _ IH]; simpl.
  - reflexivity.
  - rewrite filter_app, Ha, IH. reflexivity.
Qed.

Lemma search_node_filter (n : node) :
  forall anc, search_node p anc n = filter (on_element p) (elements_of anc n).
Proof.
  induction n as [s | k s | t kids IH] using node_induction; intros anc.
  - reflexivity.
  - reflexivity.
  - cbn [search_node elements_of filter].
    change (on_element p (mk_element anc t kids)) with (p anc t).
    assert (Hk : flat_map (search_node p (t :: anc)) kids
                 = filter (on_element p)
                     (flat_map (elements_of (t :: anc)) kids)).
    { apply flat_map_filter.
      eapply Forall_impl; [| exact IH]. intros k Hk. apply Hk. }
    rewrite Hk. destruct (p anc t); reflexivity.
Qed.

Lemma search_forest_filter (anc : list tag) (ns : list node) :
  search_forest p anc ns = filter (on_element p) (elements anc ns).
Proof.
  unfold search_forest, elements. apply flat_map_filter.
  apply Forall_forall. intros n _. apply search_node_filter.
Qed.
End SearchFacts.

Lemma anc_match_nil (anc : list Dom.tag) : Dom.anc_match [] anc = true.
Proof. destruct anc; reflexivity. Qed.

Lemma hd_error_filter {A} (q : A -> bool) (l : list A) :
  hd_error (filter q l) = find q l.
Proof.
  induction l as [| a l IH]; simpl; [reflexivity |].
  destruct (q a); [reflexivity | exact IH].
Qed.

Lemma filter_ext_bool {A} (f g : A -> bool) (l : list A) :
  (forall a, f a = g a) -> filter f l = filter g l.
Proof.
  intros H. induction l as [| a l IH]; simpl; [reflexivity |].
  rewrite H, IH. reflexivity.
Qed.

Lemma find_ext_bool {A} (f g : A -> bool) (l : list A) :
  (forall a, f a = g a) -> find f l = find g l.
Proof.
  intros H. induction l as [| a l IH]; simpl; [reflexivity |].
  rewrite H, IH. reflexivity.
Qed.

(* ================================================================== *)
(** ** Container locator *)
(* ================================================================== *)

Section Locator.
Import Dom Section101.

Lemma soup_find_id_find (doc : soup) (v : string) :
  soup_find_id v doc = find (Claimed.id_is v) (elements [] doc).
Proof.
  unfold soup_find_id. rewrite search_forest_filter, hd_error_filter.
  reflexivity.
Qed.

Lemma sel_ul_prefix_matches (e : element) :
  on_element (sel_matches sel_ul_prefix) e
  = Claimed.named "ul" e
    && Claimed.id_starts_with "_SECTION_HEADLINE_LIST_" e.
Proof.
  unfold on_element, sel_matches, sel_ul_prefix, compound_matches,
    Claimed.named, Claimed.id_starts_with.
  cbn [s_subject s_ancestors c_tag c_classes c_attrs forallb anc_match
       attr_test_holds].
  change (String.eqb "_SECTION_HEADLINE_LIST_" "") with false.
  rewrite anc_match_nil.
  destruct (attr "id" (el_tag e)) as [v |];
    cbn [negb andb]; rewrite ?andb_true_r, ?andb_false_r; reflexivity.
Qed.

Lemma soup_select_ul_prefix (doc : soup) :
  hd_error (soup_select sel_ul_prefix doc)
  = find (fun e => Claimed.named "ul" e
                   && Claimed.id_starts_with "_SECTION_HEADLINE_LIST_" e)
         (elements [] doc).
Proof.
  unfold soup_select. rewrite search_forest_filter, hd_error_filter.
  apply find_ext_bool, sel_ul_prefix_matches.
Qed.

(** C3, as the code has it: for a non-empty primary id, the locator
    returns the first element of the document whose id is exactly the
    primary id when there is one; otherwise the first [ul] element, in
    document order, whose id starts with [_SECTION_HEADLINE_LIST_]; and
    nothing when there is neither. *)
Theorem pick_ul_locates (doc : soup) (list_id : string) :
  list_id <> "" ->
  pick_ul doc list_id =
    match find (Claimed.id_is list_id) (elements [] doc) with
    | Some found => Some found
    | None =>
        find (fun e => Claimed.named "ul" e
                       && Claimed.id_starts_with "_SECTION_HEADLINE_LIST_" e)
             (elements [] doc)
    end.
Proof.
  intros _. unfold pick_ul. rewrite soup_find_id_find.
  destruct (find (Claimed.id_is list_id) (elements [] doc)); [reflexivity |].
  rewrite <- soup_select_ul_prefix.
  destruct (soup_select sel_ul_prefix doc); reflexivity.
Qed.

Lemma pick_ul_locates_witness :
  DEFAULT_LIST_ID <> ""
  /\ pick_ul Samples.doc_div_then_ul DEFAULT_LIST_ID
     = match find (Claimed.id_is DEFAULT_LIST_ID)
                  (elements [] Samples.doc_div_then_ul) with
       | Some found => Some found
       | None =>
           find (fun e => Claimed.named "ul" e
                          && Claimed.id_starts_with "_SECTION_HEADLINE_LIST_" e)
                (elements [] Samples.doc_div_then_ul)
       end.
Proof.
  split.
  - discriminate.
  - apply (pick_ul_locates Samples.doc_div_then_ul DEFAULT_LIST_ID).
    discriminate.
Defined.

(** C3 as worded fails: with a [div] and then a [ul] that both carry a
    prefixed id, the first prefixed node is the [div], and the locator
    returns the [ul]. *)
Lemma pick_ul_skips_non_ul :
  ~ (forall doc list_id,
        pick_ul doc list_id
        = Claimed.locate doc list_id "_SECTION_HEADLINE_LIST_").
Proof.
  intros H.
  specialize (H Samples.doc_div_then_ul DEFAULT_LIST_ID).
  vm_compute in H. discriminate H.
Qed.
End Locator.

(* ================================================================== *)
(** ** Item filter *)
(* ================================================================== *)

Section ItemFilter.
Import Dom Section101.

Lemma sel_target_li_matches (e : element) :
  on_element (sel_matches sel_target_li) e
  = Claimed.named "li" e
    && Claimed.has_classes ["sa_item"; "_SECTION_HEADLINE"] e.
Proof.
  unfold on_element, sel_matches, sel_target_li, compound_matches,
    Claimed.named, Claimed.has_classes.
  cbn [s_subject s_ancestors c_tag c_classes c_attrs forallb].
  rewrite anc_match_nil, !andb_true_r. reflexivity.
Qed.

(** What a record says of the item it was parsed from. *)
Lemma parse_item_record (w : web) (li : element) (base_url : string)
      (item : HeadlineItem) :
  parse_item w li base_url = inr (Some item) ->
  exists link href,
    Py.or_else (select_one sel_title_link li) (select_one sel_any_link li)
    = Some link
    /\ attr "href" (el_tag link) = Some href
    /\ href <> ""
    /\ urljoin w base_url href = Some (url item)
    /\ title item = Py.or_empty (extract_text (Some link))
    /\ press item = first_text li press_selectors
    /\ datetime item = first_text li datetime_selectors
    /\ lede item = first_text li lede_selectors
    /\ is_blind item = Py.mem "is_blind" (tag_class (el_tag li))
    /\ rank item = None.
Proof.
  unfold parse_item.
  destruct (Py.or_else _ _) as [link |]; [| discriminate].
  destruct (attr "href" (el_tag link)) as [href |] eqn:Ha; [| discriminate].
  destruct (String.eqb href "") eqn:He; [discriminate |].
  destruct (urljoin w base_url href) as [u |] eqn:Hu; [| discriminate].
  intros H. injection H as <-. exists link, href.
  split; [reflexivity |]. split; [exact Ha |]. split.
  - intros Hempty. rewrite Hempty in He. discriminate He.
  - repeat split. exact Hu.
Qed.

Lemma parse_item_is_blind (w : web) (li : element) (base_url : string)
      (item : HeadlineItem) :
  parse_item w li base_url = inr (Some item) ->
  is_blind item = Py.mem "is_blind" (tag_class (el_tag li)).
Proof.
  intros H. apply parse_item_record in H.
  destruct H as (link & href & _ & _ & _ & _ & _ & _ & _ & _ & H & _). exact H.
Qed.

(** C5, as the code has it: the filter yields exactly the [li] elements
    below the container, at any depth, whose class set is a superset of
    {sa_item, _SECTION_HEADLINE}, in document order; an extra class such
    as [is_blind] does not disqualify an item, an item with [sa_item]
    alone is left out, and the [is_blind] flag of a record tells whether
    its item carries the class [is_blind]. *)
Theorem iter_target_lis_filters (ul : element) :
  iter_target_lis ul
  = filter (fun e => Claimed.named "li" e
                     && Claimed.has_classes ["sa_item"; "_SECTION_HEADLINE"] e)
           (descendants ul)
  /\ (forall w li base_url item,
         In li (iter_target_lis ul) ->
         parse_item w li base_url = inr (Some item) ->
         is_blind item = Py.mem "is_blind" (tag_class (el_tag li))).
Proof.
  split.
  - unfold iter_target_lis, select, descendants.
    rewrite search_forest_filter.
    apply filter_ext_bool, sel_target_li_matches.
  - intros w li base_url item _. apply parse_item_is_blind.
Qed.

Lemma iter_target_lis_filters_witness :
  map (fun e => tag_class (el_tag e)) (iter_target_lis Samples.ul_three)
  = [ ["sa_item"; "_SECTION_HEADLINE"; "is_blind"];
      ["sa_item"; "_SECTION_HEADLINE"] ]
  /\ In Samples.blind_li (iter_target_lis Samples.ul_three)
  /\ parse_item Samples.site_10_7 Samples.blind_li "https://news.naver.com"
     = inr (Some Samples.blind_record)
  /\ is_blind Samples.blind_record
     = Py.mem "is_blind" (tag_class (el_tag Samples.blind_li)).
Proof.
  assert (Hin : In Samples.blind_li (iter_target_lis Samples.ul_three))
    by (left; reflexivity).
  assert (Hparse : parse_item Samples.site_10_7 Samples.blind_li
                              "https://news.naver.com"
                   = inr (Some Samples.blind_record)) by reflexivity.
  split; [reflexivity |].
  split; [exact Hin |].
  split; [exact Hparse |].
  exact (proj2 (iter_target_lis_filters Samples.ul_three)
               Samples.site_10_7 Samples.blind_li "https://news.naver.com"
               Samples.blind_record Hin Hparse).
Defined.

(** C5 as worded fails: of the two children of the sample container
    the [div] carries both classes and is not yielded, while the headline
    [li] nested below the other child, which is not a child node of the
    container, is. *)
Lemma iter_target_lis_not_children_only :
  ~ (forall container,
        iter_target_lis container = Claimed.filter_children container).
Proof.
  intros H. specialize (H Samples.ul_nested).
  vm_compute in H. discriminate H.
Qed.
End ItemFilter.

(* ================================================================== *)
(** ** Facts about [strip] and [join] *)
(* ================================================================== *)

Section StripFacts.
Import Py.

Lemma lstrip_eq (s : string) :
  lstrip s = match after_space s with
             | Some r => lstrip r
             | None => s
             end.
Proof.
  destruct s as [| a r]; [reflexivity |].
  cbn [after_space]. destruct (space1 a) eqn:H1.
  - cbn [lstrip]. rewrite H1. reflexivity.
  - destruct r as [| b r2]; [cbn [lstrip]; rewrite H1; reflexivity |].
    destruct (space2 a b) eqn:H2.
    + cbn [lstrip]. rewrite H1, H2. reflexivity.
    + destruct r2 as [| c r3]; [cbn [lstrip]; rewrite H1, H2; reflexivity |].
      destruct (space3 a b c) eqn:H3; cbn [lstrip]; rewrite H1, H2, H3;
        reflexivity.
Qed.

Lemma after_space_length (s r : string) :
  after_space s = Some r -> (String.length r < String.length s)%nat.
Proof.
  destruct s as [| a [| b [| c t]]]; cbn [after_space];
    repeat match goal with
           | |- context [if ?x then _ else _] => destruct x
           end;
    intros H; try discriminate H; injection H as <-; cbn [String.length]; lia.
Qed.

Lemma after_space_app (s r t : string) :
  after_space s = Some r -> after_space (s ++ t) = Some (r ++ t)%string.
Proof.
  destruct s as [| a [| b [| c u]]]; cbn [after_space append];
    repeat match goal with
           | |- context [if ?x then _ else _] => destruct x
           end;
    intros H; try discriminate H; injection H as <-; reflexivity.
Qed.

Lemma by_length (P : string -> Prop) :
  (forall s, (forall r, (String.length r < String.length s)%nat -> P r) -> P s) ->
  forall s, P s.
Proof.
  intros H s.
  assert (Hn : forall n r, (String.length r < n)%nat -> P r).
  { induction n as [| n IH]; intros r Hr; [lia |].
    apply H. intros r' Hr'. apply IH. lia. }
  apply (Hn (S (String.length s))). lia.
Qed.

Lemma lstrip_stuck (s : string) : after_space (lstrip s) = None.
Proof.
  induction s as [s IH] using by_length.
  rewrite lstrip_eq. destruct (after_space s) as [r |] eqn:Hs; [| exact Hs].
  apply IH, after_space_length, Hs.
Qed.

Lemma lstrip_idem (s : string) : lstrip (lstrip s) = lstrip s.
Proof. rewrite (lstrip_eq (lstrip s)), lstrip_stuck. reflexivity. Qed.

Lemma lstrip_fixed (s : string) : lstrip s = s <-> s = "" \/ after_space s = None.
Proof.
  split.
  - intros H. right. rewrite <- H. apply lstrip_stuck.
  - intros [-> | H]; [reflexivity |]. rewrite lstrip_eq, H. reflexivity.
Qed.

Lemma blank_app (x y : string) : lstrip x = "" -> lstrip (x ++ y) = lstrip y.
Proof.
  induction x as [x IH] using by_length. intros Hx.
  rewrite lstrip_eq in Hx.
  destruct (after_space x) as [x' |] eqn:Ha.
  - rewrite (lstrip_eq (x ++ y)), (after_space_app _ _ y Ha).
    apply IH; [apply after_space_length, Ha | exact Hx].
  - subst x. reflexivity.
Qed.

Lemma rstrip_split (s : string) :
  exists t, s = (rstrip s ++ t)%string /\ lstrip t = "".
Proof.
  induction s as [| a r IH]; [exists ""; split; reflexivity |].
  cbn [rstrip]. unfold blank.
  destruct (String.eqb (lstrip (String a r)) "") eqn:Hb.
  - exists (String a r). split; [reflexivity | apply String.eqb_eq, Hb].
  - destruct IH as (t & Hr & Ht). exists t. split; [| exact Ht].
    cbn [append]. f_equal. exact Hr.
Qed.

Lemma rstrip_idem (s : string) : rstrip (rstrip s) = rstrip s.
Proof.
  induction s as [| a r IH]; [reflexivity |].
  cbn [rstrip]. unfold blank.
  destruct (String.eqb (lstrip (String a r)) "") eqn:Hb; [reflexivity |].
  cbn [rstrip]. unfold blank.
  destruct (String.eqb (lstrip (String a (rstrip r))) "") eqn:Hb'.
  - apply String.eqb_eq in Hb'. apply String.eqb_neq in Hb.
    exfalso. apply Hb.
    destruct (rstrip_split r) as (t & Hr & Ht).
    rewrite Hr at 1.
    change (String a (rstrip r ++ t)) with (String a (rstrip r) ++ t)%string.
    rewrite (blank_app _ t Hb'). exact Ht.
  - rewrite IH. reflexivity.
Qed.

Lemma lstrip_rstrip (s : string) : lstrip s = s -> lstrip (rstrip s) = rstrip s.
Proof.
  intros H. apply lstrip_fixed.
  destruct (after_space (rstrip s)) as [x |] eqn:Ha; [| right; reflexivity].
  left. destruct (rstrip_split s) as (t & Hs & Ht).
  apply (after_space_app _ _ t) in Ha. rewrite <- Hs in Ha.
  apply lstrip_fixed in H. destruct H as [-> | H]; [reflexivity |].
  rewrite H in Ha. discriminate Ha.
Qed.

Lemma strip_idem (s : string) : strip (strip s) = strip s.
Proof.
  unfold strip. rewrite lstrip_rstrip by apply lstrip_idem. apply rstrip_idem.
Qed.

Lemma strip_clean_or_empty (s : string) : strip s = "" \/ clean (strip s).
Proof.
  destruct (strip s) as [| a r] eqn:Hs; [left; reflexivity |].
  right. rewrite <- Hs. split; [rewrite Hs; discriminate |]. split.
  - unfold strip. apply lstrip_rstrip, lstrip_idem.
  - unfold strip. apply rstrip_idem.
Qed.

Lemma clean_trimmed (s : string) : clean s -> strip s = s.
Proof. intros (_ & Hl & Hr). unfold strip. rewrite Hl. exact Hr. Qed.

Lemma clean_nonempty (s : string) : clean s -> s <> "".
Proof. intros [H _]. exact H. Qed.

(** A space byte never lies inside the encoding of another character. *)
Lemma after_space_before_space (x y r : string) :
  x <> "" ->
  after_space (x ++ String " " y) = Some r ->
  exists x', after_space x = Some x' /\ r = (x' ++ String " " y)%string.
Proof.
  intros Hx.
  destruct x as [| a [| b [| c u]]]; [contradiction | | |];
    cbn [after_space append].
  - destruct (space1 a); [intros H; injection H as <-; exists ""; split; reflexivity |].
    assert (H2 : space2 a " " = false)
      by (unfold space2; cbn; apply andb_false_r).
    rewrite H2.
    destruct y as [| c y]; [discriminate |].
    assert (H3 : space3 a " " c = false).
    { unfold space3. cbn. rewrite !andb_false_r. reflexivity. }
    rewrite H3. discriminate.
  - destruct (space1 a); [intros H; injection H as <-; eexists; split; reflexivity |].
    destruct (space2 a b); [intros H; injection H as <-; exists ""; split; reflexivity |].
    assert (H3 : space3 a b " " = false).
    { unfold space3. cbn. rewrite !andb_false_r. reflexivity. }
    rewrite H3. discriminate.
  - destruct (space1 a); [intros H; injection H as <-; eexists; split; reflexivity |].
    destruct (space2 a b); [intros H; injection H as <-; eexists; split; reflexivity |].
    destruct (space3 a b c); [| discriminate].
    intros H; injection H as <-; eexists; split; reflexivity.
Qed.

Lemma not_blank_before_space (b : string) :
  lstrip b = b -> b <> "" ->
  forall x, lstrip (x ++ String " " b) <> "".
Proof.
  intros Hl Hne x. induction x as [x IH] using by_length.
  destruct x as [| a u] eqn:Hx.
  - cbn [append]. rewrite lstrip_eq. cbn [after_space].
    change (space1 " ") with true. cbn iota. rewrite Hl. exact Hne.
  - rewrite <- Hx in *. rewrite lstrip_eq.
    destruct (after_space (x ++ String " " b)) as [r |] eqn:Ha.
    + apply after_space_before_space in Ha; [| rewrite Hx; discriminate].
      destruct Ha as (x' & Hx' & ->). apply IH.
      apply after_space_length, Hx'.
    + rewrite Hx. discriminate.
Qed.

Lemma rstrip_before_space (b : string) :
  clean b -> forall x, rstrip (x ++ String " " b) = (x ++ String " " b)%string.
Proof.
  intros (Hne & Hl & Hr) x.
  induction x as [| a x IH].
  - cbn [append rstrip]. unfold blank.
    pose proof (not_blank_before_space b Hl Hne "") as Hnb. cbn [append] in Hnb.
    apply String.eqb_neq in Hnb. rewrite Hnb, Hr. reflexivity.
  - cbn [append rstrip]. unfold blank.
    pose proof (not_blank_before_space b Hl Hne (String a x)) as Hnb.
    cbn [append] in Hnb. apply String.eqb_neq in Hnb. rewrite Hnb, IH.
    reflexivity.
Qed.

Lemma lstrip_before_space (a y : string) :
  a <> "" -> lstrip a = a -> lstrip (a ++ String " " y) = (a ++ String " " y)%string.
Proof.
  intros Hne Hl. apply lstrip_fixed. right.
  destruct (after_space (a ++ String " " y)) as [r |] eqn:Ha; [| reflexivity].
  apply after_space_before_space in Ha; [| exact Hne].
  destruct Ha as (x' & Hx' & _).
  apply lstrip_fixed in Hl. destruct Hl as [-> | Hl]; [contradiction |].
  rewrite Hl in Hx'. discriminate Hx'.
Qed.

Lemma clean_app (a b : string) :
  clean a -> clean b -> clean (a ++ " " ++ b).
Proof.
  intros (Hne & Hl & _) Hb. split; [| split].
  - destruct a; [contradiction | discriminate].
  - apply lstrip_before_space; assumption.
  - apply rstrip_before_space, Hb.
Qed.

Lemma join_clean (parts : list string) :
  Forall clean parts -> parts <> [] -> clean (join " " parts).
Proof.
  unfold join. induction 1 as [| p parts Hp Hps IH]; intros Hne.
  - contradiction.
  - destruct parts as [| q parts]; simpl; [exact Hp |].
    apply clean_app; [exact Hp |]. apply IH. discriminate.
Qed.

(** A byte that begins no whitespace character. *)
Lemma after_space_plain (a : ascii) (r : string) :
  space1 a = false ->
  byte_is 194 a = false ->
  byte_is 225 a = false -> byte_is 226 a = false -> byte_is 227 a = false ->
  after_space (String a r) = None.
Proof.
  intros H1 H2 H3 H4 H5. cbn [after_space]. rewrite H1.
  destruct r as [| b [| c r]]; [reflexivity | |];
    unfold space2; rewrite H2; cbn [andb]; [reflexivity |].
  unfold space3. rewrite H3, H4, H5. reflexivity.
Qed.

(** A string that starts with a byte that begins no whitespace
    character is not blank, and keeps that byte when stripped. *)
Lemma strip_plain_head (a : ascii) (r : string) :
  after_space (String a r) = None ->
  exists r', strip (String a r) = String a r'.
Proof.
  intros H. unfold strip.
  rewrite (proj2 (lstrip_fixed _) (or_intror H)).
  cbn [rstrip]. unfold blank.
  rewrite (proj2 (lstrip_fixed _) (or_intror H)).
  cbn [String.eqb]. eexists. reflexivity.
Qed.

Lemma stripped_strings_clean (e : Dom.element) :
  Forall clean (Dom.stripped_strings e).
Proof.
  unfold Dom.stripped_strings. apply Forall_forall. intros s Hs.
  apply filter_In in Hs. destruct Hs as [Hin Hne].
  apply in_map_iff in Hin. destruct Hin as (x & <- & _).
  destruct (strip_clean_or_empty x) as [H0 | Hc]; [| exact Hc].
  rewrite H0 in Hne. discriminate Hne.
Qed.

Lemma get_text_empty_iff (e : Dom.element) :
  Dom.get_text " " e = "" <-> Dom.stripped_strings e = [].
Proof.
  unfold Dom.get_text. split.
  - intros H. destruct (Dom.stripped_strings e) as [| p ps] eqn:Hs;
      [reflexivity |].
    exfalso. apply (clean_nonempty (join " " (p :: ps))); [| exact H].
    apply join_clean; [| discriminate].
    rewrite <- Hs. apply stripped_strings_clean.
  - intros ->. reflexivity.
Qed.

Lemma get_text_trimmed (e : Dom.element) :
  strip (Dom.get_text " " e) = Dom.get_text " " e.
Proof.
  unfold Dom.get_text.
  destruct (Dom.stripped_strings e) as [| p ps] eqn:Hs; [reflexivity |].
  apply clean_trimmed, join_clean; [| discriminate].
  rewrite <- Hs. apply stripped_strings_clean.
Qed.
End StripFacts.

(* ================================================================== *)
(** ** Field extractor *)
(* ================================================================== *)

Section FieldExtractor.
Import Dom Section101.

Lemma extract_text_candidate (li : element) (s : selector) :
  extract_text (select_one s li)
  = if String.eqb (Claimed.candidate_text li s) "" then None
    else Some (Claimed.candidate_text li s).
Proof.
  unfold extract_text, Claimed.candidate_text.
  destruct (select_one s li); reflexivity.
Qed.

Lemma first_text_find (li : element) (candidates : list selector) :
  first_text li candidates
  = option_map (Claimed.candidate_text li)
      (find (fun s => negb (String.eqb (Claimed.candidate_text li s) ""))
            candidates).
Proof.
  induction candidates as [| s rest IH]; simpl; [reflexivity |].
  rewrite extract_text_candidate.
  destruct (String.eqb (Claimed.candidate_text li s) ""); simpl;
    [exact IH | reflexivity].
Qed.

Lemma candidate_text_trimmed (li : element) (s : selector) :
  Py.strip (Claimed.candidate_text li s) = Claimed.candidate_text li s.
Proof.
  unfold Claimed.candidate_text.
  destruct (select_one s li); [apply get_text_trimmed | reflexivity].
Qed.

Lemma first_text_some (li : element) (candidates : list selector) (t : string) :
  first_text li candidates = Some t -> t <> "" /\ Py.strip t = t.
Proof.
  rewrite first_text_find.
  destruct (find _ candidates) as [s |] eqn:Hf; [| discriminate].
  simpl. intros H. injection H as <-.
  apply find_some in Hf. destruct Hf as [_ Hne]. split.
  - intros H0. rewrite H0 in Hne. discriminate Hne.
  - apply candidate_text_trimmed.
Qed.

Lemma parse_item_fields (w : web) (li : element) (base_url : string)
      (item : HeadlineItem) :
  parse_item w li base_url = inr (Some item) ->
  press item = first_text li press_selectors
  /\ datetime item = first_text li datetime_selectors
  /\ lede item = first_text li lede_selectors.
Proof.
  intros H. apply parse_item_record in H.
  destruct H as (link & href & _ & _ & _ & _ & _ & Hp & Hd & Hl & _).
  repeat split; assumption.
Qed.

Lemma comment_never_interesting (name s : string) :
  strings (interesting name) (Other Comment s) = [].
Proof.
  cbn [strings]. unfold interesting, string_container.
  repeat match goal with
         | |- context [String.eqb ?a ?b] => destruct (String.eqb a b)
         end; reflexivity.
Qed.

Lemma script_not_interesting (name s : string) :
  string_container name = None ->
  strings (interesting name) (Other Script s) = []
  /\ strings (interesting name) (Other Stylesheet s) = [].
Proof.
  intros H. cbn [strings]. unfold interesting. rewrite H. split; reflexivity.
Qed.

(** C7, as the code has it: for every item and every ordered list of
    candidate selectors, the extractor returns the text of the first
    candidate that yields non-empty text.  The text of a candidate is
    that of its first match: the strings below it that bs4 counts as text
    (the plain strings and CDATA sections; a comment never, the text of a
    script or style sheet not below an ordinary tag), each one trimmed,
    the empty ones dropped and the rest joined by single spaces, so
    whitespace inside a string is kept.  The extractor returns nothing
    when no candidate yields non-empty text, never an empty string; what
    it returns has no whitespace at either end; being a total function it
    cannot raise; and [press], [datetime] and [lede] of a record are
    filled this way. *)
Theorem first_text_first_nonempty (li : element) (candidates : list selector) :
  first_text li candidates
  = option_map (Claimed.candidate_text li)
      (find (fun s => negb (String.eqb (Claimed.candidate_text li s) ""))
            candidates)
  /\ (forall s,
         Claimed.candidate_text li s
         = match select_one s li with
           | Some e =>
               Py.join " "
                 (filter (fun t => negb (String.eqb t ""))
                    (map Py.strip
                       (flat_map (strings (interesting (tag_name (el_tag e))))
                                 (el_kids e))))
           | None => ""
           end)
  /\ (forall name s, strings (interesting name) (Other Comment s) = [])
  /\ (forall name s,
         string_container name = None ->
         strings (interesting name) (Other Script s) = []
         /\ strings (interesting name) (Other Stylesheet s) = [])
  /\ (forall t, first_text li candidates = Some t ->
                t <> "" /\ Py.strip t = t)
  /\ (forall w base_url item,
         parse_item w li base_url = inr (Some item) ->
         press item = first_text li press_selectors
         /\ datetime item = first_text li datetime_selectors
         /\ lede item = first_text li lede_selectors).
Proof.
  split; [apply first_text_find |].
  split; [intros s; unfold Claimed.candidate_text;
          destruct (select_one s li); reflexivity |].
  split; [apply comment_never_interesting |].
  split; [apply script_not_interesting |].
  split; [apply first_text_some |].
  intros w base_url item. apply parse_item_fields.
Qed.

Lemma first_text_first_nonempty_witness :
  first_text Samples.li_wide_press press_selectors = Some "Yonhap  News"
  /\ "Yonhap  News" <> ""
  /\ Py.strip "Yonhap  News" = "Yonhap  News".
Proof.
  assert (H : first_text Samples.li_wide_press press_selectors
              = Some "Yonhap  News") by reflexivity.
  split; [exact H |].
  exact (proj1 (proj2 (proj2 (proj2 (proj2 (first_text_first_nonempty
                         Samples.li_wide_press press_selectors)))))
               "Yonhap  News" H).
Defined.

(** C7 as worded fails: two spaces inside one text node reach the
    record, so the text returned is not whitespace-collapsed. *)
Lemma first_text_keeps_inner_whitespace :
  ~ (forall li candidates t,
        first_text li candidates = Some t ->
        Claimed.whitespace_collapsed t = true).
Proof.
  intros H.
  specialize (H Samples.li_wide_press press_selectors "Yonhap  News" eq_refl).
  vm_compute in H. discriminate H.
Qed.
End FieldExtractor.

(* ================================================================== *)
(** ** Record assembler, pagination mode *)
(* ================================================================== *)

Section Assembler.
Import Dom Effects Section101 ClaimedRun.

Lemma ranked_snoc (items : list HeadlineItem) (item : HeadlineItem) :
  ranked items ->
  ranked (items ++ [set_rank (Z.of_nat (List.length items) + 1) item]).
Proof.
  unfold ranked. intros H.
  rewrite map_app, length_app, H. simpl List.length.
  rewrite seq_app, map_app. simpl. f_equal.
  f_equal. f_equal. lia.
Qed.

Lemma accept_ranked (w : web) (base_url : string) (lis : list element) :
  forall all_items items,
    ranked all_items ->
    accept w base_url lis all_items = inr items ->
    ranked items.
Proof.
  induction lis as [| li rest IH]; intros all_items items H; simpl.
  - intros Heq. injection Heq as <-. exact H.
  - destruct (parse_item w li base_url) as [e | [item |]]; [discriminate | |].
    + apply IH, ranked_snoc, H.
    + apply IH, H.
Qed.

Lemma accept_skip (w : web) (base_url : string) (li : element)
      (before after : list element) :
  parse_item w li base_url = inr None ->
  forall all_items,
    accept w base_url (before ++ li :: after) all_items
    = accept w base_url (before ++ after) all_items.
Proof.
  intros Hnone. induction before as [| b before IH]; intros all_items; simpl.
  - rewrite Hnone. reflexivity.
  - destruct (parse_item w b base_url) as [e | [item |]];
      [reflexivity | apply IH | apply IH].
Qed.

Lemma accept_numbers (w : web) (base_url : string) (lis : list element) :
  forall all_items,
    accept w base_url lis all_items
    = match first_error w base_url lis with
      | Some e => inl e
      | None =>
          inr (all_items
                 ++ numbered_from (Z.of_nat (List.length all_items) + 1)
                                  (accepted w base_url lis))
      end.
Proof.
  induction lis as [| li rest IH]; intros all_items; simpl.
  - rewrite app_nil_r. reflexivity.
  - destruct (parse_item w li base_url) as [e | [item |]]; simpl.
    + reflexivity.
    + rewrite IH. destruct (first_error w base_url rest); [reflexivity |].
      rewrite <- app_assoc, length_app. simpl. do 4 f_equal. lia.
    + apply IH.
Qed.

Lemma first_error_skip (w : web) (base_url : string) (li : element)
      (before after : list element) :
  parse_item w li base_url = inr None ->
  first_error w base_url (before ++ li :: after)
  = first_error w base_url (before ++ after).
Proof.
  intros Hnone. induction before as [| b before IH]; simpl.
  - rewrite Hnone. reflexivity.
  - destruct (parse_item w b base_url); [reflexivity | exact IH].
Qed.

Lemma in_accepted (w : web) (base_url : string) (lis : list element)
      (item : HeadlineItem) :
  In item (accepted w base_url lis) <->
  exists li, In li lis /\ parse_item w li base_url = inr (Some item).
Proof.
  unfold accepted. rewrite in_flat_map. split.
  - intros (li & Hin & Hit). exists li. split; [exact Hin |].
    destruct (parse_item w li base_url) as [e | [x |]];
      [destruct Hit | | destruct Hit].
    destruct Hit as [<- | []]. reflexivity.
  - intros (li & Hin & Hp). exists li. split; [exact Hin |].
    rewrite Hp. left. reflexivity.
Qed.

Lemma in_numbered_from (items : list HeadlineItem) (it : HeadlineItem) :
  forall n,
    In it (numbered_from n items) ->
    exists item r, In item items /\ it = set_rank r item.
Proof.
  induction items as [| x items IH]; intros n; simpl; [intros [] |].
  intros [<- | Hin].
  - exists x, n. split; [left; reflexivity | reflexivity].
  - destruct (IH _ Hin) as (item & r & Hi & ->).
    exists item, r. split; [right; exact Hi | reflexivity].
Qed.

Lemma accept_origin (w : web) (base_url : string) (lis : list element) :
  forall all_items items it,
    accept w base_url lis all_items = inr items ->
    In it items ->
    In it all_items
    \/ exists li item r,
        In li lis /\ parse_item w li base_url = inr (Some item)
        /\ it = set_rank r item.
Proof.
  intros all_items items it. rewrite accept_numbers.
  destruct (first_error w base_url lis); [discriminate |].
  intros H. injection H as <-. intros Hin.
  apply in_app_or in Hin. destruct Hin as [Hin | Hin]; [left; exact Hin |].
  right. apply in_numbered_from in Hin. destruct Hin as (item & r & Hi & ->).
  apply in_accepted in Hi. destruct Hi as (li & Hl & Hp).
  exists li, item, r. repeat split; assumption.
Qed.

Section Run.
Variable w : web.
Variables (section_url list_id : string) (pages : Z) (sleep : Py.float).

Let run := crawl_pages w section_url list_id pages sleep.

Lemma crawl_pages_ranked (todo : list Z) :
  forall all_items tr tr' items,
    ranked all_items ->
    run todo all_items tr = (tr', inr items) ->
    ranked items.
Proof.
  unfold run.
  induction todo as [| page rest IH]; intros all_items tr tr' items Hr; simpl.
  - intros H. injection H as _ <-. exact Hr.
  - destruct (with_page w section_url page) as [u |]; [| discriminate].
    destruct (fetch w u) as [doc |]; [| discriminate].
    destruct (pick_ul doc list_id) as [ul |]; [| discriminate].
    destruct (accept w section_url (iter_target_lis ul) all_items)
      as [e | all_items'] eqn:Ha; [discriminate |].
    pose proof (accept_ranked _ _ _ _ _ Hr Ha) as Hr'.
    destruct (_ && _); [destruct (on_sleep w sleep); [| discriminate] |];
      apply IH, Hr'.
Qed.

End Run.
End Assembler.

Section Pagination.
Import Dom Effects Section101 ClaimedRun.

(** C1: in every run of the pagination crawler that returns, the ranks of
    the records returned are exactly 1..N in order: each accepted item
    got the number of items accepted before it plus one, over all the
    pages of the run. *)
Theorem crawl_ranks_consecutive
    (w : web) (section_url list_id : string)
    (pages : Z) (sleep : Py.float) (tr : trace) (items : list HeadlineItem) :
  crawl w section_url list_id pages sleep = (tr, inr items) ->
  ranked items
  /\ (forall i it, nth_error items i = Some it ->
                   rank it = Some (Z.of_nat i + 1)%Z).
Proof.
  unfold crawl. intros H.
  assert (Hr : ranked items).
  { eapply crawl_pages_ranked; [| exact H]. reflexivity. }
  split; [exact Hr |].
  intros i it Hi. unfold ranked in Hr.
  assert (Hlt : (i < List.length items)%nat)
    by (apply nth_error_Some; rewrite Hi; discriminate).
  pose proof (map_nth_error rank _ _ Hi) as Hm.
  rewrite Hr in Hm.
  rewrite (map_nth_error (fun i => Some (Z.of_nat i)) i (seq 1 (List.length items))
             (d := (1 + i)%nat)) in Hm.
  - injection Hm as Hm. rewrite <- Hm. f_equal. lia.
  - clear - Hlt. revert i Hlt. generalize 1%nat.
    induction (List.length items) as [| n IH]; intros s i Hlt; [lia |].
    destruct i as [| i]; simpl.
    + f_equal. lia.
    + rewrite IH by lia. f_equal. lia.
Qed.

Lemma crawl_ranks_consecutive_witness :
  crawl Samples.site_10_7 DEFAULT_SECTION_URL DEFAULT_LIST_ID 2 (Py.Fin 0)
  = (Samples.trace_10_7, inr Samples.records_10_7)
  /\ List.length Samples.records_10_7 = 17%nat
  /\ ranked Samples.records_10_7.
Proof.
  assert (H : crawl Samples.site_10_7 DEFAULT_SECTION_URL DEFAULT_LIST_ID 2
                    (Py.Fin 0)
              = (Samples.trace_10_7, inr Samples.records_10_7))
    by (vm_compute; reflexivity).
  split; [exact H |].
  split; [reflexivity |].
  exact (proj1 (crawl_ranks_consecutive
                  Samples.site_10_7 DEFAULT_SECTION_URL DEFAULT_LIST_ID 2
                  (Py.Fin 0) Samples.trace_10_7 Samples.records_10_7 H)).
Defined.

Lemma parse_item_unlinked (w : web) (li : element) (base_url : string) :
  select_one sel_title_link li = None ->
  select_one sel_any_link li = None ->
  parse_item w li base_url = inr None.
Proof. unfold parse_item. intros -> ->. reflexivity. Qed.

(** C2: an item in which neither [a.sa_text_title[href]] nor [a[href]]
    resolves yields no record, and the item loop goes on exactly as if
    the item were not in the list: it ends as on the list without it
    (in the same records, or in the same error when the link of another
    item cannot be joined), and the records it returns are the items
    that parse, the unlinked one left out, numbered consecutively after
    the records already there. *)
Theorem unlinked_item_takes_no_rank
    (w : web) (li : element) (base_url : string) (before after : list element)
    (all_items : list HeadlineItem) :
  select_one sel_title_link li = None ->
  select_one sel_any_link li = None ->
  parse_item w li base_url = inr None
  /\ accept w base_url (before ++ li :: after) all_items
     = accept w base_url (before ++ after) all_items
  /\ accept w base_url (before ++ li :: after) all_items
     = match first_error w base_url (before ++ after) with
       | Some e => inl e
       | None =>
           inr (all_items
                  ++ numbered_from (Z.of_nat (List.length all_items) + 1)
                       (accepted w base_url before ++ accepted w base_url after))
       end.
Proof.
  intros H1 H2.
  pose proof (parse_item_unlinked w li base_url H1 H2) as Hnone.
  split; [exact Hnone |].
  split; [apply accept_skip, Hnone |].
  rewrite accept_numbers, (first_error_skip w base_url li before after Hnone).
  unfold accepted. rewrite flat_map_app. simpl. rewrite Hnone. reflexivity.
Qed.

Lemma unlinked_item_takes_no_rank_witness :
  select_one sel_title_link Samples.li_unlinked = None
  /\ select_one sel_any_link Samples.li_unlinked = None
  /\ parse_item Samples.site_10_7 Samples.li_unlinked DEFAULT_SECTION_URL
     = inr None
  /\ (exists items,
        accept Samples.site_10_7 DEFAULT_SECTION_URL Samples.five_items []
        = inr items
        /\ map rank items = [Some 1%Z; Some 2%Z; Some 3%Z; Some 4%Z])
  /\ accept Samples.site_10_7 DEFAULT_SECTION_URL Samples.five_items []
     = accept Samples.site_10_7 DEFAULT_SECTION_URL
              (firstn 2 Samples.five_items ++ skipn 3 Samples.five_items) [].
Proof.
  assert (H1 : select_one sel_title_link Samples.li_unlinked = None)
    by reflexivity.
  assert (H2 : select_one sel_any_link Samples.li_unlinked = None)
    by reflexivity.
  pose proof (unlinked_item_takes_no_rank
                Samples.site_10_7 Samples.li_unlinked DEFAULT_SECTION_URL
                (firstn 2 Samples.five_items) (skipn 3 Samples.five_items)
                [] H1 H2) as (Hnone & Hskip & _).
  split; [exact H1 |]. split; [exact H2 |]. split; [exact Hnone |].
  split; [eexists; split; vm_compute; reflexivity | exact Hskip].
Defined.
End Pagination.


Section RangeFacts.

Lemma range_in (a b j : Z) : In j (Py.range a b) <-> (a <= j < b)%Z.
Proof.
  unfold Py.range. rewrite in_map_iff. split.
  - intros (i & <- & Hi). apply in_seq in Hi. lia.
  - intros H. exists (Z.to_nat (j - a)). split; [lia |].
    apply in_seq. lia.
Qed.

Lemma range_cons (a b : Z) :
  (a < b)%Z -> Py.range a b = a :: Py.range (a + 1) b.
Proof.
  intros H. unfold Py.range.
  replace (Z.to_nat (b - a)) with (S (Z.to_nat (b - (a + 1)))) by lia.
  cbn [seq map]. f_equal; [lia |].
  rewrite <- seq_shift, map_map. apply map_ext. intros i. lia.
Qed.

Lemma range_split (a k b : Z) :
  (a <= k < b)%Z -> Py.range a b = Py.range a k ++ k :: Py.range (k + 1) b.
Proof.
  intros H.
  remember (Z.to_nat (k - a)) as n eqn:Hn.
  revert a H Hn. induction n as [| n IH]; intros a H Hn.
  - assert (a = k) by lia. subst a.
    rewrite (range_cons k b) by lia.
    unfold Py.range at 2. rewrite Z.sub_diag. reflexivity.
  - rewrite (range_cons a b), (range_cons a k) by lia.
    simpl. f_equal. apply IH; lia.
Qed.

End RangeFacts.

Section ContainerMissing.
Import Dom Effects ClaimedRun.

Lemma with_page_address (w : Section101.web) (url : string) (page : Z)
      (u : page_url) :
  Section101.with_page w url page = Some u -> u = page_address url page.
Proof.
  unfold Section101.with_page, page_address.
  destruct (page <=? 1)%Z; [intros H; injection H as <-; reflexivity |].
  destruct (Section101.urlparse w url); [| discriminate].
  intros H. injection H as <-. reflexivity.
Qed.

Lemma with_page_address_visual (w : Section101Visual.world) (url : string)
      (page : Z) (u : page_url) :
  Section101Visual.with_page w url page = Selenium.Ok u ->
  u = page_address url page.
Proof.
  unfold Section101Visual.with_page, page_address.
  destruct (page <=? 1)%Z; [intros H; injection H as <-; reflexivity |].
  destruct (Section101Visual.urlparse w url); [| discriminate].
  intros H. injection H as <-. reflexivity.
Qed.

Lemma crawl_pages_abort
    (w : Section101.web) (section_url list_id : string)
    (pages : Z) (sleep : Py.float) (page : Z) (u : page_url) (doc : soup)
    (later : list Z) :
  Section101.with_page w section_url page = Some u ->
  Section101.fetch w u = Some doc ->
  Section101.pick_ul doc list_id = None ->
  forall earlier all_items tr,
  exists e,
    snd (Section101.crawl_pages w section_url list_id pages sleep
           (earlier ++ page :: later) all_items tr) = inl e
    /\ (Forall (goes_through w section_url list_id) earlier ->
        Section101.on_sleep w sleep = true ->
        e = Section101.RuntimeError list_id).
Proof.
  intros Hu Hdoc Hul.
  induction earlier as [| p earlier IH]; intros all_items tr; simpl.
  - rewrite Hu, Hdoc, Hul. eexists. split; reflexivity.
  - destruct (Section101.with_page w section_url p) as [v |] eqn:Hv.
    + pose proof (with_page_address _ _ _ _ Hv) as ->.
      destruct (Section101.fetch w (page_address section_url p))
        as [d |] eqn:Hf.
      * destruct (Section101.pick_ul d list_id) as [ul |] eqn:Hp.
        -- destruct (Section101.accept w section_url
                       (Section101.iter_target_lis ul) all_items)
             as [e | all_items'] eqn:Ha.
           ++ exists e. split; [reflexivity |].
              intros Hall. inversion Hall as [| ? ? (d' & ul' & _ & Hd & Hp' & He) _];
                subst.
              rewrite Hf in Hd. injection Hd as <-.
              rewrite Hp in Hp'. injection Hp' as <-.
              rewrite accept_numbers, He in Ha. discriminate Ha.
           ++ assert (Hnext : forall tr',
                  exists e,
                    snd (Section101.crawl_pages w section_url list_id pages sleep
                           (earlier ++ page :: later) all_items' tr')
                    = inl e
                    /\ (Forall (goes_through w section_url list_id)
                               (p :: earlier) ->
                        Section101.on_sleep w sleep = true ->
                        e = Section101.RuntimeError list_id)).
              { intros tr'.
                destruct (IH all_items' tr') as (e & He & Hrt).
                exists e. split; [exact He |].
                intros Hall. apply Hrt. inversion Hall; assumption. }
              destruct (_ && _); [| apply Hnext].
              destruct (Section101.on_sleep w sleep) eqn:Hs; [apply Hnext |].
              eexists. split; [reflexivity |]. intros _ Habs. discriminate Habs.
        -- eexists. split; reflexivity.
      * eexists. split; [reflexivity |].
        intros Hall. inversion Hall as [| ? ? (d & ul & _ & Hd & _) _]; subst.
        rewrite Hf in Hd. discriminate Hd.
    + eexists. split; [reflexivity |].
      intros Hall. inversion Hall as [| ? ? (d & ul & Hw & _) _]; subst.
      rewrite Hv in Hw. discriminate Hw.
Qed.

Lemma visit_skips_timeout
    (w : Section101Visual.world) (section_url : string) (sleep : Py.float)
    (page : Z) (target : page_url) (rest : list Z)
    (all_items : list Section101Visual.HeadlineItem) (tr : trace) :
  Section101Visual.with_page w section_url page = Selenium.Ok target ->
  Section101Visual.on_get (Section101Visual.on_page w target) = Selenium.Ok tt ->
  Section101Visual.on_wait (Section101Visual.on_page w target)
  = Selenium.Raises Selenium.TimeoutException ->
  Section101Visual.visit w section_url sleep (page :: rest) all_items tr
  = Section101Visual.visit w section_url sleep rest all_items
      (tr ++ [Get target] ++ [Report page]).
Proof.
  intros Hw Hget Hwait. simpl.
  rewrite Hw, Hget, Hwait, <- app_assoc. reflexivity.
Qed.

(** C4, as the code has it: in the static pagination crawler, a page that
    is fetched and whose container cannot be located (neither by the id
    nor by the prefixed fallback) makes the whole run end in an error and
    return no records; when every earlier page went through (its URL
    could be built, it was fetched, its container located and the links of
    its items joined) and the pause between pages returns, that error is
    the [RuntimeError] whose message names the [list_id] tried.  The
    browser-driven pagination crawler does not abort: when the list does
    not show up on a page before the timeout it reports the page and goes
    on with the next one, keeping the records gathered so far. *)
Theorem missing_container_aborts_static_run
    (w : Section101.web) (section_url list_id : string)
    (pages : Z) (sleep : Py.float) (page : Z) (u : page_url) (doc : soup) :
  (1 <= page <= pages)%Z ->
  Section101.with_page w section_url page = Some u ->
  Section101.fetch w u = Some doc ->
  Section101.pick_ul doc list_id = None ->
  (exists e,
      snd (Section101.crawl w section_url list_id pages sleep) = inl e
      /\ ((forall j, (1 <= j < page)%Z -> goes_through w section_url list_id j) ->
          Section101.on_sleep w sleep = true ->
          e = Section101.RuntimeError list_id))
  /\ (forall v url pause p target rest all_items tr,
         Section101Visual.with_page v url p = Selenium.Ok target ->
         Section101Visual.on_get (Section101Visual.on_page v target)
         = Selenium.Ok tt ->
         Section101Visual.on_wait (Section101Visual.on_page v target)
         = Selenium.Raises Selenium.TimeoutException ->
         Section101Visual.visit v url pause (p :: rest) all_items tr
         = Section101Visual.visit v url pause rest all_items
             (tr ++ [Get target] ++ [Report p])).
Proof.
  intros Hpage Hu Hdoc Hul. split.
  - unfold Section101.crawl.
    rewrite (range_split 1 page (pages + 1)) by lia.
    destruct (crawl_pages_abort w section_url list_id pages sleep page u doc
                (Py.range (page + 1) (pages + 1)) Hu Hdoc Hul
                (Py.range 1 page) [] [Acquire Session]) as (e & He & Hrt).
    exists e. split; [exact He |].
    intros Hall Hsleep. apply Hrt; [| exact Hsleep].
    apply Forall_forall. intros j Hj.
    apply Hall, range_in, Hj.
  - intros v url pause p target rest all_items tr.
    apply visit_skips_timeout.
Qed.

Lemma missing_container_aborts_static_run_witness :
  (1 <= 2 <= 3)%Z
  /\ Section101.with_page Samples.site_broken_page2
       Section101.DEFAULT_SECTION_URL 2
     = Some (Paged Section101.DEFAULT_SECTION_URL 2)
  /\ Section101.fetch Samples.site_broken_page2
       (Paged Section101.DEFAULT_SECTION_URL 2)
     = Some [Elem (mk_tag "div" [] []) [Text "maintenance"]]
  /\ Section101.pick_ul [Elem (mk_tag "div" [] []) [Text "maintenance"]]
                         Section101.DEFAULT_LIST_ID = None
  /\ snd (Section101.crawl Samples.site_broken_page2
             Section101.DEFAULT_SECTION_URL Section101.DEFAULT_LIST_ID 3
             (Py.Fin 0))
     = inl (Section101.RuntimeError Section101.DEFAULT_LIST_ID)
  /\ Section101Visual.visit VisualSamples.world_page1_missing
       Section101.DEFAULT_SECTION_URL (Py.Fin 0) [1; 2]%Z [] [Acquire Driver]
     = Section101Visual.visit VisualSamples.world_page1_missing
         Section101.DEFAULT_SECTION_URL (Py.Fin 0) [2]%Z []
         ([Acquire Driver]
            ++ [Get (Plain Section101.DEFAULT_SECTION_URL)] ++ [Report 1]).
Proof.
  assert (H1 : (1 <= 2 <= 3)%Z) by lia.
  assert (H0 : Section101.with_page Samples.site_broken_page2
                 Section101.DEFAULT_SECTION_URL 2
               = Some (Paged Section101.DEFAULT_SECTION_URL 2)) by reflexivity.
  assert (H2 : Section101.fetch Samples.site_broken_page2
                 (Paged Section101.DEFAULT_SECTION_URL 2)
               = Some [Elem (mk_tag "div" [] []) [Text "maintenance"]])
    by reflexivity.
  assert (H3 : Section101.pick_ul [Elem (mk_tag "div" [] []) [Text "maintenance"]]
                                  Section101.DEFAULT_LIST_ID = None)
    by reflexivity.
  assert (H4 : forall j, (1 <= j < 2)%Z ->
                         goes_through Samples.site_broken_page2
                                      Section101.DEFAULT_SECTION_URL
                                      Section101.DEFAULT_LIST_ID j).
  { intros j Hj. assert (j = 1%Z) by lia. subst j.
    eexists. eexists. repeat split; reflexivity. }
  pose proof (missing_container_aborts_static_run
                Samples.site_broken_page2 Section101.DEFAULT_SECTION_URL
                Section101.DEFAULT_LIST_ID 3 (Py.Fin 0) 2 _ _ H1 H0 H2 H3)
    as [(e & He & Hrt) Hvisual].
  split; [exact H1 |]. split; [exact H0 |]. split; [exact H2 |].
  split; [exact H3 |]. split.
  - rewrite He. f_equal. apply Hrt; [exact H4 | reflexivity].
  - apply (Hvisual VisualSamples.world_page1_missing
                   Section101.DEFAULT_SECTION_URL (Py.Fin 0) 1%Z
                   (Plain Section101.DEFAULT_SECTION_URL) [2%Z] []
                   [Acquire Driver]); reflexivity.
Defined.

(** C4 as worded fails for the browser-driven pagination crawler: the list
    never shows up on page 1, and the run still returns the record of
    page 2 instead of ending in an error. *)
Lemma missing_container_skipped_by_visual_run :
  ~ (forall w url pages pause page,
        (1 <= page <= pages)%Z ->
        Section101Visual.on_build w = Selenium.Ok tt ->
        Section101Visual.on_get
          (Section101Visual.on_page w (page_address url page))
        = Selenium.Ok tt ->
        Section101Visual.on_wait
          (Section101Visual.on_page w (page_address url page))
        = Selenium.Raises Selenium.TimeoutException ->
        exists e,
          snd (Section101Visual.crawl_visual w url pages pause)
          = Selenium.Raises e).
Proof.
  intros H.
  destruct (H VisualSamples.world_page1_missing Section101.DEFAULT_SECTION_URL
              2%Z (Py.Fin 0) 1%Z ltac:(lia) eq_refl eq_refl eq_refl)
    as (e & He).
  vm_compute in He. discriminate He.
Qed.

End ContainerMissing.

Section Titles.
Import Dom Effects ClaimedRun.

Lemma crawl_pages_source
    (w : Section101.web) (section_url list_id : string) (pages : Z)
    (sleep : Py.float) (todo : list Z) :
  forall all_items tr tr' items it,
    Section101.crawl_pages w section_url list_id pages sleep todo all_items tr
    = (tr', inr items) ->
    In it items ->
    In it all_items
    \/ exists page doc ul li item r,
        In page todo
        /\ Section101.fetch w (page_address section_url page) = Some doc
        /\ Section101.pick_ul doc list_id = Some ul
        /\ In li (Section101.iter_target_lis ul)
        /\ Section101.parse_item w li section_url = inr (Some item)
        /\ it = Section101.set_rank r item.
Proof.
  induction todo as [| page rest IH]; intros all_items tr tr' items it; simpl.
  - intros H. injection H as _ <-. intros Hin. left. exact Hin.
  - destruct (Section101.with_page w section_url page) as [u |] eqn:Hu;
      [| discriminate].
    pose proof (with_page_address _ _ _ _ Hu) as ->.
    destruct (Section101.fetch w (page_address section_url page))
      as [doc |] eqn:Hf; [| discriminate].
    destruct (Section101.pick_ul doc list_id) as [ul |] eqn:Hp; [| discriminate].
    destruct (Section101.accept w section_url (Section101.iter_target_lis ul)
                all_items) as [e | all_items'] eqn:Ha; [discriminate |].
    assert (Hnext : forall tr1,
              Section101.crawl_pages w section_url list_id pages sleep rest
                all_items' tr1 = (tr', inr items) ->
              In it items ->
              In it all_items
              \/ exists page0 doc0 ul0 li item r,
                  In page0 (page :: rest)
                  /\ Section101.fetch w (page_address section_url page0)
                     = Some doc0
                  /\ Section101.pick_ul doc0 list_id = Some ul0
                  /\ In li (Section101.iter_target_lis ul0)
                  /\ Section101.parse_item w li section_url = inr (Some item)
                  /\ it = Section101.set_rank r item).
    { intros tr1 Hrun Hin.
      destruct (IH _ _ _ _ _ Hrun Hin)
        as [Hin' | (p0 & d0 & u0 & li & item & r & Hp0 & H1 & H2 & H3 & H4 & H5)].
      - destruct (accept_origin _ _ _ _ _ _ Ha Hin')
          as [Hold | (li & item & r & Hli & Hparse & Heq)].
        + left. exact Hold.
        + right. exists page, doc, ul, li, item, r.
          split; [left; reflexivity |]. repeat split; assumption.
      - right. exists p0, d0, u0, li, item, r.
        split; [right; exact Hp0 |]. repeat split; assumption. }
    destruct (_ && _); [destruct (Section101.on_sleep w sleep); [| discriminate] |];
      apply Hnext.
Qed.

(** Every record of a run that returns was parsed from an item of the
    container of one of its pages. *)
Lemma crawl_record_source
    (w : Section101.web) (section_url list_id : string) (pages : Z)
    (sleep : Py.float) (tr : trace) (items : list Section101.HeadlineItem)
    (it : Section101.HeadlineItem) :
  Section101.crawl w section_url list_id pages sleep = (tr, inr items) ->
  In it items ->
  exists li item r,
    item_of_page w section_url list_id pages li
    /\ Section101.parse_item w li section_url = inr (Some item)
    /\ it = Section101.set_rank r item.
Proof.
  unfold Section101.crawl. intros Hrun Hin.
  destruct (crawl_pages_source _ _ _ _ _ _ _ _ _ _ _ Hrun Hin)
    as [[] | (page & doc & ul & li & item & r & Hp & Hf & Hu & Hl & Hparse & Heq)].
  exists li, item, r. split; [| split; assumption].
  exists page, doc, ul. apply range_in in Hp.
  split; [lia |]. repeat split; assumption.
Qed.

Lemma parse_item_title (w : Section101.web) (li : element) (base_url : string)
      (item : Section101.HeadlineItem) :
  Section101.parse_item w li base_url = inr (Some item) ->
  exists link,
    Py.or_else (select_one Section101.sel_title_link li)
               (select_one Section101.sel_any_link li) = Some link
    /\ Section101.title item = get_text " " link.
Proof.
  intros H. apply parse_item_record in H.
  destruct H as (link & href & Hl & _ & _ & _ & Ht & _).
  exists link. split; [exact Hl |]. rewrite Ht.
  cbn [Section101.extract_text].
  destruct (String.eqb (get_text " " link) "") eqn:He; [| reflexivity].
  apply String.eqb_eq in He. rewrite He. reflexivity.
Qed.

Lemma parse_li_title (li : Section101Visual.li_answers) (n : nat)
      (item : Section101Visual.HeadlineItem) :
  Section101Visual.parse_li li n = Selenium.Ok item ->
  exists a_tag text,
    Observed.anchor li a_tag
    /\ Section101Visual.on_text a_tag = Selenium.Ok text
    /\ Section101Visual.title item = Py.strip text.
Proof.
  unfold Section101Visual.parse_li, Selenium.bind, Observed.anchor.
  destruct (Section101Visual.on_class li) as [classes | e]; [| discriminate].
  intros H.
  assert (Ha : exists a_tag,
             (Section101Visual.on_title_link li = Selenium.Ok a_tag
              \/ (Section101Visual.on_title_link li
                  = Selenium.Raises Selenium.NoSuchElementException
                  /\ Section101Visual.on_any_link li = Selenium.Ok a_tag))
             /\ match Section101Visual.on_title_link li with
                | Selenium.Raises Selenium.NoSuchElementException =>
                    Section101Visual.on_any_link li
                | r => r
                end = Selenium.Ok a_tag).
  { destruct (Section101Visual.on_title_link li) as [a | e] eqn:Ht.
    - exists a. split; [left; reflexivity | reflexivity].
    - destruct e; try discriminate H.
      destruct (Section101Visual.on_any_link li) as [a | e'] eqn:Hany;
        [| discriminate H].
      exists a. split; [right; split; reflexivity | reflexivity]. }
  destruct Ha as (a_tag & Hanchor & Hsel). rewrite Hsel in H.
  destruct (Section101Visual.on_text a_tag) as [text | e] eqn:Htext;
    [| discriminate H].
  exists a_tag, text. split; [exact Hanchor |]. split; [exact Htext |].
  repeat match type of H with
         | context [match ?x with _ => _ end] => destruct x; try discriminate H
         end;
    injection H as <-; reflexivity.
Qed.

Lemma accept_source_visual (lis : list Section101Visual.li_answers) :
  forall all_items items it,
    Section101Visual.accept lis all_items = Selenium.Ok items ->
    In it items ->
    In it all_items
    \/ exists li n, In li lis /\ Section101Visual.parse_li li n = Selenium.Ok it.
Proof.
  induction lis as [| li rest IH]; intros all_items items it; simpl.
  - intros H. injection H as <-. intros Hin. left. exact Hin.
  - destruct (Section101Visual.parse_li li (List.length all_items))
      as [item | e] eqn:Hp.
    + intros Ha Hin. destruct (IH _ _ _ Ha Hin) as [Hold | (l & n & Hl & Hn)].
      * apply in_app_or in Hold. destruct Hold as [Hold | [<- | []]].
        -- left. exact Hold.
        -- right. exists li, (List.length all_items).
           split; [left; reflexivity | exact Hp].
      * right. exists l, n. split; [right; exact Hl | exact Hn].
    + destruct (Selenium.is_Exception e); [| discriminate].
      intros Ha Hin. destruct (IH _ _ _ Ha Hin) as [Hold | (l & n & Hl & Hn)].
      * left. exact Hold.
      * right. exists l, n. split; [right; exact Hl | exact Hn].
Qed.

Lemma visit_source
    (w : Section101Visual.world) (url : string) (sleep : Py.float)
    (todo : list Z) :
  forall all_items tr tr' items it,
    Section101Visual.visit w url sleep todo all_items tr
    = (tr', Selenium.Ok items) ->
    In it items ->
    In it all_items
    \/ exists page lis li n,
        In page todo
        /\ Section101Visual.on_find_ul
             (Section101Visual.on_page w (page_address url page))
           = Selenium.Ok (Selenium.Ok lis)
        /\ In li lis
        /\ Section101Visual.parse_li li n = Selenium.Ok it.
Proof.
  induction todo as [| page rest IH]; intros all_items tr tr' items it; simpl.
  - intros H. injection H as _ <-. intros Hin. left. exact Hin.
  - destruct (Section101Visual.with_page w url page) as [u | e] eqn:Hu;
      [| discriminate].
    pose proof (with_page_address_visual _ _ _ _ Hu) as ->.
    assert (Hlater : forall all' tr1,
              Section101Visual.visit w url sleep rest all' tr1
              = (tr', Selenium.Ok items) ->
              In it items ->
              In it all'
              \/ exists page0 lis li n,
                  In page0 (page :: rest)
                  /\ Section101Visual.on_find_ul
                       (Section101Visual.on_page w (page_address url page0))
                     = Selenium.Ok (Selenium.Ok lis)
                  /\ In li lis
                  /\ Section101Visual.parse_li li n = Selenium.Ok it).
    { intros all' tr1 Hrun Hin.
      destruct (IH _ _ _ _ _ Hrun Hin) as [Hold | (p0 & lis & li & n & Hp0 & H)].
      - left. exact Hold.
      - right. exists p0, lis, li, n. split; [right; exact Hp0 | exact H]. }
    destruct (Section101Visual.on_get _) as [[] | e]; [| discriminate].
    destruct (Section101Visual.on_wait _) as [[] | e].
    + destruct (Section101Visual.on_find_ul _) as [[lis | e] | e] eqn:Hul.
      * destruct (Section101Visual.accept lis all_items) as [all' | e] eqn:Ha;
          [| discriminate].
        destruct (Section101Visual.on_sleep w sleep) as [[] | e]; [| discriminate].
        intros Hrun Hin.
        destruct (Hlater _ _ Hrun Hin) as [Hin' | Hfound]; [| right; exact Hfound].
        destruct (accept_source_visual _ _ _ _ Ha Hin') as [Hold | (li & n & Hl & Hn)].
        -- left. exact Hold.
        -- right. exists page, lis, li, n.
           split; [left; reflexivity |]. repeat split; assumption.
      * discriminate.
      * destruct e; try discriminate. apply Hlater.
    + destruct e; try discriminate. apply Hlater.
Qed.

(** Every record of a run of the browser crawler that returns was parsed
    from an item that the list of one of its pages answered. *)
Lemma crawl_visual_record_source
    (w : Section101Visual.world) (url : string) (pages : Z) (sleep : Py.float)
    (tr : trace) (items : list Section101Visual.HeadlineItem)
    (it : Section101Visual.HeadlineItem) :
  Section101Visual.crawl_visual w url pages sleep = (tr, Selenium.Ok items) ->
  In it items ->
  exists page lis li n,
    (1 <= page <= pages)%Z
    /\ Section101Visual.on_find_ul
         (Section101Visual.on_page w (page_address url page))
       = Selenium.Ok (Selenium.Ok lis)
    /\ In li lis
    /\ Section101Visual.parse_li li n = Selenium.Ok it.
Proof.
  unfold Section101Visual.crawl_visual.
  destruct (Section101Visual.on_build w) as [[] | e]; [| discriminate].
  destruct (Section101Visual.visit w url sleep (Py.range 1 (pages + 1)) []
              [Acquire Driver]) as [tr0 r] eqn:Hv.
  destruct (Section101Visual.on_quit w) as [[] | e]; [| discriminate].
  intros H Hin. injection H as _ ->.
  destruct (visit_source _ _ _ _ _ _ _ _ _ Hv Hin)
    as [[] | (page & lis & li & n & Hp & H)].
  exists page, lis, li, n. apply range_in in Hp. split; [lia | exact H].
Qed.

(** C6, as the code has it: every record a run of the static crawler
    returns comes from an item of the container of one of its pages, and
    its title is the text of the link that item resolved to (the title
    link, else the first anchor with a [href]), with no whitespace at
    either end; it is the empty string exactly when that link holds no
    text other than whitespace.  Every record a run of the browser-driven
    crawler returns comes from an item of the list of one of its pages,
    and its title is the trimmed text of the anchor found in the item,
    which may be empty as well. *)
Theorem record_title_is_link_text :
  (forall (w : Section101.web) (section_url list_id : string) (pages : Z)
          (sleep : Py.float) (tr : trace)
          (items : list Section101.HeadlineItem) (it : Section101.HeadlineItem),
      Section101.crawl w section_url list_id pages sleep = (tr, inr items) ->
      In it items ->
      exists li link,
        item_of_page w section_url list_id pages li
        /\ Py.or_else (select_one Section101.sel_title_link li)
                      (select_one Section101.sel_any_link li) = Some link
        /\ Section101.title it = get_text " " link
        /\ Py.strip (Section101.title it) = Section101.title it
        /\ (Section101.title it = "" <-> stripped_strings link = []))
  /\ (forall (v : Section101Visual.world) (url : string) (pages : Z)
             (sleep : Py.float) (tr : trace)
             (items : list Section101Visual.HeadlineItem)
             (it : Section101Visual.HeadlineItem),
         Section101Visual.crawl_visual v url pages sleep
         = (tr, Selenium.Ok items) ->
         In it items ->
         exists page lis li a_tag text,
           (1 <= page <= pages)%Z
           /\ Section101Visual.on_find_ul
                (Section101Visual.on_page v (page_address url page))
              = Selenium.Ok (Selenium.Ok lis)
           /\ In li lis
           /\ Observed.anchor li a_tag
           /\ Section101Visual.on_text a_tag = Selenium.Ok text
           /\ Section101Visual.title it = Py.strip text
           /\ Py.strip (Section101Visual.title it) = Section101Visual.title it).
Proof.
  split.
  - intros w section_url list_id pages sleep tr items it Hrun Hin.
    destruct (crawl_record_source _ _ _ _ _ _ _ _ Hrun Hin)
      as (li & item & r & Hsrc & Hp & ->).
    destruct (parse_item_title w li section_url item Hp) as (link & Hl & Ht).
    exists li, link. cbn [Section101.set_rank Section101.title].
    split; [exact Hsrc |]. split; [exact Hl |]. split; [exact Ht |].
    rewrite Ht. split; [apply get_text_trimmed | apply get_text_empty_iff].
  - intros v url pages sleep tr items it Hrun Hin.
    destruct (crawl_visual_record_source _ _ _ _ _ _ _ Hrun Hin)
      as (page & lis & li & n & Hpage & Hul & Hli & Hparse).
    destruct (parse_li_title _ _ _ Hparse) as (a_tag & text & Ha & Htext & Ht).
    exists page, lis, li, a_tag, text.
    repeat (split; [assumption |]). rewrite Ht. apply strip_idem.
Qed.

Lemma record_title_is_link_text_witness :
  Section101.crawl Samples.site_thumbnail_only
                   Section101.DEFAULT_SECTION_URL Section101.DEFAULT_LIST_ID
                   1 (Py.Fin 0)
  = ([Acquire Session; Get (Plain Section101.DEFAULT_SECTION_URL)],
     inr [Samples.untitled_record])
  /\ In Samples.untitled_record [Samples.untitled_record]
  /\ (exists li link,
        item_of_page Samples.site_thumbnail_only
                     Section101.DEFAULT_SECTION_URL Section101.DEFAULT_LIST_ID
                     1 li
        /\ Py.or_else (select_one Section101.sel_title_link li)
                      (select_one Section101.sel_any_link li) = Some link
        /\ Section101.title Samples.untitled_record = get_text " " link
        /\ Py.strip (Section101.title Samples.untitled_record)
           = Section101.title Samples.untitled_record
        /\ (Section101.title Samples.untitled_record = ""
            <-> stripped_strings link = []))
  /\ Section101Visual.crawl_visual ExtraVisualSamples.world_three_items
       "https://news.naver.com/section/101" 2 (Py.Fin 2)
     = (ExtraVisualSamples.trace_three_items,
        Selenium.Ok ExtraVisualSamples.records_three_items)
  /\ In ExtraVisualSamples.record_two ExtraVisualSamples.records_three_items
  /\ (exists page lis li a_tag text,
        (1 <= page <= 2)%Z
        /\ Section101Visual.on_find_ul
             (Section101Visual.on_page ExtraVisualSamples.world_three_items
                (page_address "https://news.naver.com/section/101" page))
           = Selenium.Ok (Selenium.Ok lis)
        /\ In li lis
        /\ Observed.anchor li a_tag
        /\ Section101Visual.on_text a_tag = Selenium.Ok text
        /\ Section101Visual.title ExtraVisualSamples.record_two = Py.strip text
        /\ Py.strip (Section101Visual.title ExtraVisualSamples.record_two)
           = Section101Visual.title ExtraVisualSamples.record_two).
Proof.
  assert (H1 : Section101.crawl Samples.site_thumbnail_only
                 Section101.DEFAULT_SECTION_URL Section101.DEFAULT_LIST_ID
                 1 (Py.Fin 0)
               = ([Acquire Session; Get (Plain Section101.DEFAULT_SECTION_URL)],
                  inr [Samples.untitled_record])) by reflexivity.
  assert (H2 : In Samples.untitled_record [Samples.untitled_record])
    by (left; reflexivity).
  assert (H3 : Section101Visual.crawl_visual ExtraVisualSamples.world_three_items
                 "https://news.naver.com/section/101" 2 (Py.Fin 2)
               = (ExtraVisualSamples.trace_three_items,
                  Selenium.Ok ExtraVisualSamples.records_three_items))
    by (vm_compute; reflexivity).
  assert (H4 : In ExtraVisualSamples.record_two
                  ExtraVisualSamples.records_three_items)
    by (right; left; reflexivity).
  split; [exact H1 |]. split; [exact H2 |].
  split; [exact (proj1 record_title_is_link_text _ _ _ _ _ _ _ _ H1 H2) |].
  split; [exact H3 |]. split; [exact H4 |].
  exact (proj2 record_title_is_link_text _ _ _ _ _ _ _ H3 H4).
Defined.

(** C6 as worded fails: an item whose only link wraps a thumbnail image
    is accepted, and its record has the empty string as title. *)
Lemma record_title_can_be_empty :
  ~ (forall w section_url list_id pages sleep tr items it,
        Section101.crawl w section_url list_id pages sleep = (tr, inr items) ->
        In it items ->
        Claimed.nonempty_after_trim (Section101.title it) = true).
Proof.
  intros H.
  specialize (H Samples.site_thumbnail_only
                Section101.DEFAULT_SECTION_URL Section101.DEFAULT_LIST_ID
                1%Z (Py.Fin 0) _ _ Samples.untitled_record eq_refl
                (or_introl eq_refl)).
  vm_compute in H. discriminate H.
Qed.

End Titles.

(* ================================================================== *)
(** ** Command-line entry points *)
(* ================================================================== *)

Section EntryPoints.
Import Effects.

Lemma fmax_lower_bound (c : Q) (x : Py.float) :
  Py.fle (Py.Fin c) (Py.fmax (Py.Fin c) x) = true.
Proof.
  unfold Py.fmax, Py.fgt.
  destruct x as [| | q |]; cbn [Py.flt Py.fle].
  - apply Qle_bool_iff, Qle_refl.
  - apply Qle_bool_iff, Qle_refl.
  - unfold Py.Qltb. destruct (Qle_bool q c) eqn:Hq; cbn [negb Py.fle].
    + apply Qle_bool_iff, Qle_refl.
    + apply Qle_bool_iff. apply Qlt_le_weak, Qnot_le_lt.
      intros Hle. apply Qle_bool_iff in Hle. rewrite Hle in Hq. discriminate Hq.
  - reflexivity.
Qed.

Lemma zmax_lower_bound (c x : Z) : (c <= Py.zmax c x)%Z.
Proof. unfold Py.zmax. destruct (Z.gtb_spec x c); lia. Qed.

Lemma zmax_clamps (c x : Z) : (x <= c)%Z -> Py.zmax c x = c.
Proof. unfold Py.zmax. intros H. destruct (Z.gtb_spec x c); [lia | reflexivity]. Qed.

Lemma zmax_max (c x : Z) : Py.zmax c x = Z.max c x.
Proof. unfold Py.zmax. destruct (Z.gtb_spec x c); lia. Qed.

Lemma fmax_cases (c x : Py.float) :
  (Py.fgt x c = true -> Py.fmax c x = x)
  /\ (Py.fgt x c = false -> Py.fmax c x = c).
Proof. unfold Py.fmax. split; intros ->; reflexivity. Qed.

Lemma crawl_single_page
    (w : Section101.web) (section_url list_id : string) (sleep : Py.float) :
  fst (Section101.crawl w section_url list_id 1 sleep)
  = [Acquire Session; Get (Plain section_url)].
Proof.
  unfold Section101.crawl.
  change (Py.range 1 (1 + 1)) with [1%Z].
  cbn [Section101.crawl_pages].
  change (Section101.with_page w section_url 1) with (Some (Plain section_url)).
  cbn iota.
  destruct (Section101.fetch w (Plain section_url)) as [doc |]; [| reflexivity].
  destruct (Section101.pick_ul doc list_id) as [ul |]; [| reflexivity].
  destruct (Section101.accept _ _ _ _); reflexivity.
Qed.

(** C10: whatever the command line, [main] of the pagination crawler
    calls [crawl] with the URL and list id it was given, with
    [max(1, pages)], [max(0.0, sleep)] and [max(1.0, timeout)], and [main]
    of the scroll crawler with the URL it was given, with
    [max(0, scrolls)], [max(0.0, wait_sec)] and [max(1.0, timeout)]: a
    value above its bound is handed on as it is, any other one (NaN
    included: [max] keeps its first argument unless the second is
    greater) is replaced by the bound, so pages >= 1, sleep >= 0.0,
    scrolls >= 0 and timeout >= 1.0 in every call; with [--pages] zero or
    negative the run requests exactly one page, the first. *)
Theorem main_clamps_arguments (a : Section101.args) (b : ShoppingScroll.args) :
  (* the bounds *)
  ((1 <= Section101.call_pages (Section101.main_call a))%Z
   /\ Py.fle (Py.Fin 0) (Section101.call_sleep (Section101.main_call a)) = true
   /\ Py.fle (Py.Fin 1) (Section101.call_timeout (Section101.main_call a)) = true
   /\ (0 <= ShoppingScroll.call_scrolls (ShoppingScroll.main_call b))%Z
   /\ Py.fle (Py.Fin 0)
             (ShoppingScroll.call_wait_sec (ShoppingScroll.main_call b)) = true
   /\ Py.fle (Py.Fin 1)
             (ShoppingScroll.call_timeout (ShoppingScroll.main_call b)) = true)
  (* what the pagination crawler is called with *)
  /\ (Section101.call_section_url (Section101.main_call a) = Section101.arg_url a
      /\ Section101.call_list_id (Section101.main_call a)
         = Section101.arg_list_id a
      /\ Section101.call_pages (Section101.main_call a)
         = Z.max 1 (Section101.arg_pages a)
      /\ (Py.fgt (Section101.arg_sleep a) (Py.Fin 0) = true ->
          Section101.call_sleep (Section101.main_call a) = Section101.arg_sleep a)
      /\ (Py.fgt (Section101.arg_sleep a) (Py.Fin 0) = false ->
          Section101.call_sleep (Section101.main_call a) = Py.Fin 0)
      /\ (Py.fgt (Section101.arg_timeout a) (Py.Fin 1) = true ->
          Section101.call_timeout (Section101.main_call a)
          = Section101.arg_timeout a)
      /\ (Py.fgt (Section101.arg_timeout a) (Py.Fin 1) = false ->
          Section101.call_timeout (Section101.main_call a) = Py.Fin 1))
  (* what the scroll crawler is called with *)
  /\ (ShoppingScroll.call_url (ShoppingScroll.main_call b)
      = ShoppingScroll.arg_url b
      /\ ShoppingScroll.call_scrolls (ShoppingScroll.main_call b)
         = Z.max 0 (ShoppingScroll.arg_scrolls b)
      /\ (Py.fgt (ShoppingScroll.arg_wait_sec b) (Py.Fin 0) = true ->
          ShoppingScroll.call_wait_sec (ShoppingScroll.main_call b)
          = ShoppingScroll.arg_wait_sec b)
      /\ (Py.fgt (ShoppingScroll.arg_wait_sec b) (Py.Fin 0) = false ->
          ShoppingScroll.call_wait_sec (ShoppingScroll.main_call b) = Py.Fin 0)
      /\ (Py.fgt (ShoppingScroll.arg_timeout b) (Py.Fin 1) = true ->
          ShoppingScroll.call_timeout (ShoppingScroll.main_call b)
          = ShoppingScroll.arg_timeout b)
      /\ (Py.fgt (ShoppingScroll.arg_timeout b) (Py.Fin 1) = false ->
          ShoppingScroll.call_timeout (ShoppingScroll.main_call b) = Py.Fin 1))
  (* the runs made with them *)
  /\ (forall site,
         Section101.main_crawl site a
         = Section101.crawl
             (site (Section101.call_timeout (Section101.main_call a)))
             (Section101.arg_url a) (Section101.arg_list_id a)
             (Z.max 1 (Section101.arg_pages a))
             (Section101.call_sleep (Section101.main_call a)))
  /\ (forall browser,
         ShoppingScroll.main_crawl browser b
         = ShoppingScroll.crawl
             (browser (ShoppingScroll.call_timeout (ShoppingScroll.main_call b)))
             (ShoppingScroll.arg_url b)
             (Z.max 0 (ShoppingScroll.arg_scrolls b))
             (ShoppingScroll.call_wait_sec (ShoppingScroll.main_call b)))
  /\ (forall site,
         (Section101.arg_pages a <= 0)%Z ->
         fst (Section101.main_crawl site a)
         = [Acquire Session; Get (Plain (Section101.arg_url a))]
         /\ gets (fst (Section101.main_crawl site a)) = 1%nat).
Proof.
  split.
  { split; [apply zmax_lower_bound |].
    split; [apply fmax_lower_bound |].
    split; [apply fmax_lower_bound |].
    split; [apply zmax_lower_bound |].
    split; apply fmax_lower_bound. }
  split.
  { split; [reflexivity |]. split; [reflexivity |].
    split; [apply zmax_max |].
    split; [apply fmax_cases |]. split; [apply fmax_cases |].
    split; apply fmax_cases. }
  split.
  { split; [reflexivity |]. split; [apply zmax_max |].
    split; [apply fmax_cases |]. split; [apply fmax_cases |].
    split; apply fmax_cases. }
  split.
  { intros site. unfold Section101.main_crawl.
    cbn [Section101.main_call Section101.call_section_url
         Section101.call_list_id Section101.call_pages Section101.call_sleep
         Section101.call_timeout].
    rewrite zmax_max. reflexivity. }
  split.
  { intros browser. unfold ShoppingScroll.main_crawl.
    cbn [ShoppingScroll.main_call ShoppingScroll.call_url
         ShoppingScroll.call_scrolls ShoppingScroll.call_wait_sec
         ShoppingScroll.call_timeout].
    rewrite zmax_max. reflexivity. }
  intros site Hp.
  assert (Ht : fst (Section101.main_crawl site a)
               = [Acquire Session; Get (Plain (Section101.arg_url a))]).
  { unfold Section101.main_crawl, Section101.main_call.
    cbn [Section101.call_section_url Section101.call_list_id
         Section101.call_pages Section101.call_sleep Section101.call_timeout].
    rewrite zmax_clamps by lia. apply crawl_single_page. }
  split; [exact Ht |]. rewrite Ht. reflexivity.
Qed.

Lemma main_clamps_arguments_witness :
  (Section101.arg_pages Samples.args_no_pages <= 0)%Z
  /\ gets (fst (Section101.main_crawl (fun _ => Samples.site_10_7)
                                      Samples.args_no_pages))
     = 1%nat
  /\ Py.fgt (ShoppingScroll.arg_wait_sec Samples.args_scroll) (Py.Fin 0) = false
  /\ ShoppingScroll.call_wait_sec (ShoppingScroll.main_call Samples.args_scroll)
     = Py.Fin 0
  /\ Py.fgt (Section101.arg_timeout Samples.args_ten_seconds) (Py.Fin 1) = true
  /\ Section101.call_timeout (Section101.main_call Samples.args_ten_seconds)
     = Py.Fin 10.
Proof.
  assert (H : (Section101.arg_pages Samples.args_no_pages <= 0)%Z)
    by (vm_compute; discriminate).
  assert (H2 : Py.fgt (ShoppingScroll.arg_wait_sec Samples.args_scroll)
                      (Py.Fin 0) = false) by reflexivity.
  assert (H3 : Py.fgt (Section101.arg_timeout Samples.args_ten_seconds)
                      (Py.Fin 1) = true) by reflexivity.
  destruct (main_clamps_arguments Samples.args_no_pages Samples.args_scroll)
    as (_ & _ & (_ & _ & _ & Hw & _) & _ & _ & Hone).
  destruct (main_clamps_arguments Samples.args_ten_seconds Samples.args_scroll)
    as (_ & (_ & _ & _ & _ & _ & Ht & _) & _).
  split; [exact H |].
  split; [exact (proj2 (Hone (fun _ => Samples.site_10_7) H)) |].
  split; [exact H2 |]. split; [exact (Hw H2) |].
  split; [exact H3 | exact (Ht H3)].
Defined.

End EntryPoints.

(* ================================================================== *)
(** ** Ownership of the session and of the driver *)
(* ================================================================== *)

Section Ownership.
Import Effects Selenium.

Lemma held_after_app (a b : trace) :
  forall held, held_after held (a ++ b) = held_after (held_after held a) b.
Proof.
  induction a as [| e a IH]; intros held; [reflexivity |].
  destruct e; simpl; apply IH.
Qed.

Lemma held_after_neutral (ext : trace) :
  forallb neutral ext = true -> forall held, held_after held ext = held.
Proof.
  induction ext as [| e ext IH]; intros H held; [reflexivity |].
  simpl in H. apply andb_prop in H. destruct H as [He Hext].
  destruct e; try discriminate He; simpl; apply IH, Hext.
Qed.

Lemma extends_refl (tr : trace) : extends tr tr.
Proof. exists []. split; [symmetry; apply app_nil_r | reflexivity]. Qed.

Lemma extends_trans (a b c : trace) : extends a b -> extends b c -> extends a c.
Proof.
  intros (x & -> & Hx) (y & -> & Hy). exists (x ++ y). split.
  - symmetry. apply app_assoc.
  - rewrite forallb_app, Hx, Hy. reflexivity.
Qed.

Lemma extends_app (tr ext : trace) :
  forallb neutral ext = true -> extends tr (tr ++ ext).
Proof. intros H. exists ext. split; [reflexivity | exact H]. Qed.

Lemma visit_extends (w : Section101Visual.world) (url : string) (sleep : Py.float)
      (todo : list Z) :
  forall all_items tr,
    extends tr (fst (Section101Visual.visit w url sleep todo all_items tr)).
Proof.
  induction todo as [| page rest IH]; intros all_items tr; simpl.
  - apply extends_refl.
  - repeat match goal with
           | |- context [match ?x with _ => _ end] => destruct x
           | |- context [if ?x then _ else _] => destruct x
           end; simpl;
      try apply extends_refl;
      try (apply extends_app; reflexivity);
      try (rewrite <- app_assoc; apply extends_app; reflexivity);
      (eapply extends_trans; [| apply IH]);
      try (apply extends_app; reflexivity);
      rewrite <- app_assoc; apply extends_app; reflexivity.
Qed.

Lemma crawl_pages_extends
    (w : Section101.web) (section_url list_id : string)
    (pages : Z) (sleep : Py.float) (todo : list Z) :
  forall all_items tr,
    extends tr (fst (Section101.crawl_pages w section_url list_id pages
                       sleep todo all_items tr)).
Proof.
  induction todo as [| page rest IH]; intros all_items tr; simpl.
  - apply extends_refl.
  - destruct (Section101.with_page w section_url page) as [u |];
      [| apply extends_refl].
    destruct (Section101.fetch w _) as [doc |]; [| apply extends_app; reflexivity].
    destruct (Section101.pick_ul doc list_id) as [ul |];
      [| apply extends_app; reflexivity].
    destruct (Section101.accept _ _ _ _) as [e | all_items'];
      [apply extends_app; reflexivity |].
    destruct (_ && _); [destruct (Section101.on_sleep w sleep) |]; simpl;
      try (rewrite <- app_assoc; apply extends_app; reflexivity);
      (eapply extends_trans; [| apply IH]);
      try (apply extends_app; reflexivity);
      rewrite <- app_assoc; apply extends_app; reflexivity.
Qed.

Lemma poll_extends (nap : reply unit) (polls : list (reply nat)) :
  forall prev_count tr,
    extends tr (fst (ShoppingScroll.poll nap polls prev_count tr)).
Proof.
  induction polls as [| found later IH]; intros prev_count tr; simpl.
  - apply extends_refl.
  - destruct (ShoppingScroll.li_count_under_ul found) as [cur |];
      [| apply extends_refl].
    destruct (prev_count <? cur)%nat; [apply extends_refl |].
    destruct nap as [[] | e]; [| apply extends_app; reflexivity].
    eapply extends_trans; [| apply IH]. apply extends_app. reflexivity.
Qed.

Lemma scroll_loop_extends (w : ShoppingScroll.world) (wait_sec : Py.float)
      (todo : list Z) :
  forall prev_count tr,
    extends tr (fst (ShoppingScroll.scroll_loop w wait_sec todo prev_count tr)).
Proof.
  induction todo as [| i rest IH]; intros prev_count tr; simpl.
  - apply extends_refl.
  - destruct (ShoppingScroll.on_scroll _); [| apply extends_app; reflexivity].
    destruct (ShoppingScroll.on_sleep w _);
      [| rewrite <- app_assoc; apply extends_app; reflexivity].
    assert (H3 : extends tr
                   (((tr ++ [ScrollDown])
                       ++ [Sleep (Py.fmax (Py.Fin (1 # 10)) wait_sec)])
                      ++ [Locate]))
      by (rewrite <- !app_assoc; apply extends_app; reflexivity).
    destruct (ShoppingScroll.locate_ul _) as [ul | e]; [| exact H3].
    pose proof (poll_extends (ShoppingScroll.on_sleep w (Py.Fin (1 # 5))) ul
                             prev_count
                             (((tr ++ [ScrollDown])
                                 ++ [Sleep (Py.fmax (Py.Fin (1 # 10)) wait_sec)])
                                ++ [Locate]))
      as Hp.
    destruct (ShoppingScroll.poll _ _ _ _) as [tr4 [n | e]]; simpl in Hp.
    + eapply extends_trans; [| apply IH].
      eapply extends_trans; [exact H3 | exact Hp].
    + simpl. eapply extends_trans; [exact H3 | exact Hp].
Qed.

Lemma body_extends (w : ShoppingScroll.world) (url : string) (scrolls : Z)
      (wait_sec : Py.float) (tr : trace) :
  extends tr (fst (ShoppingScroll.body w url scrolls wait_sec tr)).
Proof.
  unfold ShoppingScroll.body.
  assert (H0 : extends tr (tr ++ [Get (Plain url)]))
    by (apply extends_app; reflexivity).
  destruct (ShoppingScroll.on_get w); [| exact H0].
  destruct (ShoppingScroll.on_ready w); [| exact H0].
  assert (H1 : extends tr ((tr ++ [Get (Plain url)]) ++ [Locate]))
    by (rewrite <- app_assoc; apply extends_app; reflexivity).
  destruct (ShoppingScroll.locate_ul _) as [ul | e]; [| exact H1].
  destruct (ShoppingScroll.li_count_under_ul _) as [prev |]; [| exact H1].
  pose proof (scroll_loop_extends w wait_sec (Py.range 0 scrolls) prev
                                  ((tr ++ [Get (Plain url)]) ++ [Locate])) as Hl.
  destruct (ShoppingScroll.scroll_loop _ _ _ _ _) as [tr3 [n | e]]; simpl in Hl.
  - assert (H2 : extends tr (tr3 ++ [Locate])).
    { eapply extends_trans; [exact H1 |].
      eapply extends_trans; [exact Hl |]. apply extends_app. reflexivity. }
    destruct (ShoppingScroll.locate_ul _) as [[kids | e] | e]; exact H2.
  - eapply extends_trans; eassumption.
Qed.

Lemma bracket_released (r : resource) (tr : trace) :
  extends [Acquire r] tr -> all_released (tr ++ [Release r]) = true.
Proof.
  intros (ext & -> & Hext). unfold all_released.
  rewrite held_after_app. simpl held_after at 2.
  rewrite (held_after_neutral ext Hext). simpl.
  destruct r; reflexivity.
Qed.

Lemma open_not_released (r : resource) (tr : trace) :
  extends [Acquire r] tr -> all_released tr = false.
Proof.
  intros (ext & -> & Hext). unfold all_released. simpl.
  rewrite (held_after_neutral ext Hext). reflexivity.
Qed.

(** C9, as the code has it: in every run of the two browser-driven
    crawlers in which [build_driver] returns a driver, [driver.quit()] is
    the last call of the run, on every exit path, whether the run returns
    its records or ends in an exception, and nothing acquired stays open;
    the static crawler never closes the session it builds. *)
Theorem driver_quit_on_every_path :
  (forall w url pages sleep,
      all_released (fst (Section101Visual.crawl_visual w url pages sleep)) = true
      /\ (Section101Visual.on_build w = Ok tt ->
          exists tr,
            fst (Section101Visual.crawl_visual w url pages sleep)
            = tr ++ [Release Driver]
            /\ extends [Acquire Driver] tr))
  /\ (forall w url scrolls wait_sec,
         (ShoppingScroll.on_chrome w = Ok tt -> ShoppingScroll.on_cdp w = Ok tt) ->
         all_released (fst (ShoppingScroll.crawl w url scrolls wait_sec)) = true
         /\ (ShoppingScroll.on_chrome w = Ok tt ->
             exists tr,
               fst (ShoppingScroll.crawl w url scrolls wait_sec)
               = tr ++ [Release Driver]
               /\ extends [Acquire Driver] tr))
  /\ (forall s section_url list_id pages sleep,
         all_released
           (fst (Section101.crawl s section_url list_id pages sleep))
         = false).
Proof.
  split; [| split].
  - intros w url pages sleep. unfold Section101Visual.crawl_visual.
    pose proof (visit_extends w url sleep (Py.range 1 (pages + 1)) []
                              [Acquire Driver]) as Hv.
    destruct (Section101Visual.on_build w) as [[] | e].
    + destruct (Section101Visual.visit _ _ _ _ _ _) as [tr r]. simpl in Hv.
      assert (Hrel : all_released (tr ++ [Release Driver]) = true)
        by (apply bracket_released, Hv).
      destruct (Section101Visual.on_quit w); simpl;
        (split; [exact Hrel | intros _; exists tr; split; [reflexivity | exact Hv]]).
    + split; [reflexivity | discriminate].
  - intros w url scrolls wait_sec Hbuilt. unfold ShoppingScroll.crawl.
    pose proof (body_extends w url scrolls wait_sec [Acquire Driver]) as Hb.
    destruct (ShoppingScroll.on_chrome w) as [[] | e].
    + rewrite (Hbuilt eq_refl).
      destruct (ShoppingScroll.body _ _ _ _ _) as [tr r]. simpl in Hb.
      assert (Hrel : all_released (tr ++ [Release Driver]) = true)
        by (apply bracket_released, Hb).
      destruct (ShoppingScroll.on_quit w) as [[] | e]; [| destruct (is_Exception e)];
        simpl;
        (split; [exact Hrel | intros _; exists tr; split; [reflexivity | exact Hb]]).
    + split; [reflexivity | discriminate].
  - intros s section_url list_id pages sleep.
    apply (open_not_released Session). unfold Section101.crawl.
    apply crawl_pages_extends.
Qed.

Lemma driver_quit_on_every_path_witness :
  (ShoppingScroll.on_chrome ScrollSamples.world_unreachable = Ok tt ->
   ShoppingScroll.on_cdp ScrollSamples.world_unreachable = Ok tt)
  /\ snd (ShoppingScroll.crawl ScrollSamples.world_unreachable
            "https://shopping.naver.com/promotion" 5 (Py.Fin (9 # 10)))
     = Raises WebDriverException
  /\ all_released
       (fst (ShoppingScroll.crawl ScrollSamples.world_unreachable
               "https://shopping.naver.com/promotion" 5 (Py.Fin (9 # 10))))
     = true.
Proof.
  assert (H : ShoppingScroll.on_chrome ScrollSamples.world_unreachable = Ok tt ->
              ShoppingScroll.on_cdp ScrollSamples.world_unreachable = Ok tt)
    by (intros _; reflexivity).
  split; [exact H |]. split; [reflexivity |].
  exact (proj1 (proj1 (proj2 driver_quit_on_every_path)
                      ScrollSamples.world_unreachable
                      "https://shopping.naver.com/promotion" 5%Z
                      (Py.Fin (9 # 10)) H)).
Defined.

(** C9 as worded fails for the static crawler: after a run that returns
    its records the session built at the start is still open. *)
Lemma session_never_closed :
  ~ (forall w section_url list_id pages sleep,
        all_released
          (fst (Section101.crawl w section_url list_id pages sleep))
        = true).
Proof.
  intros H.
  specialize (H Samples.site_10_7 Section101.DEFAULT_SECTION_URL
                Section101.DEFAULT_LIST_ID 2%Z (Py.Fin 0)).
  vm_compute in H. discriminate H.
Qed.

End Ownership.

(* ================================================================== *)
(** ** Record assembler, scroll-growth mode *)
(* ================================================================== *)

Section ScrollGrowth.
Import Effects Selenium ShoppingScroll ClaimedScroll.

Lemma scrolls_done_app (a b : trace) :
  scrolls_done (a ++ b) = (scrolls_done a + scrolls_done b)%nat.
Proof. unfold scrolls_done. rewrite filter_app, length_app. reflexivity. Qed.

Lemma poll_no_growth (polls : list (reply nat)) (prev_count : nat) :
  forallb (no_growth prev_count) polls = true ->
  forall tr, exists tr',
    extends tr tr' /\ poll (Ok tt) polls prev_count tr = (tr', Ok prev_count).
Proof.
  induction polls as [| found later IH]; intros H tr.
  - exists tr. split; [apply extends_refl | reflexivity].
  - simpl in H. apply andb_prop in H. destruct H as [Hf Hl].
    assert (Hc : exists n, li_count_under_ul found = Ok n
                           /\ (prev_count <? n)%nat = false).
    { destruct found as [n | e]; simpl in Hf |- *.
      - exists n. split; [reflexivity |].
        apply Nat.ltb_ge, Nat.leb_le, Hf.
      - rewrite Hf. exists 0%nat. split; [reflexivity |].
        apply Nat.ltb_ge. lia. }
    destruct Hc as (n & Hn & Hlt). simpl. rewrite Hn, Hlt.
    destruct (IH Hl (tr ++ [Sleep (Py.Fin (1 # 5))])) as (tr' & He & Hp).
    exists tr'. split; [| exact Hp].
    eapply extends_trans; [| exact He]. apply extends_app. reflexivity.
Qed.

Lemma poll_answers (polls : list (reply nat)) :
  forallb answers polls = true ->
  forall prev_count tr, exists tr' n,
    poll (Ok tt) polls prev_count tr = (tr', Ok n)
    /\ scrolls_done tr' = scrolls_done tr.
Proof.
  induction polls as [| found later IH]; intros H prev_count tr.
  - exists tr, prev_count. split; reflexivity.
  - simpl in H. apply andb_prop in H. destruct H as [Hf Hl].
    assert (Hc : exists n, li_count_under_ul found = Ok n).
    { destruct found as [n | e]; simpl in Hf |- *.
      - exists n. reflexivity.
      - rewrite Hf. exists 0%nat. reflexivity. }
    destruct Hc as (n & Hn). simpl. rewrite Hn.
    destruct (prev_count <? n)%nat.
    + exists tr, n. split; reflexivity.
    + destruct (IH Hl prev_count (tr ++ [Sleep (Py.Fin (1 # 5))]))
        as (tr' & m & Hp & Hs).
      exists tr', m. split; [exact Hp |].
      rewrite Hs, scrolls_done_app. apply Nat.add_0_r.
Qed.

Lemma locate_ul_located {A} (a : locate_answers A) (found : A) :
  locate_ul a = Ok found <-> located a found.
Proof.
  unfold locate_ul, located. split.
  - destruct (on_css a) as [x | e].
    + intros H. left. exact H.
    + destruct e; try discriminate. intros H. right. split; [reflexivity | exact H].
  - intros [-> | [-> H]]; [reflexivity | exact H].
Qed.

Lemma scroll_loop_completes (w : world) (wait_sec : Py.float) (todo : list Z) :
  on_sleep w (Py.fmax (Py.Fin (1 # 10)) wait_sec) = Ok tt ->
  on_sleep w (Py.Fin (1 # 5)) = Ok tt ->
  (forall i, In i todo ->
             on_scroll (on_step w i) = Ok tt
             /\ exists polls,
                 located (on_locate (on_step w i)) polls
                 /\ forallb answers polls = true) ->
  forall prev_count tr, exists tr' n,
    scroll_loop w wait_sec todo prev_count tr = (tr', Ok n)
    /\ scrolls_done tr' = (scrolls_done tr + List.length todo)%nat.
Proof.
  intros Hsleep Hnap.
  induction todo as [| i rest IH]; intros Hsteps prev_count tr.
  - exists tr, prev_count. split; [reflexivity | simpl; lia].
  - destruct (Hsteps i (or_introl eq_refl)) as (Hs & polls & Hl & Hp).
    apply locate_ul_located in Hl.
    simpl. rewrite Hs, Hsleep, Hl, Hnap.
    destruct (poll_answers _ Hp prev_count
                (((tr ++ [ScrollDown])
                    ++ [Sleep (Py.fmax (Py.Fin (1 # 10)) wait_sec)])
                   ++ [Locate]))
      as (tr4 & n & Hpoll & Hdone).
    rewrite Hpoll.
    destruct (IH (fun j Hj => Hsteps j (or_intror Hj)) n tr4)
      as (tr' & m & Hloop & Hdone').
    exists tr', m. split; [exact Hloop |].
    rewrite Hdone', Hdone, !scrolls_done_app.
    change (scrolls_done [ScrollDown]) with 1%nat.
    change (scrolls_done [Sleep (Py.fmax (Py.Fin (1 # 10)) wait_sec)]) with 0%nat.
    change (scrolls_done [Locate]) with 0%nat.
    cbn [List.length]. lia.
Qed.

Lemma scroll_loop_skips_stalled_step
    (w : world) (wait_sec : Py.float) (i : Z) (rest : list Z) (prev_count : nat)
    (tr : trace) (polls : list (reply nat)) :
  on_sleep w (Py.fmax (Py.Fin (1 # 10)) wait_sec) = Ok tt ->
  on_sleep w (Py.Fin (1 # 5)) = Ok tt ->
  on_scroll (on_step w i) = Ok tt ->
  located (on_locate (on_step w i)) polls ->
  forallb (no_growth prev_count) polls = true ->
  exists tr',
    extends tr tr'
    /\ scroll_loop w wait_sec (i :: rest) prev_count tr
       = scroll_loop w wait_sec rest prev_count tr'.
Proof.
  intros Hsleep Hnap Hs Hl Hp. apply locate_ul_located in Hl.
  simpl. rewrite Hs, Hsleep, Hl, Hnap.
  destruct (poll_no_growth _ _ Hp
              (((tr ++ [ScrollDown])
                  ++ [Sleep (Py.fmax (Py.Fin (1 # 10)) wait_sec)])
                 ++ [Locate]))
    as (tr' & He & Hpoll).
  rewrite Hpoll. exists tr'. split; [| reflexivity].
  eapply extends_trans; [| exact He].
  rewrite <- !app_assoc. apply extends_app. reflexivity.
Qed.

Lemma snapshot_answered (present : list (option string * option string)) :
  forall idx items,
    snapshot (map answered present) idx items
    = Ok (items ++ numbered idx present).
Proof.
  induction present as [| th rest IH]; intros idx items; simpl.
  - rewrite app_nil_r. reflexivity.
  - rewrite IH, <- app_assoc. reflexivity.
Qed.

Lemma range_length (a b : Z) : List.length (Py.range a b) = Z.to_nat (b - a).
Proof. unfold Py.range. rewrite length_map, length_seq. reflexivity. Qed.

(** A child of the [ul] that is an [li] is among the elements found. *)
Lemma child_li_found (kids : list below) (a : li_answers) (nested : list below) :
  In (Node "li" a nested) kids -> In a (find_lis kids).
Proof.
  intros H. unfold find_lis. apply in_flat_map.
  exists (Node "li" a nested). split; [exact H |].
  cbn [lis_at]. change (String.eqb "li" "li") with true. left. reflexivity.
Qed.

Lemma numbered_In (present : list (option string * option string))
      (th : option string * option string) :
  In th present ->
  forall idx, exists i,
    In (mk_item i (Py.strip (Py.or_empty (fst th))) (Py.or_empty (snd th)))
       (numbered idx present).
Proof.
  induction present as [| x rest IH]; [intros [] |].
  intros [-> | Hin] idx; cbn [numbered].
  - exists idx. left. reflexivity.
  - destruct (IH Hin (idx + 1)%Z) as (i & Hi). exists i. right. exact Hi.
Qed.

(** C8: take a run of the scroll crawler in which the calls other than the
    polls succeed (the driver is built, the page loads, each [locate_ul]
    finds a container by its CSS wait or, that wait timing out, by its
    XPath wait, each scroll script runs, the sleeps return, the items
    found at the end answer) and every poll either answers or fails with
    a [WebDriverException].
    Then a scroll step whose polls reach the end of the growth timeout
    without the count exceeding the count seen before does not fail: the
    loop goes on with the next step, the count seen before unchanged;
    all the scroll steps are performed; after the last of them the
    container is located once more, and the run returns one item for each
    [li] below the container found by that last lookup, in document
    order, numbered from 1: every child item of the container is among
    them. *)
Theorem growth_timeout_not_fatal
    (w : world) (url : string) (scrolls : Z) (wait_sec : Py.float)
    (first : reply nat) (kids : list below)
    (present : list (option string * option string)) :
  on_chrome w = Ok tt -> on_cdp w = Ok tt ->
  on_get w = Ok tt -> on_ready w = Ok tt ->
  located (on_first_locate w) first ->
  answers first = true ->
  on_sleep w (Py.fmax (Py.Fin (1 # 10)) wait_sec) = Ok tt ->
  on_sleep w (Py.Fin (1 # 5)) = Ok tt ->
  (forall i, (0 <= i < scrolls)%Z ->
             on_scroll (on_step w i) = Ok tt
             /\ exists polls,
                 located (on_locate (on_step w i)) polls
                 /\ forallb answers polls = true) ->
  located (on_last_locate w) (Ok kids) ->
  find_lis kids = map answered present ->
  quit_contained (on_quit w) = true ->
  (forall i rest prev_count tr polls,
      (0 <= i < scrolls)%Z ->
      located (on_locate (on_step w i)) polls ->
      forallb (no_growth prev_count) polls = true ->
      exists tr',
        extends tr tr'
        /\ scroll_loop w wait_sec (i :: rest) prev_count tr
           = scroll_loop w wait_sec rest prev_count tr')
  /\ snd (crawl w url scrolls wait_sec) = Ok (numbered 1 present)
  /\ (exists tr,
         fst (crawl w url scrolls wait_sec) = tr ++ [Locate; Release Driver]
         /\ scrolls_done tr = Z.to_nat scrolls)
  /\ (forall th nested,
         In (Node "li" (answered th) nested) kids ->
         exists i,
           In (mk_item i (Py.strip (Py.or_empty (fst th))) (Py.or_empty (snd th)))
              (numbered 1 present)).
Proof.
  intros Hchrome Hcdp Hget Hready Hloc0 Hcount0 Hsleep Hnap Hsteps Hloc Hlis
         Hquit.
  split; [| split; [| split]].
  - intros i rest prev_count tr polls Hi Hl Hstall.
    destruct (Hsteps i Hi) as (Hs & _).
    eapply scroll_loop_skips_stalled_step; eassumption.
  - assert (Hc : exists n, li_count_under_ul first = Ok n).
    { destruct first as [n | e]; simpl in Hcount0 |- *.
      - exists n. reflexivity.
      - rewrite Hcount0. exists 0%nat. reflexivity. }
    destruct Hc as (n0 & Hn0).
    destruct (scroll_loop_completes w wait_sec (Py.range 0 scrolls) Hsleep Hnap
                (fun i Hi => Hsteps i (proj1 (range_in 0 scrolls i) Hi))
                n0 (([Acquire Driver] ++ [Get (Plain url)]) ++ [Locate]))
      as (tr3 & n & Hloop & _).
    apply locate_ul_located in Hloc0, Hloc.
    unfold crawl, body. rewrite Hchrome, Hcdp, Hget, Hready, Hloc0, Hn0, Hloop, Hloc.
    rewrite Hlis, snapshot_answered.
    destruct (on_quit w) as [[] | e]; simpl in Hquit |- *;
      [| rewrite Hquit]; reflexivity.
  - assert (Hc : exists n, li_count_under_ul first = Ok n).
    { destruct first as [n | e]; simpl in Hcount0 |- *.
      - exists n. reflexivity.
      - rewrite Hcount0. exists 0%nat. reflexivity. }
    destruct Hc as (n0 & Hn0).
    destruct (scroll_loop_completes w wait_sec (Py.range 0 scrolls) Hsleep Hnap
                (fun i Hi => Hsteps i (proj1 (range_in 0 scrolls i) Hi))
                n0 (([Acquire Driver] ++ [Get (Plain url)]) ++ [Locate]))
      as (tr3 & n & Hloop & Hdone).
    apply locate_ul_located in Hloc0, Hloc.
    exists tr3. split.
    + unfold crawl, body.
      rewrite Hchrome, Hcdp, Hget, Hready, Hloc0, Hn0, Hloop, Hloc.
      destruct (on_quit w) as [[] | e]; simpl in Hquit |- *;
        [| rewrite Hquit]; cbn [fst]; rewrite <- app_assoc; reflexivity.
    + rewrite Hdone, range_length, Z.sub_0_r.
      change (scrolls_done (([Acquire Driver] ++ [Get (Plain url)]) ++ [Locate]))
        with 0%nat. lia.
  - intros th nested Hin.
    apply child_li_found in Hin. rewrite Hlis in Hin.
    apply in_map_iff in Hin. destruct Hin as (th' & Heq & Hin').
    assert (th' = th) as ->.
    { destruct th' as [t' h'], th as [t h]. unfold answered in Heq.
      cbn [fst snd] in Heq. injection Heq as -> ->. reflexivity. }
    apply numbered_In. exact Hin'.
Qed.

Lemma growth_timeout_not_fatal_witness :
  located (on_locate (on_step ScrollSamples.world_stalls_once 0))
          [Ok 20; Ok 20; Ok 20; Ok 20; Ok 20]%nat
  /\ forallb (no_growth 20) [Ok 20; Ok 20; Ok 20; Ok 20; Ok 20]%nat = true
  /\ (exists tr',
        scroll_loop ScrollSamples.world_stalls_once (Py.Fin (9 # 10))
                    [0; 1; 2; 3; 4]%Z 20 [Acquire Driver]
        = scroll_loop ScrollSamples.world_stalls_once (Py.Fin (9 # 10))
                      [1; 2; 3; 4]%Z 20 tr')
  /\ snd (crawl ScrollSamples.world_stalls_once
            "https://shopping.naver.com/promotion" 5 (Py.Fin (9 # 10)))
     = Ok [ mk_item 1 "first" "<li>first</li>"; mk_item 2 "second" "" ]
  /\ (exists tr,
        fst (crawl ScrollSamples.world_stalls_once
               "https://shopping.naver.com/promotion" 5 (Py.Fin (9 # 10)))
        = tr ++ [Locate; Release Driver]
        /\ scrolls_done tr = 5%nat).
Proof.
  assert (Hloc : located (on_locate (on_step ScrollSamples.world_stalls_once 0))
                         [Ok 20; Ok 20; Ok 20; Ok 20; Ok 20]%nat)
    by (right; split; reflexivity).
  assert (Hstall : forallb (no_growth 20) [Ok 20; Ok 20; Ok 20; Ok 20; Ok 20]%nat
                   = true) by reflexivity.
  assert (Hsteps : forall i, (0 <= i < 5)%Z ->
            on_scroll (on_step ScrollSamples.world_stalls_once i) = Ok tt
            /\ exists polls,
                located (on_locate (on_step ScrollSamples.world_stalls_once i))
                        polls
                /\ forallb answers polls = true).
  { intros i _. cbn [ScrollSamples.world_stalls_once on_step].
    destruct (i =? 0)%Z; (split; [reflexivity |]).
    - exists [Ok 20; Ok 20; Ok 20; Ok 20; Ok 20]%nat.
      split; [right; split; reflexivity | reflexivity].
    - exists [Ok 20; Ok 40; Ok 40]%nat.
      split; [left; reflexivity | reflexivity]. }
  destruct (growth_timeout_not_fatal
              ScrollSamples.world_stalls_once
              "https://shopping.naver.com/promotion" 5 (Py.Fin (9 # 10))
              (Ok 20%nat) ScrollSamples.below_two_lis ScrollSamples.two_lis
              eq_refl eq_refl eq_refl eq_refl (or_introl eq_refl) eq_refl
              eq_refl eq_refl Hsteps
              (or_intror (conj eq_refl eq_refl)) eq_refl eq_refl)
    as (Hskip & Hret & Htrace & _).
  split; [exact Hloc |]. split; [exact Hstall |].
  split.
  - destruct (Hskip 0%Z [1; 2; 3; 4]%Z 20%nat [Acquire Driver] _
                    ltac:(lia) Hloc Hstall) as (tr' & _ & Heq).
    exists tr'. exact Heq.
  - split; [exact Hret | exact Htrace].
Defined.

End ScrollGrowth.


(* ================================================================== *)
(** ** More on the static crawler *)
(* ================================================================== *)

Section StaticRun.
Import Dom Effects Section101 ClaimedRun Observed.

Lemma numbered_from_app (a b : list HeadlineItem) :
  forall n,
    numbered_from n (a ++ b)
    = numbered_from n a ++ numbered_from (n + Z.of_nat (List.length a)) b.
Proof.
  induction a as [| x a IH]; intros n; simpl.
  - rewrite Z.add_0_r. reflexivity.
  - rewrite IH. do 3 f_equal. lia.
Qed.

Lemma numbered_from_length (items : list HeadlineItem) :
  forall n, List.length (numbered_from n items) = List.length items.
Proof.
  induction items as [| x items IH]; intros n; simpl; [reflexivity |].
  rewrite IH. reflexivity.
Qed.

Lemma crawl_pages_records
    (w : web) (section_url list_id : string) (pages : Z) (sleep : Py.float)
    (todo : list Z) :
  forall all_items tr tr' items,
    crawl_pages w section_url list_id pages sleep todo all_items tr
    = (tr', inr items) ->
    items
    = all_items
        ++ numbered_from (Z.of_nat (List.length all_items) + 1)
             (flat_map (page_records w section_url list_id) todo)
    /\ tr' = tr ++ flat_map (page_events section_url pages sleep) todo.
Proof.
  induction todo as [| page rest IH]; intros all_items tr tr' items;
    cbn [crawl_pages flat_map].
  - intros H. injection H as <- <-. cbn [numbered_from].
    rewrite !app_nil_r. split; reflexivity.
  - unfold page_records at 1, page_events at 1.
    destruct (with_page w section_url page) as [u |] eqn:Hu; [| discriminate].
    pose proof (with_page_address _ _ _ _ Hu) as ->.
    destruct (fetch w (page_address section_url page)) as [doc |];
      [| discriminate].
    destruct (pick_ul doc list_id) as [ul |]; [| discriminate].
    rewrite accept_numbers.
    destruct (first_error w section_url (iter_target_lis ul)); [discriminate |].
    set (new := accepted w section_url (iter_target_lis ul)).
    assert (Hnext : forall tr1,
              crawl_pages w section_url list_id pages sleep rest
                (all_items
                   ++ numbered_from (Z.of_nat (List.length all_items) + 1) new)
                tr1 = (tr', inr items) ->
              items
              = all_items
                  ++ numbered_from (Z.of_nat (List.length all_items) + 1)
                       (new ++ flat_map (page_records w section_url list_id) rest)
              /\ tr' = tr1 ++ flat_map (page_events section_url pages sleep) rest).
    { intros tr1 H. apply IH in H. destruct H as [Hi Ht]. split; [| exact Ht].
      rewrite Hi, numbered_from_app, <- app_assoc, length_app,
        numbered_from_length.
      do 3 f_equal. lia. }
    destruct ((page <? pages)%Z && Py.fgt sleep (Py.Fin 0)).
    + destruct (on_sleep w sleep); [| discriminate].
      intros H. apply Hnext in H. destruct H as [Hi Ht]. split; [exact Hi |].
      rewrite Ht, <- !app_assoc. reflexivity.
    + intros H. apply Hnext in H. destruct H as [Hi Ht]. split; [exact Hi |].
      rewrite Ht, <- !app_assoc. reflexivity.
Qed.

(** X1: the records of a run that returns are the records of page 1, then
    those of page 2, and so on up to the last page, each page in the
    document order of its items, numbered from 1 over the whole run. *)
Theorem crawl_records_in_page_order
    (w : web) (section_url list_id : string) (pages : Z) (sleep : Py.float)
    (tr : trace) (items : list HeadlineItem) :
  crawl w section_url list_id pages sleep = (tr, inr items) ->
  items
  = numbered_from 1
      (flat_map (page_records w section_url list_id) (Py.range 1 (pages + 1))).
Proof.
  unfold crawl. intros H.
  apply crawl_pages_records in H. destruct H as [H _]. exact H.
Qed.

Lemma crawl_records_in_page_order_witness :
  crawl Samples.site_10_7 DEFAULT_SECTION_URL DEFAULT_LIST_ID 2 (Py.Fin 0)
  = (Samples.trace_10_7, inr Samples.records_10_7)
  /\ Samples.records_10_7
     = numbered_from 1
         (flat_map (page_records Samples.site_10_7 DEFAULT_SECTION_URL
                                 DEFAULT_LIST_ID)
                   (Py.range 1 (2 + 1))).
Proof.
  assert (H : crawl Samples.site_10_7 DEFAULT_SECTION_URL DEFAULT_LIST_ID 2
                    (Py.Fin 0)
              = (Samples.trace_10_7, inr Samples.records_10_7))
    by (vm_compute; reflexivity).
  split; [exact H |].
  exact (crawl_records_in_page_order
           Samples.site_10_7 DEFAULT_SECTION_URL DEFAULT_LIST_ID 2 (Py.Fin 0)
           Samples.trace_10_7 Samples.records_10_7 H).
Defined.

Lemma gets_app (a b : trace) : gets (a ++ b) = (gets a + gets b)%nat.
Proof. unfold gets. rewrite filter_app, length_app. reflexivity. Qed.

Lemma gets_page_events (section_url : string) (pages : Z) (sleep : Py.float)
      (todo : list Z) :
  gets (flat_map (page_events section_url pages sleep) todo) = List.length todo.
Proof.
  induction todo as [| p rest IH]; [reflexivity |].
  cbn [flat_map]. rewrite gets_app, IH. unfold page_events.
  destruct (_ && _); reflexivity.
Qed.

(** X2: a run that returns has made, after building its session, exactly
    the requests for pages 1..pages in that order (none when pages <= 0),
    with a pause of [sleep] after a page only when another page follows
    and [sleep > 0]: the last call of the run is the request of the last
    page, never a pause. *)
Theorem crawl_requests_pages_in_order
    (w : web) (section_url list_id : string) (pages : Z) (sleep : Py.float)
    (tr : trace) (items : list HeadlineItem) :
  crawl w section_url list_id pages sleep = (tr, inr items) ->
  tr = Acquire Session
       :: flat_map (page_events section_url pages sleep) (Py.range 1 (pages + 1))
  /\ gets tr = Z.to_nat pages
  /\ ((1 <= pages)%Z ->
      last tr (Acquire Session) = Get (page_address section_url pages)).
Proof.
  unfold crawl. intros H.
  apply crawl_pages_records in H. destruct H as [_ Ht].
  change ([Acquire Session] ++ ?x) with (Acquire Session :: x) in Ht.
  split; [exact Ht |]. split.
  - rewrite Ht. change (Acquire Session :: ?x) with ([Acquire Session] ++ x).
    rewrite gets_app, gets_page_events, range_length.
    change (gets [Acquire Session]) with 0%nat. f_equal. lia.
  - intros Hp. rewrite Ht.
    rewrite (range_split 1 pages (pages + 1)) by lia.
    replace (Py.range (pages + 1) (pages + 1)) with (@nil Z)
      by (unfold Py.range; rewrite Z.sub_diag; reflexivity).
    rewrite flat_map_app. cbn [flat_map]. unfold page_events at 2.
    rewrite Z.ltb_irrefl. cbn [andb app].
    change (Acquire Session :: ?x ++ ?y) with ((Acquire Session :: x) ++ y).
    apply last_last.
Qed.

Lemma crawl_requests_pages_in_order_witness :
  crawl Samples.site_10_7 DEFAULT_SECTION_URL DEFAULT_LIST_ID 2 (Py.Fin 1)
  = ([Acquire Session; Get (Plain DEFAULT_SECTION_URL); Sleep (Py.Fin 1);
      Get (Paged DEFAULT_SECTION_URL 2)],
     inr Samples.records_10_7)
  /\ gets [Acquire Session; Get (Plain DEFAULT_SECTION_URL); Sleep (Py.Fin 1);
           Get (Paged DEFAULT_SECTION_URL 2)] = Z.to_nat 2
  /\ (1 <= 2)%Z
  /\ last [Acquire Session; Get (Plain DEFAULT_SECTION_URL); Sleep (Py.Fin 1);
           Get (Paged DEFAULT_SECTION_URL 2)] (Acquire Session)
     = Get (page_address DEFAULT_SECTION_URL 2).
Proof.
  assert (H : crawl Samples.site_10_7 DEFAULT_SECTION_URL DEFAULT_LIST_ID 2
                    (Py.Fin 1)
              = ([Acquire Session; Get (Plain DEFAULT_SECTION_URL);
                  Sleep (Py.Fin 1); Get (Paged DEFAULT_SECTION_URL 2)],
                 inr Samples.records_10_7))
    by (vm_compute; reflexivity).
  assert (Hp : (1 <= 2)%Z) by lia.
  destruct (crawl_requests_pages_in_order
              Samples.site_10_7 DEFAULT_SECTION_URL DEFAULT_LIST_ID 2
              (Py.Fin 1) _ _ H) as (_ & Hgets & Hlast).
  split; [exact H |]. split; [exact Hgets |]. split; [exact Hp |].
  exact (Hlast Hp).
Defined.

(** X3: every record of a run that returns comes from an item of the
    container of one of its pages, and its URL is what [urljoin] made of
    the section URL the run was given, whatever the page, and of the
    [href] of the link the item resolved to, which is not empty. *)
Theorem crawl_urls_joined_to_section_url
    (w : web) (section_url list_id : string) (pages : Z) (sleep : Py.float)
    (tr : trace) (items : list HeadlineItem) (it : HeadlineItem) :
  crawl w section_url list_id pages sleep = (tr, inr items) ->
  In it items ->
  exists li link href,
    item_of_page w section_url list_id pages li
    /\ Py.or_else (select_one sel_title_link li) (select_one sel_any_link li)
       = Some link
    /\ attr "href" (el_tag link) = Some href
    /\ href <> ""
    /\ urljoin w section_url href = Some (url it).
Proof.
  intros Hrun Hin.
  destruct (crawl_record_source _ _ _ _ _ _ _ _ Hrun Hin)
    as (li & item & r & Hsrc & Hp & ->).
  destruct (parse_item_record w li section_url item Hp)
    as (link & href & Hl & Ha & Hne & Hu & _).
  exists li, link, href. cbn [set_rank url].
  repeat (split; [assumption |]). exact Hu.
Qed.

Lemma crawl_urls_joined_to_section_url_witness :
  crawl Samples.site_thumbnail_only DEFAULT_SECTION_URL DEFAULT_LIST_ID 1
        (Py.Fin 0)
  = ([Acquire Session; Get (Plain DEFAULT_SECTION_URL)],
     inr [Samples.untitled_record])
  /\ In Samples.untitled_record [Samples.untitled_record]
  /\ exists li link href,
      item_of_page Samples.site_thumbnail_only DEFAULT_SECTION_URL
                   DEFAULT_LIST_ID 1 li
      /\ Py.or_else (select_one sel_title_link li) (select_one sel_any_link li)
         = Some link
      /\ attr "href" (el_tag link) = Some href
      /\ href <> ""
      /\ urljoin Samples.site_thumbnail_only DEFAULT_SECTION_URL href
         = Some (url Samples.untitled_record).
Proof.
  assert (H1 : crawl Samples.site_thumbnail_only DEFAULT_SECTION_URL
                     DEFAULT_LIST_ID 1 (Py.Fin 0)
               = ([Acquire Session; Get (Plain DEFAULT_SECTION_URL)],
                  inr [Samples.untitled_record])) by reflexivity.
  assert (H2 : In Samples.untitled_record [Samples.untitled_record])
    by (left; reflexivity).
  split; [exact H1 |]. split; [exact H2 |].
  exact (crawl_urls_joined_to_section_url _ _ _ _ _ _ _ _ H1 H2).
Defined.

(** X4: when the title link [a.sa_text_title[href]] of an item resolves
    and its [href] is empty, the item yields no record, whatever other
    anchors it holds: the second selector is not tried. *)
Theorem parse_item_empty_title_href
    (w : web) (li : element) (base_url : string) (link : element) :
  select_one sel_title_link li = Some link ->
  attr "href" (el_tag link) = Some "" ->
  parse_item w li base_url = inr None.
Proof.
  intros Hl Hh. unfold parse_item. rewrite Hl. cbn [Py.or_else].
  rewrite Hh. reflexivity.
Qed.

Lemma parse_item_empty_title_href_witness :
  (exists link,
      select_one sel_title_link ExtraSamples.li_empty_title_href = Some link
      /\ attr "href" (el_tag link) = Some "")
  /\ map (fun a => attr "href" (el_tag a))
         (select sel_any_link ExtraSamples.li_empty_title_href)
     = [Some ""; Some "/n/1"]
  /\ parse_item Samples.site_10_7 ExtraSamples.li_empty_title_href
                DEFAULT_SECTION_URL = inr None.
Proof.
  split; [eexists; split; reflexivity |].
  split; [reflexivity |].
  eapply (parse_item_empty_title_href Samples.site_10_7
            ExtraSamples.li_empty_title_href DEFAULT_SECTION_URL);
    reflexivity.
Defined.

End StaticRun.

(* ================================================================== *)
(** ** More on the browser-driven pagination crawler *)
(* ================================================================== *)

Section VisualRun.
Import Effects Selenium Section101Visual Observed.

Ltac split_parse_li :=
  unfold parse_li, Selenium.bind, extract_text;
  repeat match goal with
         | |- context [match ?x with _ => _ end] => destruct x; try discriminate
         end.

Lemma parse_li_rank (li : li_answers) (n : nat) (item : HeadlineItem) :
  parse_li li n = Ok item -> rank item = Some (Z.of_nat n + 1)%Z.
Proof.
  split_parse_li; intros H; injection H as <-; reflexivity.
Qed.

Lemma parse_li_fails_alike (li : li_answers) (n m : nat) (e : exn) :
  parse_li li n = Raises e -> parse_li li m = Raises e.
Proof.
  split_parse_li; intros H; try discriminate H; exact H.
Qed.

Lemma ranked_visual_snoc (items : list HeadlineItem) (item : HeadlineItem) :
  ranked_visual items ->
  rank item = Some (Z.of_nat (List.length items) + 1)%Z ->
  ranked_visual (items ++ [item]).
Proof.
  unfold ranked_visual. intros H Hr.
  rewrite map_app, length_app, H. simpl List.length.
  rewrite seq_app, map_app. simpl. rewrite Hr. do 3 f_equal. lia.
Qed.

Lemma accept_ranked_visual (lis : list li_answers) :
  forall all_items items,
    ranked_visual all_items ->
    accept lis all_items = Ok items ->
    ranked_visual items.
Proof.
  induction lis as [| li rest IH]; intros all_items items Hr; simpl.
  - intros H. injection H as <-. exact Hr.
  - destruct (parse_li li (List.length all_items)) as [item | e] eqn:Hp.
    + apply IH, ranked_visual_snoc; [exact Hr |].
      apply parse_li_rank in Hp. exact Hp.
    + destruct (is_Exception e); [apply IH, Hr | discriminate].
Qed.

Lemma visit_ranked_visual (w : world) (url : string) (sleep : Py.float)
      (todo : list Z) :
  forall all_items tr tr' items,
    ranked_visual all_items ->
    visit w url sleep todo all_items tr = (tr', Ok items) ->
    ranked_visual items.
Proof.
  induction todo as [| page rest IH]; intros all_items tr tr' items Hr; simpl.
  - intros H. injection H as _ <-. exact Hr.
  - destruct (with_page w url page) as [u | e]; [| discriminate].
    destruct (on_get _) as [[] | e]; [| discriminate].
    destruct (on_wait _) as [[] | e].
    + destruct (on_find_ul _) as [[lis | e] | e].
      * destruct (accept lis all_items) as [all_items' | e] eqn:Ha;
          [| discriminate].
        destruct (on_sleep w sleep) as [[] | e]; [| discriminate].
        apply IH. eapply accept_ranked_visual; [exact Hr | exact Ha].
      * discriminate.
      * destruct e; try discriminate. apply IH, Hr.
    + destruct e; try discriminate. apply IH, Hr.
Qed.

(** X5: in every run of the browser-driven pagination crawler that
    returns, the ranks of the records are exactly 1..N in order, over all
    pages, whatever pages and items were passed over on the way. *)
Theorem crawl_visual_ranks_consecutive
    (w : world) (url : string) (pages : Z) (sleep : Py.float)
    (tr : trace) (items : list HeadlineItem) :
  crawl_visual w url pages sleep = (tr, Ok items) ->
  ranked_visual items.
Proof.
  unfold crawl_visual.
  destruct (on_build w) as [[] | e]; [| discriminate].
  destruct (visit w url sleep (Py.range 1 (pages + 1)) [] [Acquire Driver])
    as [tr0 r] eqn:Hv.
  destruct (on_quit w) as [[] | e]; [| discriminate].
  intros H. injection H as _ ->.
  eapply visit_ranked_visual; [| exact Hv]. reflexivity.
Qed.

Lemma crawl_visual_ranks_consecutive_witness :
  crawl_visual ExtraVisualSamples.world_three_items
               "https://news.naver.com/section/101" 2 (Py.Fin 2)
  = (ExtraVisualSamples.trace_three_items,
     Ok ExtraVisualSamples.records_three_items)
  /\ map rank ExtraVisualSamples.records_three_items
     = [Some 1%Z; Some 2%Z; Some 3%Z; Some 4%Z]
  /\ ranked_visual ExtraVisualSamples.records_three_items.
Proof.
  assert (H : crawl_visual ExtraVisualSamples.world_three_items
                           "https://news.naver.com/section/101" 2 (Py.Fin 2)
              = (ExtraVisualSamples.trace_three_items,
                 Ok ExtraVisualSamples.records_three_items))
    by (vm_compute; reflexivity).
  split; [exact H |]. split; [reflexivity |].
  exact (crawl_visual_ranks_consecutive _ _ _ _ _ _ H).
Defined.

(** X6: an item whose parsing raises an [Exception], such as an item
    without any anchor, is passed over: the item loop goes on exactly as
    on the list without it, so the item takes no rank. *)
Theorem accept_skips_failing_item
    (li : li_answers) (e : exn) (before after : list li_answers)
    (all_items : list HeadlineItem) :
  parse_li li 0 = Raises e ->
  is_Exception e = true ->
  accept (before ++ li :: after) all_items
  = accept (before ++ after) all_items.
Proof.
  intros Hp He. revert all_items.
  induction before as [| b before IH]; intros all_items; simpl.
  - rewrite (parse_li_fails_alike li 0 _ e Hp), He. reflexivity.
  - destruct (parse_li b (List.length all_items)) as [item | e'].
    + apply IH.
    + destruct (is_Exception e'); [apply IH | reflexivity].
Qed.

Lemma accept_skips_failing_item_witness :
  parse_li ExtraVisualSamples.li_no_anchor 0 = Raises NoSuchElementException
  /\ is_Exception NoSuchElementException = true
  /\ accept ([VisualSamples.li_one] ++ ExtraVisualSamples.li_no_anchor
                                   :: [ExtraVisualSamples.li_blindish]) []
     = accept ([VisualSamples.li_one] ++ [ExtraVisualSamples.li_blindish]) [].
Proof.
  assert (H1 : parse_li ExtraVisualSamples.li_no_anchor 0
               = Raises NoSuchElementException) by reflexivity.
  assert (H2 : is_Exception NoSuchElementException = true) by reflexivity.
  split; [exact H1 |]. split; [exact H2 |].
  exact (accept_skips_failing_item
           ExtraVisualSamples.li_no_anchor NoSuchElementException
           [VisualSamples.li_one] [ExtraVisualSamples.li_blindish] [] H1 H2).
Defined.

(** X7: [extract_text] of the browser crawler returns a text exactly
    when the element is found and its text is not blank, and then that
    text trimmed; it returns nothing (never an empty string) exactly when
    the element is found with a blank text or is not found
    ([NoSuchElementException]); and it raises exactly when looking the
    element up, or reading its text, raises anything else, which comes out
    as it is. *)
Theorem extract_text_visual_contract (r : reply string) :
  (forall t,
      extract_text r = Ok (Some t)
      <-> exists s, r = Ok s /\ t = Py.strip s /\ t <> "")
  /\ (extract_text r = Ok None
      <-> (exists s, r = Ok s /\ Py.strip s = "")
          \/ r = Raises NoSuchElementException)
  /\ (forall e,
         extract_text r = Raises e
         <-> r = Raises e /\ e <> NoSuchElementException)
  /\ (forall t, extract_text r = Ok (Some t) -> Py.strip t = t).
Proof.
  assert (Hsome : forall t,
             extract_text r = Ok (Some t)
             <-> exists s, r = Ok s /\ t = Py.strip s /\ t <> "").
  { intros t. destruct r as [s | e]; simpl.
    - destruct (String.eqb (Py.strip s) "") eqn:He.
      + apply String.eqb_eq in He. split; [discriminate |].
        intros (s' & Hs & -> & Hne). injection Hs as <-. contradiction.
      + apply String.eqb_neq in He. split.
        * intros H. injection H as <-. exists s. repeat split. exact He.
        * intros (s' & Hs & -> & _). injection Hs as <-. reflexivity.
    - split.
      + destruct e; discriminate.
      + intros (s & Hs & _). discriminate Hs. }
  split; [exact Hsome |]. split; [| split].
  - destruct r as [s | e]; simpl.
    + destruct (String.eqb (Py.strip s) "") eqn:He.
      * apply String.eqb_eq in He. split; [| reflexivity].
        intros _. left. exists s. split; [reflexivity | exact He].
      * apply String.eqb_neq in He. split; [discriminate |].
        intros [(s' & Hs & Hblank) | Hraise]; [| discriminate Hraise].
        injection Hs as <-. contradiction.
    + split.
      * destruct e; try discriminate. intros _. right. reflexivity.
      * intros [(s & Hs & _) | Hraise]; [discriminate Hs |].
        injection Hraise as ->. reflexivity.
  - intros e. destruct r as [s | e']; simpl.
    + split; [discriminate | intros [H _]; discriminate H].
    + split.
      * destruct e'; intros H; try discriminate H; injection H as <-;
          (split; [reflexivity | discriminate]).
      * intros [H Hne]. injection H as ->.
        destruct e; try reflexivity. contradiction.
  - intros t H. apply Hsome in H. destruct H as (s & _ & -> & _).
    apply strip_idem.
Qed.

Lemma extract_text_visual_contract_witness :
  (exists s, Ok " Yonhap " = Ok s /\ "Yonhap" = Py.strip s /\ "Yonhap" <> "")
  /\ extract_text (Ok " Yonhap ") = Ok (Some "Yonhap")
  /\ Py.strip "Yonhap" = "Yonhap"
  /\ (@Raises string TimeoutException = Raises TimeoutException
      /\ TimeoutException <> NoSuchElementException)
  /\ extract_text (Raises TimeoutException) = Raises TimeoutException
  /\ extract_text (Ok ExtraVisualSamples.padded_title_word)
     = Ok (Some ExtraVisualSamples.title_word).
Proof.
  assert (H1 : exists s, @Ok string " Yonhap " = Ok s
                         /\ "Yonhap" = Py.strip s /\ "Yonhap" <> "").
  { exists " Yonhap ". split; [reflexivity |]. split; [reflexivity | discriminate]. }
  assert (H2 : @Raises string TimeoutException = Raises TimeoutException
               /\ TimeoutException <> NoSuchElementException)
    by (split; [reflexivity | discriminate]).
  pose proof (proj2 (proj1 (extract_text_visual_contract (Ok " Yonhap "))
                           "Yonhap") H1) as H3.
  split; [exact H1 |]. split; [exact H3 |].
  split; [exact (proj2 (proj2 (proj2 (extract_text_visual_contract
                                        (Ok " Yonhap ")))) "Yonhap" H3) |].
  split; [exact H2 |].
  split; [exact (proj2 (proj1 (proj2 (proj2 (extract_text_visual_contract
                                        (Raises TimeoutException))))
                      TimeoutException) H2) |].
  apply (proj1 (extract_text_visual_contract
                  (Ok ExtraVisualSamples.padded_title_word))).
  exists ExtraVisualSamples.padded_title_word.
  split; [reflexivity |]. split; [reflexivity | discriminate].
Defined.

Lemma prefix_app (needle post : string) :
  String.prefix needle (needle ++ post)%string = true.
Proof.
  induction needle as [| c needle IH]; simpl.
  - destruct post; reflexivity.
  - destruct (ascii_dec c c) as [_ | Hne]; [exact IH | contradiction].
Qed.

Lemma contains_app (needle pre post : string) :
  Py.contains needle (pre ++ needle ++ post)%string = true.
Proof.
  induction pre as [| c pre IH].
  - cbn [append]. pose proof (prefix_app needle post) as Hp.
    destruct (needle ++ post)%string; cbn [Py.contains]; rewrite Hp; reflexivity.
  - cbn [append Py.contains]. rewrite IH. apply orb_true_r.
Qed.

(** X8: in the browser crawler the [is_blind] flag of a record is set as
    soon as the class attribute of its item holds the letters [is_blind]
    anywhere, inside a longer class name too. *)
Theorem parse_li_is_blind_by_substring
    (li : li_answers) (n : nat) (item : HeadlineItem) (pre post : string) :
  on_class li = Ok (Some (pre ++ "is_blind" ++ post)%string) ->
  parse_li li n = Ok item ->
  is_blind item = true.
Proof.
  intros Hc. unfold parse_li. rewrite Hc. cbn [Selenium.bind].
  assert (Hne : String.eqb (pre ++ "is_blind" ++ post)%string "" = false)
    by (destruct pre; reflexivity).
  rewrite Hne, contains_app.
  unfold Selenium.bind, extract_text;
    repeat match goal with
           | |- context [match ?x with _ => _ end] => destruct x; try discriminate
           end;
    intros H; injection H as <-; reflexivity.
Qed.

Lemma parse_li_is_blind_by_substring_witness :
  on_class ExtraVisualSamples.li_blindish
  = Ok (Some ("sa_item not_" ++ "is_blind" ++ "_any_more")%string)
  /\ (exists item,
        parse_li ExtraVisualSamples.li_blindish 0 = Ok item
        /\ is_blind item = true).
Proof.
  assert (H1 : on_class ExtraVisualSamples.li_blindish
               = Ok (Some ("sa_item not_" ++ "is_blind" ++ "_any_more")%string))
    by reflexivity.
  split; [exact H1 |].
  eexists. split; [reflexivity |].
  eapply (parse_li_is_blind_by_substring ExtraVisualSamples.li_blindish 0 _
                                         "sa_item not_" "_any_more" H1).
  reflexivity.
Defined.

(** X9: the entry point of the browser crawler hands [--pages] over as it
    is: with a page count of zero or less the browser is started and
    quit without any page being requested, and the file saved is
    empty. *)
Theorem main_visual_without_pages (w : world) (a : args) :
  (arg_pages a <= 0)%Z ->
  on_build w = Ok tt ->
  main w a
  = ([Acquire Driver; Release Driver],
     match on_quit w with
     | Ok _ => Ok EmptyString
     | Raises e => Raises e
     end).
Proof.
  intros Hp Hb. unfold main, crawl_visual. rewrite Hb.
  replace (Py.range 1 (arg_pages a + 1)) with (@nil Z).
  - cbn [visit]. destruct (on_quit w); reflexivity.
  - unfold Py.range. replace (Z.to_nat (arg_pages a + 1 - 1)) with 0%nat by lia.
    reflexivity.
Qed.

Lemma main_visual_without_pages_witness :
  (arg_pages (mk_args "https://news.naver.com/section/101" 0 (Py.Fin 2)) <= 0)%Z
  /\ on_build ExtraVisualSamples.world_three_items = Ok tt
  /\ main ExtraVisualSamples.world_three_items
          (mk_args "https://news.naver.com/section/101" 0 (Py.Fin 2))
     = ([Acquire Driver; Release Driver], Ok EmptyString).
Proof.
  assert (H1 : (arg_pages (mk_args "https://news.naver.com/section/101" 0
                                   (Py.Fin 2)) <= 0)%Z)
    by (vm_compute; discriminate).
  assert (H2 : on_build ExtraVisualSamples.world_three_items = Ok tt)
    by reflexivity.
  split; [exact H1 |]. split; [exact H2 |].
  exact (main_visual_without_pages ExtraVisualSamples.world_three_items _ H1 H2).
Defined.

End VisualRun.

(* ================================================================== *)
(** ** More on the scroll crawler *)
(* ================================================================== *)

Section ScrollRun.
Import Effects Selenium ShoppingScroll ClaimedScroll Observed.

Lemma snapshot_reads (li_elems : list li_answers) :
  forall idx0 items0 items,
    snapshot li_elems idx0 items0 = Ok items ->
    exists new,
      items = items0 ++ new
      /\ Forall2 read_from li_elems new
      /\ map idx new
         = map (fun i => (idx0 + Z.of_nat i)%Z) (seq 0 (List.length li_elems)).
Proof.
  induction li_elems as [| li rest IH]; intros idx0 items0 items; simpl.
  - intros H. injection H as <-. exists []. rewrite app_nil_r.
    repeat split. constructor.
  - unfold Selenium.bind.
    destruct (on_text li) as [t | e] eqn:Ht; [| discriminate].
    destruct (on_outer li) as [h | e] eqn:Hh; [| discriminate].
    intros H. apply IH in H. destruct H as (new & -> & Hread & Hidx).
    exists (mk_item idx0 (Py.strip (Py.or_empty t)) (Py.or_empty h) :: new).
    split; [rewrite <- app_assoc; reflexivity |]. split.
    + constructor; [| exact Hread].
      exists t, h. repeat split; assumption.
    + cbn [map idx]. rewrite Hidx, <- seq_shift, map_map. f_equal.
      * f_equal. lia.
      * apply map_ext. intros i. lia.
Qed.

Lemma crawl_returns_snapshot
    (w : world) (url : string) (scrolls : Z) (wait_sec : Py.float)
    (tr : trace) (items : list LiItem) :
  crawl w url scrolls wait_sec = (tr, Ok items) ->
  exists kids,
    located (on_last_locate w) (Ok kids)
    /\ snapshot (find_lis kids) 1 [] = Ok items.
Proof.
  unfold crawl.
  destruct (on_chrome w) as [[] | e]; [| discriminate].
  destruct (on_cdp w) as [[] | e]; [| discriminate].
  destruct (body w url scrolls wait_sec [Acquire Driver]) as [tr0 r] eqn:Hb.
  assert (Hr : r = Ok items -> exists kids,
                 located (on_last_locate w) (Ok kids)
                 /\ snapshot (find_lis kids) 1 [] = Ok items).
  { intros ->. unfold body in Hb.
    destruct (on_get w); [| discriminate].
    destruct (on_ready w); [| discriminate].
    destruct (locate_ul (on_first_locate w)) as [ul |]; [| discriminate].
    destruct (li_count_under_ul ul); [| discriminate].
    destruct (scroll_loop _ _ _ _ _) as [tr3 [n | e]]; [| discriminate].
    destruct (locate_ul (on_last_locate w)) as [[kids | e] | e] eqn:Hl;
      [| discriminate | discriminate].
    injection Hb as _ Hs. exists kids.
    split; [apply locate_ul_located, Hl | exact Hs]. }
  destruct (on_quit w) as [[] | e].
  - intros H. injection H as _ H. exact (Hr H).
  - destruct (is_Exception e); [| discriminate].
    intros H. injection H as _ H. exact (Hr H).
Qed.

(** X10: whenever a run of the scroll crawler returns, its items are,
    one for one and in order, the [li] elements below the container that
    the last lookup found: the text of each item is the text its element
    answered, trimmed (the empty string when it answered none), its
    markup the [outerHTML] the element answered (the empty string when it
    answered none), and its position its place in that list, from 1. *)
Theorem crawl_scroll_positions
    (w : world) (url : string) (scrolls : Z) (wait_sec : Py.float)
    (tr : trace) (items : list LiItem) :
  crawl w url scrolls wait_sec = (tr, Ok items) ->
  exists kids,
    located (on_last_locate w) (Ok kids)
    /\ Forall2 read_from (find_lis kids) items
    /\ positioned items
    /\ Forall (fun it => Py.strip (text it) = text it) items.
Proof.
  intros H. apply crawl_returns_snapshot in H.
  destruct H as (kids & Hl & Hs).
  apply snapshot_reads in Hs. destruct Hs as (new & -> & Hread & Hidx).
  exists kids. cbn [app].
  assert (Hlen : List.length new = List.length (find_lis kids)).
  { rewrite <- (length_map idx new), Hidx, length_map, length_seq. reflexivity. }
  split; [exact Hl |]. split; [exact Hread |]. split.
  - unfold positioned. rewrite Hidx, Hlen, <- seq_shift, map_map.
    apply map_ext. intros i. lia.
  - clear - Hread. induction Hread as [| li it lis its (t & h & _ & _ & Ht & _) _ IH];
      constructor; [| exact IH].
    rewrite Ht. apply strip_idem.
Qed.

Lemma crawl_scroll_positions_witness :
  crawl ScrollSamples.world_stalls_once "https://shopping.naver.com/promotion"
        5 (Py.Fin (9 # 10))
  = (ExtraScrollSamples.trace_stalls_once, Ok ExtraScrollSamples.items_stalls_once)
  /\ (exists kids,
         located (on_last_locate ScrollSamples.world_stalls_once) (Ok kids)
         /\ Forall2 read_from (find_lis kids) ExtraScrollSamples.items_stalls_once
         /\ positioned ExtraScrollSamples.items_stalls_once
         /\ Forall (fun it => Py.strip (text it) = text it)
                   ExtraScrollSamples.items_stalls_once).
Proof.
  assert (H : crawl ScrollSamples.world_stalls_once
                    "https://shopping.naver.com/promotion" 5 (Py.Fin (9 # 10))
              = (ExtraScrollSamples.trace_stalls_once,
                 Ok ExtraScrollSamples.items_stalls_once))
    by (vm_compute; reflexivity).
  split; [exact H |].
  exact (crawl_scroll_positions _ _ _ _ _ _ H).
Defined.

Lemma poll_result (nap : reply unit) (polls : list (reply nat)) (prev_count : nat) :
  forall tr tr' n,
    poll nap polls prev_count tr = (tr', Ok n) ->
    n = prev_count \/ ((prev_count < n)%nat /\ polled n polls).
Proof.
  induction polls as [| found later IH]; intros tr tr' n; simpl.
  - intros H. injection H as _ <-. left. reflexivity.
  - destruct (li_count_under_ul found) as [cur |] eqn:Hc; [| discriminate].
    destruct (Nat.ltb_spec prev_count cur) as [Hlt | Hge].
    + intros H. injection H as _ <-. right. split; [exact Hlt |].
      exists found. split; [left; reflexivity | exact Hc].
    + destruct nap as [[] | e]; [| discriminate].
      intros H. apply IH in H. destruct H as [H | [Hlt (f & Hin & Hf)]].
      * left. exact H.
      * right. split; [exact Hlt |]. exists f. split; [right; exact Hin | exact Hf].
Qed.

(** X11: over the scroll steps the count kept in [prev_count] never goes
    down, and it only ever changes to a count that a poll of one of the
    steps answered. *)
Theorem scroll_loop_count_grows
    (w : world) (wait_sec : Py.float) (todo : list Z) :
  forall prev_count tr tr' n,
    scroll_loop w wait_sec todo prev_count tr = (tr', Ok n) ->
    (prev_count <= n)%nat
    /\ (n = prev_count
        \/ exists i polls,
            In i todo
            /\ located (on_locate (on_step w i)) polls
            /\ polled n polls).
Proof.
  induction todo as [| i rest IH]; intros prev_count tr tr' n; simpl.
  - intros H. injection H as _ <-. split; [lia | left; reflexivity].
  - destruct (on_scroll (on_step w i)); [| discriminate].
    destruct (on_sleep w _); [| discriminate].
    destruct (locate_ul _) as [polls |] eqn:Hl; [| discriminate].
    apply locate_ul_located in Hl.
    destruct (poll _ _ _ _) as [tr4 [m | e]] eqn:Hp; [| discriminate].
    apply poll_result in Hp.
    intros H. apply IH in H. destruct H as [Hle Hn]. split.
    + destruct Hp as [-> | [Hlt _]]; lia.
    + destruct Hn as [-> | (j & pj & Hj & Hlj & Hpj)].
      * destruct Hp as [-> | [_ Hpolled]]; [left; reflexivity |].
        right. exists i, polls.
        split; [left; reflexivity |]. split; [exact Hl | exact Hpolled].
      * right. exists j, pj.
        split; [right; exact Hj |]. split; [exact Hlj | exact Hpj].
Qed.

Lemma scroll_loop_count_grows_witness :
  scroll_loop ScrollSamples.world_stalls_once (Py.Fin (9 # 10)) [0; 1]%Z 20 []
  = ([ScrollDown; Sleep (Py.Fin (9 # 10)); Locate; Sleep (Py.Fin (1 # 5));
      Sleep (Py.Fin (1 # 5)); Sleep (Py.Fin (1 # 5)); Sleep (Py.Fin (1 # 5));
      Sleep (Py.Fin (1 # 5)); ScrollDown; Sleep (Py.Fin (9 # 10)); Locate;
      Sleep (Py.Fin (1 # 5))], Ok 40%nat)
  /\ (20 <= 40)%nat.
Proof.
  assert (H : scroll_loop ScrollSamples.world_stalls_once (Py.Fin (9 # 10))
                          [0; 1]%Z 20 []
              = ([ScrollDown; Sleep (Py.Fin (9 # 10)); Locate;
                  Sleep (Py.Fin (1 # 5));
                  Sleep (Py.Fin (1 # 5)); Sleep (Py.Fin (1 # 5));
                  Sleep (Py.Fin (1 # 5)); Sleep (Py.Fin (1 # 5)); ScrollDown;
                  Sleep (Py.Fin (9 # 10)); Locate; Sleep (Py.Fin (1 # 5))],
                 Ok 40%nat))
    by (vm_compute; reflexivity).
  split; [exact H |].
  exact (proj1 (scroll_loop_count_grows _ _ _ _ _ _ _ H)).
Defined.

Lemma poll_scrolls_done (nap : reply unit) (polls : list (reply nat)) :
  forall prev_count tr,
    scrolls_done (fst (poll nap polls prev_count tr)) = scrolls_done tr.
Proof.
  induction polls as [| found later IH]; intros prev_count tr; simpl.
  - reflexivity.
  - destruct (li_count_under_ul found) as [cur |]; [| reflexivity].
    destruct (prev_count <? cur)%nat; [reflexivity |].
    destruct nap as [[] | e]; simpl.
    + rewrite IH, scrolls_done_app. apply Nat.add_0_r.
    + cbn [fst]. rewrite scrolls_done_app. apply Nat.add_0_r.
Qed.

Lemma scroll_loop_scrolls_done (w : world) (wait_sec : Py.float) (todo : list Z) :
  forall prev_count tr,
    (scrolls_done (fst (scroll_loop w wait_sec todo prev_count tr))
     <= scrolls_done tr + List.length todo)%nat.
Proof.
  induction todo as [| i rest IH]; intros prev_count tr;
    cbn [scroll_loop List.length fst].
  - lia.
  - assert (H1 : scrolls_done (tr ++ [ScrollDown]) = S (scrolls_done tr)).
    { rewrite scrolls_done_app. change (scrolls_done [ScrollDown]) with 1%nat.
      lia. }
    assert (H2 : scrolls_done
                   ((tr ++ [ScrollDown])
                      ++ [Sleep (Py.fmax (Py.Fin (1 # 10)) wait_sec)])
                 = S (scrolls_done tr)).
    { rewrite scrolls_done_app, H1.
      change (scrolls_done [Sleep (Py.fmax (Py.Fin (1 # 10)) wait_sec)])
        with 0%nat. lia. }
    assert (H3 : scrolls_done
                   (((tr ++ [ScrollDown])
                       ++ [Sleep (Py.fmax (Py.Fin (1 # 10)) wait_sec)])
                      ++ [Locate])
                 = S (scrolls_done tr)).
    { rewrite scrolls_done_app, H2.
      change (scrolls_done [Locate]) with 0%nat. lia. }
    destruct (on_scroll (on_step w i)); [| cbn [fst]; lia].
    destruct (on_sleep w _); [| cbn [fst]; lia].
    destruct (locate_ul _) as [polls |]; [| cbn [fst]; lia].
    pose proof (poll_scrolls_done (on_sleep w (Py.Fin (1 # 5))) polls prev_count
                  (((tr ++ [ScrollDown])
                      ++ [Sleep (Py.fmax (Py.Fin (1 # 10)) wait_sec)])
                     ++ [Locate])) as Hp.
    destruct (poll _ _ _ _) as [tr4 [m | e]]; cbn [fst] in Hp |- *.
    + specialize (IH m tr4). lia.
    + lia.
Qed.

(** X12: no run of the scroll crawler, whatever the browser answers and
    however the run ends, scrolls more often than the [scrolls] it was
    given; with [scrolls] zero or less it never scrolls. *)
Theorem crawl_scrolls_at_most
    (w : world) (url : string) (scrolls : Z) (wait_sec : Py.float) :
  (scrolls_done (fst (crawl w url scrolls wait_sec)) <= Z.to_nat scrolls)%nat.
Proof.
  assert (Hb : (scrolls_done (fst (body w url scrolls wait_sec [Acquire Driver]))
                <= Z.to_nat scrolls)%nat).
  { unfold body.
    assert (H0 : (scrolls_done ([Acquire Driver] ++ [Get (Plain url)])
                  <= Z.to_nat scrolls)%nat)
      by (change (scrolls_done ([Acquire Driver] ++ [Get (Plain url)]))
            with 0%nat; lia).
    assert (H1 : (scrolls_done
                    (([Acquire Driver] ++ [Get (Plain url)]) ++ [Locate])
                  <= Z.to_nat scrolls)%nat)
      by (change (scrolls_done
                    (([Acquire Driver] ++ [Get (Plain url)]) ++ [Locate]))
            with 0%nat; lia).
    destruct (on_get w); [| exact H0].
    destruct (on_ready w); [| exact H0].
    destruct (locate_ul (on_first_locate w)) as [ul |]; [| exact H1].
    destruct (li_count_under_ul ul) as [n0 |]; [| exact H1].
    pose proof (scroll_loop_scrolls_done w wait_sec (Py.range 0 scrolls) n0
                  (([Acquire Driver] ++ [Get (Plain url)]) ++ [Locate])) as Hl.
    rewrite range_length, Z.sub_0_r in Hl.
    change (scrolls_done (([Acquire Driver] ++ [Get (Plain url)]) ++ [Locate]))
      with 0%nat in Hl.
    destruct (scroll_loop _ _ _ _ _) as [tr3 [n | e]]; cbn [fst] in Hl |- *;
      [| exact Hl].
    assert (Hl' : (scrolls_done (tr3 ++ [Locate]) <= Z.to_nat scrolls)%nat).
    { rewrite scrolls_done_app. change (scrolls_done [Locate]) with 0%nat. lia. }
    destruct (locate_ul (on_last_locate w)) as [[kids | e] | e]; exact Hl'. }
  unfold crawl.
  assert (Hnil : (scrolls_done [] <= Z.to_nat scrolls)%nat)
    by (change (scrolls_done []) with 0%nat; lia).
  assert (Hacq : (scrolls_done [Acquire Driver] <= Z.to_nat scrolls)%nat)
    by (change (scrolls_done [Acquire Driver]) with 0%nat; lia).
  destruct (on_chrome w); [| exact Hnil].
  destruct (on_cdp w); [| exact Hacq].
  destruct (body w url scrolls wait_sec [Acquire Driver]) as [tr r].
  cbn [fst] in Hb.
  assert (Hr : (scrolls_done (tr ++ [Release Driver]) <= Z.to_nat scrolls)%nat).
  { rewrite scrolls_done_app. change (scrolls_done [Release Driver]) with 0%nat.
    lia. }
  destruct (on_quit w) as [[] | e]; [| destruct (is_Exception e)]; exact Hr.
Qed.

Lemma repeat_snoc {A} (x : A) (n : nat) : repeat x n ++ [x] = x :: repeat x n.
Proof. induction n as [| n IH]; simpl; [reflexivity | rewrite IH; reflexivity]. Qed.

(** X13: the wait of a scroll step ends at the first poll that sees more
    items than before: after as many naps of 0.2 s as polls saw no
    growth, the count of that poll becomes the new [prev_count], and no
    later poll is made. *)
Theorem poll_stops_at_first_growth
    (before after : list (reply nat)) (found : reply nat)
    (prev_count n : nat) (tr : trace) :
  forallb (no_growth prev_count) before = true ->
  li_count_under_ul found = Ok n ->
  (prev_count < n)%nat ->
  poll (Ok tt) (before ++ found :: after) prev_count tr
  = (tr ++ repeat (Sleep (Py.Fin (1 # 5))) (List.length before), Ok n).
Proof.
  intros Hb Hf Hlt. revert tr.
  induction before as [| b before IH]; intros tr.
  - cbn [app poll List.length repeat]. rewrite Hf.
    destruct (Nat.ltb_spec prev_count n); [| lia].
    rewrite app_nil_r. reflexivity.
  - simpl in Hb. apply andb_prop in Hb. destruct Hb as [Hb0 Hb].
    assert (Hc : exists m, li_count_under_ul b = Ok m
                           /\ (prev_count <? m)%nat = false).
    { destruct b as [m | e]; simpl in Hb0 |- *.
      - exists m. split; [reflexivity |]. apply Nat.ltb_ge, Nat.leb_le, Hb0.
      - rewrite Hb0. exists 0%nat. split; [reflexivity |]. apply Nat.ltb_ge. lia. }
    destruct Hc as (m & Hm & Hnot).
    cbn [app poll List.length repeat]. rewrite Hm, Hnot, (IH Hb).
    rewrite <- app_assoc. reflexivity.
Qed.

Lemma poll_stops_at_first_growth_witness :
  forallb (no_growth 20) [Ok 20%nat; Raises WebDriverException] = true
  /\ li_count_under_ul (Ok 40%nat) = Ok 40%nat
  /\ (20 < 40)%nat
  /\ poll (Ok tt)
          ([Ok 20%nat; Raises WebDriverException]
             ++ Ok 40%nat :: [Ok 60%nat; Raises KeyboardInterrupt]) 20 []
     = ([] ++ repeat (Sleep (Py.Fin (1 # 5))) 2, Ok 40%nat).
Proof.
  assert (H1 : forallb (no_growth 20) [Ok 20%nat; Raises WebDriverException]
               = true) by reflexivity.
  assert (H2 : li_count_under_ul (Ok 40%nat) = Ok 40%nat) by reflexivity.
  assert (H3 : (20 < 40)%nat) by lia.
  split; [exact H1 |]. split; [exact H2 |]. split; [exact H3 |].
  exact (poll_stops_at_first_growth
           [Ok 20%nat; Raises WebDriverException]
           [Ok 60%nat; Raises KeyboardInterrupt] (Ok 40%nat) 20 40 [] H1 H2 H3).
Defined.

Lemma scroll_loop_with_quit (r : reply unit) (w : world) (wait_sec : Py.float)
      (todo : list Z) :
  forall prev_count tr,
    scroll_loop (with_quit r w) wait_sec todo prev_count tr
    = scroll_loop w wait_sec todo prev_count tr.
Proof.
  induction todo as [| i rest IH]; intros prev_count tr; [reflexivity |].
  cbn [scroll_loop with_quit on_step on_sleep].
  destruct (on_scroll (on_step w i)); [| reflexivity].
  destruct (on_sleep w _); [| reflexivity].
  destruct (locate_ul _) as [polls |]; [| reflexivity].
  destruct (poll _ _ _ _) as [tr4 [m | e]]; [apply IH | reflexivity].
Qed.

(** X14: an [Exception] raised by [driver.quit()] changes nothing: the
    run returns the same items, or ends in the same exception, and makes
    the same calls as when [quit] returns. *)
Theorem crawl_quit_failure_swallowed
    (w : world) (url : string) (scrolls : Z) (wait_sec : Py.float) (e : exn) :
  on_quit w = Raises e ->
  is_Exception e = true ->
  crawl w url scrolls wait_sec
  = crawl (with_quit (Ok tt) w) url scrolls wait_sec.
Proof.
  intros Hq He.
  assert (Hb : body (with_quit (Ok tt) w) url scrolls wait_sec [Acquire Driver]
               = body w url scrolls wait_sec [Acquire Driver]).
  { unfold body.
    change (on_get (with_quit (Ok tt) w)) with (on_get w).
    change (on_ready (with_quit (Ok tt) w)) with (on_ready w).
    change (on_first_locate (with_quit (Ok tt) w)) with (on_first_locate w).
    change (on_last_locate (with_quit (Ok tt) w)) with (on_last_locate w).
    destruct (on_get w); [| reflexivity].
    destruct (on_ready w); [| reflexivity].
    destruct (locate_ul (on_first_locate w)) as [ul |]; [| reflexivity].
    destruct (li_count_under_ul ul) as [n0 |]; [| reflexivity].
    rewrite scroll_loop_with_quit. reflexivity. }
  unfold crawl. rewrite Hb.
  cbn [with_quit on_chrome on_cdp on_quit].
  rewrite Hq, He.
  destruct (on_chrome w); [| reflexivity].
  destruct (on_cdp w); [| reflexivity].
  destruct (body w url scrolls wait_sec [Acquire Driver]). reflexivity.
Qed.

Lemma crawl_quit_failure_swallowed_witness :
  on_quit ExtraScrollSamples.world_quit_fails = Raises WebDriverException
  /\ is_Exception WebDriverException = true
  /\ snd (crawl ExtraScrollSamples.world_quit_fails
                "https://shopping.naver.com/promotion" 5 (Py.Fin (9 # 10)))
     = Ok ExtraScrollSamples.items_stalls_once.
Proof.
  assert (H1 : on_quit ExtraScrollSamples.world_quit_fails
               = Raises WebDriverException) by reflexivity.
  assert (H2 : is_Exception WebDriverException = true) by reflexivity.
  split; [exact H1 |]. split; [exact H2 |].
  rewrite (crawl_quit_failure_swallowed
             ExtraScrollSamples.world_quit_fails
             "https://shopping.naver.com/promotion" 5 (Py.Fin (9 # 10))
             WebDriverException H1 H2).
  vm_compute. reflexivity.
Defined.

End ScrollRun.

(* ================================================================== *)
(** ** Saving records and reading them back *)
(* ================================================================== *)

Section Storage.
Import Observed.

Lemma chars_app (a b : string) : Py.chars (a ++ b) = Py.chars a ++ Py.chars b.
Proof. induction a as [| c a IH]; simpl; [reflexivity | rewrite IH; reflexivity]. Qed.

Lemma all_printable_app (a b : string) :
  all_printable a -> all_printable b -> all_printable (a ++ b).
Proof.
  unfold all_printable. intros Ha Hb. rewrite chars_app, forallb_app, Ha, Hb.
  reflexivity.
Qed.

Lemma replace_printable (c : ascii) : all_printable (Json.replace c).
Proof. destruct c as [[] [] [] [] [] [] [] []]; reflexivity. Qed.

Lemma escape_printable (s : string) : all_printable (Json.escape s).
Proof.
  induction s as [| c s IH]; [reflexivity |].
  apply all_printable_app; [apply replace_printable | exact IH].
Qed.

Lemma encode_basestring_printable (s : string) :
  all_printable (Json.encode_basestring s).
Proof.
  unfold Json.encode_basestring.
  change (String Json.quote (Json.escape s ++ String Json.quote ""))
    with (String Json.quote "" ++ (Json.escape s ++ String Json.quote ""))%string.
  apply all_printable_app; [reflexivity |].
  apply all_printable_app; [apply escape_printable | reflexivity].
Qed.

Lemma string_of_uint_printable (d : Decimal.uint) :
  all_printable (NilEmpty.string_of_uint d).
Proof.
  induction d; [reflexivity | ..];
    (change (NilEmpty.string_of_uint ?x)
       with (NilEmpty.string_of_uint x) in IHd;
     unfold all_printable in *; simpl; exact IHd).
Qed.

Lemma string_of_int_printable (z : Z) :
  all_printable (NilZero.string_of_int (Z.to_int z)).
Proof.
  unfold NilZero.string_of_int, NilZero.string_of_uint.
  destruct (Z.to_int z) as [d | d].
  - destruct d; try reflexivity; apply string_of_uint_printable.
  - change (String "-" ?x) with (String "-" "" ++ x)%string.
    apply all_printable_app; [reflexivity |].
    destruct d; try reflexivity; apply string_of_uint_printable.
Qed.

Lemma dumps_value_printable (v : Json.value) : all_printable (Json.dumps_value v).
Proof.
  destruct v as [| [] | z | s]; try reflexivity.
  - apply string_of_int_printable.
  - apply encode_basestring_printable.
Qed.

Lemma join_printable (sep : string) (parts : list string) :
  all_printable sep -> Forall all_printable parts ->
  all_printable (Py.join sep parts).
Proof.
  intros Hs. unfold Py.join. induction 1 as [| p parts Hp Hps IH]; [reflexivity |].
  destruct parts as [| q parts]; [exact Hp |].
  change (concat sep (p :: q :: parts))
    with (p ++ sep ++ concat sep (q :: parts))%string.
  apply all_printable_app; [exact Hp |].
  apply all_printable_app; [exact Hs | exact IH].
Qed.

Lemma dumps_printable (d : list (string * Json.value)) :
  all_printable (Json.dumps d).
Proof.
  unfold Json.dumps.
  apply all_printable_app; [reflexivity |].
  apply all_printable_app; [| reflexivity].
  apply join_printable; [reflexivity |].
  apply Forall_forall. intros x Hx. apply in_map_iff in Hx.
  destruct Hx as (kv & <- & _). unfold Json.dumps_item.
  apply all_printable_app; [apply encode_basestring_printable |].
  apply all_printable_app; [reflexivity | apply dumps_value_printable].
Qed.

Lemma printable_not_newline (c : ascii) :
  printable c = true -> Py.is_LF c = false /\ Py.is_CR c = false.
Proof. destruct c as [[] [] [] [] [] [] [] []]; simpl; intros H; try discriminate H; split; reflexivity. Qed.

Lemma read_write_text (windows : bool) (text : string) :
  forallb (fun c => negb (Py.is_CR c)) (Py.chars text) = true ->
  Py.read_text (Py.write_text windows text) = text.
Proof.
  induction text as [| c r IH]; intros H; [reflexivity |].
  cbn [Py.chars forallb] in H. apply andb_prop in H. destruct H as [Hc Hr].
  apply negb_true_iff in Hc. specialize (IH Hr).
  cbn [Py.write_text].
  destruct (Py.is_LF c && windows) eqn:Hw.
  - apply andb_prop in Hw. destruct Hw as [Hlf _].
    apply Ascii.eqb_eq in Hlf. subst c.
    cbn [Py.read_text]. change (Py.is_CR Py.CR) with true.
    change (Py.is_LF Py.LF) with true. cbn iota. rewrite IH. reflexivity.
  - cbn [Py.read_text]. rewrite Hc, IH. reflexivity.
Qed.

Lemma jsonl_no_CR (docs : list string) :
  Forall all_printable docs ->
  forallb (fun c => negb (Py.is_CR c)) (Py.chars (jsonl docs)) = true.
Proof.
  induction 1 as [| d docs Hd _ IH]; [reflexivity |].
  cbn [jsonl]. rewrite !chars_app, !forallb_app, IH, andb_true_r.
  cbn [Py.chars forallb]. change (negb (Py.is_CR Py.LF)) with true.
  rewrite andb_true_r.
  unfold all_printable in Hd. clear - Hd.
  induction (Py.chars d) as [| c l IH]; [reflexivity |].
  cbn [forallb] in Hd |- *. apply andb_prop in Hd. destruct Hd as [Hc Hl].
  destruct (printable_not_newline c Hc) as [_ Hcr]. rewrite Hcr, (IH Hl).
  reflexivity.
Qed.

Lemma lines_first (d rest : string) :
  all_printable d ->
  Py.lines ((d ++ String Py.LF "") ++ rest)
  = (d ++ String Py.LF "")%string :: Py.lines rest.
Proof.
  unfold all_printable. induction d as [| c d IH]; intros H.
  - reflexivity.
  - cbn [Py.chars forallb] in H. apply andb_prop in H. destruct H as [Hc Hd].
    destruct (printable_not_newline c Hc) as [Hlf _].
    cbn [append Py.lines]. rewrite Hlf, (IH Hd). reflexivity.
Qed.

Lemma lines_jsonl (docs : list string) :
  Forall all_printable docs ->
  Py.lines (jsonl docs) = map (fun d => (d ++ String Py.LF "")%string) docs.
Proof.
  induction 1 as [| d docs Hd _ IH]; [reflexivity |].
  cbn [jsonl map]. rewrite lines_first by exact Hd. rewrite IH. reflexivity.
Qed.

Lemma save_jsonl_visual (items : list Section101Visual.HeadlineItem) :
  Section101Visual.save_jsonl items
  = jsonl (map (fun it => Json.dumps (Section101Visual.asdict it)) items).
Proof.
  induction items as [| it items IH]; [reflexivity |].
  cbn [Section101Visual.save_jsonl map jsonl]. rewrite IH. reflexivity.
Qed.

Lemma save_jsonl_scroll (items : list ShoppingScroll.LiItem) :
  ShoppingScroll.save_jsonl items
  = jsonl (map (fun it => Json.dumps (ShoppingScroll.asdict it)) items).
Proof.
  induction items as [| it items IH]; [reflexivity |].
  cbn [ShoppingScroll.save_jsonl map jsonl]. rewrite IH. reflexivity.
Qed.

Lemma dumps_line_nonblank (d : list (string * Json.value)) :
  Dashboard.nonblank (Json.dumps d ++ String Py.LF "") = true.
Proof.
  unfold Dashboard.nonblank, Json.dumps. cbn [append].
  destruct (strip_plain_head "{"
              ((Py.join ", " (map Json.dumps_item d) ++ "}") ++ String Py.LF "")
              (after_space_plain "{" _ eq_refl eq_refl eq_refl eq_refl eq_refl))
    as (r' & ->).
  reflexivity.
Qed.

Lemma scroll_file_lines (windows : bool) (items : list ShoppingScroll.LiItem) :
  Py.lines (Py.read_text
              (Py.write_text windows (ShoppingScroll.save_jsonl items)))
  = map (fun it => (Json.dumps (ShoppingScroll.asdict it)
                      ++ String Py.LF "")%string) items.
Proof.
  rewrite save_jsonl_scroll.
  assert (Hp : Forall all_printable
                 (map (fun it => Json.dumps (ShoppingScroll.asdict it)) items))
    by (apply Forall_forall; intros x Hx; apply in_map_iff in Hx;
        destruct Hx as (it & <- & _); apply dumps_printable).
  rewrite read_write_text by (apply jsonl_no_CR, Hp).
  rewrite lines_jsonl by exact Hp. apply map_map.
Qed.

(** X15: a file saved by [save_jsonl] of either browser crawler reads
    back, on Windows as on a platform whose line separator is a line
    feed, as exactly one line per record, in order, each the JSON text
    of its record followed by a line feed and none of them blank:
    whatever line breaks the fields hold, they never split a record. *)
Theorem save_jsonl_one_line_per_record (windows : bool) :
  (forall items,
      Py.lines (Py.read_text
                  (Py.write_text windows (Section101Visual.save_jsonl items)))
      = map (fun it => (Json.dumps (Section101Visual.asdict it)
                          ++ String Py.LF "")%string) items)
  /\ (forall items,
         Py.lines (Py.read_text
                     (Py.write_text windows (ShoppingScroll.save_jsonl items)))
         = map (fun it => (Json.dumps (ShoppingScroll.asdict it)
                             ++ String Py.LF "")%string) items)
  /\ (forall d, Dashboard.nonblank (Json.dumps d ++ String Py.LF "") = true).
Proof.
  split; [| split].
  - intros items. rewrite save_jsonl_visual.
    assert (Hp : Forall all_printable
                   (map (fun it => Json.dumps (Section101Visual.asdict it)) items))
      by (apply Forall_forall; intros x Hx; apply in_map_iff in Hx;
          destruct Hx as (it & <- & _); apply dumps_printable).
    rewrite read_write_text by (apply jsonl_no_CR, Hp).
    rewrite lines_jsonl by exact Hp. apply map_map.
  - intros items. rewrite save_jsonl_scroll.
    assert (Hp : Forall all_printable
                   (map (fun it => Json.dumps (ShoppingScroll.asdict it)) items))
      by (apply Forall_forall; intros x Hx; apply in_map_iff in Hx;
          destruct Hx as (it & <- & _); apply dumps_printable).
    rewrite read_write_text by (apply jsonl_no_CR, Hp).
    rewrite lines_jsonl by exact Hp. apply map_map.
  - apply dumps_line_nonblank.
Qed.

End Storage.

Section ReadingBack.
Import Observed Dashboard.

Section Reader.
Variable J : Type.
Variable loads : string -> failure + J.

Lemma load_lines_parsed (todo : list string) :
  forall items,
    load_lines J loads todo items
    = match first_failure (fun _ => false) loads todo with
      | Some f => inl f
      | None => inr (items ++ parsed loads todo)
      end.
Proof.
  induction todo as [| line rest IH]; intros items;
    cbn [load_lines parsed flat_map first_failure].
  - rewrite app_nil_r. reflexivity.
  - fold (parsed loads rest).
    destruct (nonblank line); [| apply IH].
    destruct (loads line) as [f | item]; [reflexivity |].
    rewrite IH. destruct (first_failure _ loads rest); [reflexivity |].
    rewrite <- app_assoc. reflexivity.
Qed.

Lemma get_lines_parsed (todo : list string) :
  forall items,
    get_lines J loads todo items
    = match first_failure is_JSONDecodeError loads todo with
      | Some f => inl f
      | None => inr (items ++ parsed loads todo)
      end.
Proof.
  induction todo as [| line rest IH]; intros items;
    cbn [get_lines parsed flat_map first_failure].
  - rewrite app_nil_r. reflexivity.
  - fold (parsed loads rest).
    destruct (nonblank line); [| apply IH].
    destruct (loads line) as [f | item].
    + destruct (is_JSONDecodeError f); [apply IH | reflexivity].
    + rewrite IH. destruct (first_failure _ loads rest); [reflexivity |].
      rewrite <- app_assoc. reflexivity.
Qed.

Lemma first_failure_none (caught : failure -> bool) (todo : list string) :
  first_failure caught loads todo = None
  <-> forall line f, In line todo -> nonblank line = true ->
                     loads line = inl f -> caught f = true.
Proof.
  induction todo as [| l rest IH]; cbn [first_failure].
  - split; [intros _ line f [] | reflexivity].
  - destruct (nonblank l) eqn:Hnb.
    + destruct (loads l) as [g | item] eqn:Hl.
      * destruct (caught g) eqn:Hc.
        -- rewrite IH. split.
           ++ intros H line f [<- | Hin] Hn Hf.
              ** rewrite Hl in Hf. injection Hf as <-. exact Hc.
              ** eapply H; eassumption.
           ++ intros H line f Hin. apply H. right. exact Hin.
        -- split; [discriminate |]. intros H.
           rewrite (H l g (or_introl eq_refl) Hnb Hl) in Hc. discriminate Hc.
      * rewrite IH. split.
        -- intros H line f [<- | Hin] Hn Hf.
           ++ rewrite Hl in Hf. discriminate Hf.
           ++ eapply H; eassumption.
        -- intros H line f Hin. apply H. right. exact Hin.
    + rewrite IH. split.
      * intros H line f [<- | Hin] Hn Hf.
        -- rewrite Hnb in Hn. discriminate Hn.
        -- eapply H; eassumption.
      * intros H line f Hin. apply H. right. exact Hin.
Qed.

Lemma first_failure_some (caught : failure -> bool) (todo : list string)
      (f : failure) :
  first_failure caught loads todo = Some f
  -> exists line, In line todo /\ nonblank line = true
                  /\ loads line = inl f /\ caught f = false.
Proof.
  induction todo as [| l rest IH]; cbn [first_failure]; [discriminate |].
  assert (Hrest : first_failure caught loads rest = Some f ->
                  exists line, In line (l :: rest) /\ nonblank line = true
                               /\ loads line = inl f /\ caught f = false).
  { intros H. destruct (IH H) as (line & Hin & Hrem).
    exists line. split; [right; exact Hin | exact Hrem]. }
  destruct (nonblank l) eqn:Hnb; [| exact Hrest].
  destruct (loads l) as [g | item] eqn:Hl; [| exact Hrest].
  destruct (caught g) eqn:Hc; [exact Hrest |].
  intros H. injection H as <-. exists l.
  split; [left; reflexivity |]. repeat split; assumption.
Qed.

Lemma all_parse_no_failure (todo : list string) :
  all_parse loads todo <-> first_failure (fun _ => false) loads todo = None.
Proof.
  rewrite first_failure_none. unfold all_parse. split.
  - intros H line f Hin Hn Hf. destruct (H line Hin Hn) as (item & Hi).
    rewrite Hi in Hf. discriminate Hf.
  - intros H line Hin Hn. destruct (loads line) as [f | item] eqn:Hl.
    + specialize (H line f Hin Hn Hl). discriminate H.
    + exists item. reflexivity.
Qed.

Lemma first_bad_line_failure (todo : list string) (f : failure) :
  first_failure (fun _ => false) loads todo = Some f
  <-> exists line, first_bad_line loads todo line f.
Proof.
  induction todo as [| l rest IH]; cbn [first_failure].
  - split; [discriminate |].
    intros (line & before & after & H & _). destruct before; discriminate H.
  - assert (Hskip : (forall f', loads l = inl f' -> nonblank l = false) ->
                    ((exists line, first_bad_line loads rest line f)
                     <-> exists line, first_bad_line loads (l :: rest) line f)).
    { intros Hl. split.
      - intros (line & before & after & -> & Hall & Hn & Hf).
        exists line, (l :: before), after. split; [reflexivity |].
        split; [| split; assumption].
        intros x [<- | Hin] Hx.
        + destruct (loads l) as [f' | item] eqn:Hlx.
          * rewrite (Hl f' eq_refl) in Hx. discriminate Hx.
          * exists item. reflexivity.
        + apply Hall; assumption.
      - intros (line & before & after & Heq & Hall & Hn & Hf).
        destruct before as [| b before]; cbn [app] in Heq.
        + injection Heq as -> ->. rewrite (Hl f Hf) in Hn. discriminate Hn.
        + injection Heq as -> ->. exists line, before, after.
          split; [reflexivity |]. split; [| split; assumption].
          intros x Hin. apply Hall. right. exact Hin. }
    destruct (nonblank l) eqn:Hnb.
    + destruct (loads l) as [g | item] eqn:Hl.
      * split.
        -- intros H. injection H as <-. exists l, [], rest.
           split; [reflexivity |]. split; [intros x [] |]. split; assumption.
        -- intros (line & before & after & Heq & Hall & Hn & Hf).
           destruct before as [| b before]; cbn [app] in Heq.
           ++ injection Heq as -> ->. rewrite Hl in Hf. injection Hf as ->.
              reflexivity.
           ++ injection Heq as -> ->.
              destruct (Hall b (or_introl eq_refl) Hnb) as (item & Hi).
              rewrite Hl in Hi. discriminate Hi.
      * rewrite IH. apply Hskip. intros f' Hf'. discriminate Hf'.
    + rewrite IH. apply Hskip. intros _ _. reflexivity.
Qed.

Lemma parsed_nil (todo : list string) :
  all_parse loads todo ->
  (parsed loads todo = [] <-> forallb (fun line => negb (nonblank line)) todo = true).
Proof.
  induction todo as [| line rest IH]; cbn [parsed flat_map forallb].
  - intros _. split; reflexivity.
  - fold (parsed loads rest). intros H.
    assert (Hr : all_parse loads rest)
      by (intros x Hx; apply H; right; exact Hx).
    specialize (IH Hr).
    destruct (nonblank line) eqn:Hnb; cbn [negb andb].
    + destruct (H line (or_introl eq_refl) Hnb) as (item & ->).
      split; discriminate.
    + exact IH.
Qed.

(** X16: the data endpoint answers the empty list for a missing file,
    and otherwise the parsed non-blank lines in file order, passing over
    every line on which [json.loads] raises [JSONDecodeError]; it ends in
    the exception, which it does not catch, exactly when [json.loads]
    raises anything else on a non-blank line.  [load_data] of the page
    generator answers the same list exactly when every non-blank line
    parses, and otherwise ends in what [json.loads] raises on the first
    non-blank line that does not. *)
Theorem get_data_and_load_data (file : option (list string)) :
  (forall items,
      get_data J loads file = inr items
      <-> (file = None /\ items = [])
          \/ exists todo,
              file = Some todo
              /\ items = parsed loads todo
              /\ forall line, In line todo -> nonblank line = true ->
                              loads line <> inl OtherError)
  /\ (forall f,
         get_data J loads file = inl f
         <-> f = OtherError
             /\ exists todo line,
                 file = Some todo /\ In line todo
                 /\ nonblank line = true /\ loads line = inl OtherError)
  /\ (forall items,
         load_data J loads file = inr items
         <-> (file = None /\ items = [])
             \/ exists todo,
                 file = Some todo
                 /\ items = parsed loads todo
                 /\ all_parse loads todo)
  /\ (forall f,
         load_data J loads file = inl f
         <-> exists todo line,
             file = Some todo /\ first_bad_line loads todo line f).
Proof.
  destruct file as [todo |]; cbn [get_data load_data].
  - rewrite get_lines_parsed, load_lines_parsed. cbn [app].
    split; [| split; [| split]].
    + intros items.
      destruct (first_failure is_JSONDecodeError loads todo) as [f |] eqn:Hff.
      * split; [discriminate |].
        intros [[H _] | (todo' & Heq & _ & Hno)]; [discriminate H |].
        injection Heq as <-.
        apply first_failure_some in Hff.
        destruct Hff as (line & Hin & Hn & Hl & Hc).
        destruct f; [discriminate Hc |].
        exfalso. exact (Hno line Hin Hn Hl).
      * split.
        -- intros H. injection H as <-. right. exists todo.
           split; [reflexivity |]. split; [reflexivity |].
           intros line Hin Hn Hl.
           pose proof (proj1 (first_failure_none _ _) Hff line OtherError
                         Hin Hn Hl) as Hc.
           discriminate Hc.
        -- intros [[H _] | (todo' & Heq & -> & _)]; [discriminate H |].
           injection Heq as <-. reflexivity.
    + intros f.
      destruct (first_failure is_JSONDecodeError loads todo) as [g |] eqn:Hff.
      * pose proof (first_failure_some _ _ _ Hff) as (line & Hin & Hn & Hl & Hc).
        destruct g; [discriminate Hc |]. split.
        -- intros H. injection H as <-.
           split; [reflexivity |]. exists todo, line. repeat split; assumption.
        -- intros [-> _]. reflexivity.
      * split; [discriminate |].
        intros [_ (todo' & line & Heq & Hin & Hn & Hl)]. injection Heq as <-.
        pose proof (proj1 (first_failure_none _ _) Hff line OtherError
                      Hin Hn Hl) as Hc.
        discriminate Hc.
    + intros items.
      destruct (first_failure (fun _ => false) loads todo) as [f |] eqn:Hff.
      * split; [discriminate |].
        intros [[H _] | (todo' & Heq & _ & Hall)]; [discriminate H |].
        injection Heq as <-. apply all_parse_no_failure in Hall.
        rewrite Hall in Hff. discriminate Hff.
      * split.
        -- intros H. injection H as <-. right. exists todo.
           split; [reflexivity |]. split; [reflexivity |].
           apply all_parse_no_failure, Hff.
        -- intros [[H _] | (todo' & Heq & -> & _)]; [discriminate H |].
           injection Heq as <-. reflexivity.
    + intros f.
      destruct (first_failure (fun _ => false) loads todo) as [g |] eqn:Hff.
      * split.
        -- intros H. injection H as <-.
           apply first_bad_line_failure in Hff. destruct Hff as (line & Hb).
           exists todo, line. split; [reflexivity | exact Hb].
        -- intros (todo' & line & Heq & Hb). injection Heq as <-.
           assert (Hg : first_failure (fun _ => false) loads todo = Some f)
             by (apply first_bad_line_failure; exists line; exact Hb).
           rewrite Hff in Hg. injection Hg as ->. reflexivity.
      * split; [discriminate |].
        intros (todo' & line & Heq & Hb). injection Heq as <-.
        assert (Hg : first_failure (fun _ => false) loads todo = Some f)
          by (apply first_bad_line_failure; exists line; exact Hb).
        rewrite Hff in Hg. discriminate Hg.
  - split; [| split; [| split]].
    + intros items. split.
      * intros H. injection H as <-. left. split; reflexivity.
      * intros [[_ ->] | (todo & H & _)]; [reflexivity | discriminate H].
    + intros f. split; [discriminate |].
      intros [_ (todo & line & H & _)]. discriminate H.
    + intros items. split.
      * intros H. injection H as <-. left. split; reflexivity.
      * intros [[_ ->] | (todo & H & _)]; [reflexivity | discriminate H].
    + intros f. split; [discriminate |].
      intros (todo & line & H & _). discriminate H.
Qed.

(** X17: the page generator writes the output file exactly when the
    input file exists, every non-blank line of it parses, at least one
    line is not blank and [generate_html] returns, and what it writes is
    [generate_html] of the parsed lines in file order.  In every other
    case the output file is left alone: [main] returns without writing
    exactly when the input file is missing or holds only blank lines; it
    ends in what [json.loads] raises on the first non-blank line that
    does not parse; and it ends in what [generate_html] raises. *)
Theorem main_writes_only_with_data
    (generate_html : list J -> option string) (file : option (list string)) :
  (forall html,
      main J loads generate_html file = Written html
      <-> exists todo,
          file = Some todo
          /\ all_parse loads todo
          /\ forallb (fun line => negb (nonblank line)) todo = false
          /\ generate_html (parsed loads todo) = Some html)
  /\ (main J loads generate_html file = NothingWritten
      <-> file = None
          \/ exists todo,
              file = Some todo
              /\ forallb (fun line => negb (nonblank line)) todo = true)
  /\ (forall f,
         main J loads generate_html file = LoadError f
         <-> exists todo line,
             file = Some todo /\ first_bad_line loads todo line f)
  /\ (main J loads generate_html file = RenderError
      <-> exists todo,
          file = Some todo
          /\ all_parse loads todo
          /\ forallb (fun line => negb (nonblank line)) todo = false
          /\ generate_html (parsed loads todo) = None).
Proof.
  unfold main. destruct file as [todo |]; cbn [load_data].
  - rewrite load_lines_parsed. cbn [app].
    destruct (first_failure (fun _ => false) loads todo) as [g |] eqn:Hff.
    + assert (Hnot : ~ all_parse loads todo).
      { intros Hall. apply all_parse_no_failure in Hall.
        rewrite Hall in Hff. discriminate Hff. }
      assert (Hblank : forallb (fun line => negb (nonblank line)) todo = false).
      { destruct (forallb _ todo) eqn:Hb; [| reflexivity].
        exfalso. apply Hnot. intros line Hin Hn.
        rewrite forallb_forall in Hb. specialize (Hb line Hin).
        rewrite Hn in Hb. discriminate Hb. }
      split; [| split; [| split]].
      * intros html. split; [discriminate |].
        intros (todo' & Heq & Hall & _). injection Heq as <-. contradiction.
      * split; [discriminate |].
        intros [H | (todo' & Heq & Hb)]; [discriminate H |].
        injection Heq as <-. rewrite Hb in Hblank. discriminate Hblank.
      * intros f. split.
        -- intros H. injection H as <-.
           apply first_bad_line_failure in Hff. destruct Hff as (line & Hb).
           exists todo, line. split; [reflexivity | exact Hb].
        -- intros (todo' & line & Heq & Hb). injection Heq as <-.
           assert (Hg : first_failure (fun _ => false) loads todo = Some f)
             by (apply first_bad_line_failure; exists line; exact Hb).
           rewrite Hff in Hg. injection Hg as ->. reflexivity.
      * split; [discriminate |].
        intros (todo' & Heq & Hall & _). injection Heq as <-. contradiction.
    + assert (Hall : all_parse loads todo) by (apply all_parse_no_failure, Hff).
      pose proof (parsed_nil todo Hall) as Hnil.
      assert (Hno : forall f, ~ exists todo' line,
                       Some todo = Some todo'
                       /\ first_bad_line loads todo' line f).
      { intros f (todo' & line & Heq & Hb). injection Heq as <-.
        assert (Hg : first_failure (fun _ => false) loads todo = Some f)
          by (apply first_bad_line_failure; exists line; exact Hb).
        rewrite Hff in Hg. discriminate Hg. }
      destruct (parsed loads todo) as [| item items] eqn:Hp.
      * assert (Hb : forallb (fun line => negb (nonblank line)) todo = true)
          by (apply Hnil; reflexivity).
        split; [| split; [| split]].
        -- intros html. split; [discriminate |].
           intros (todo' & Heq & _ & Hb' & _). injection Heq as <-.
           rewrite Hb in Hb'. discriminate Hb'.
        -- split; [| reflexivity]. intros _. right. exists todo.
           split; [reflexivity | exact Hb].
        -- intros f. split; [discriminate |]. intros H. destruct (Hno f H).
        -- split; [discriminate |].
           intros (todo' & Heq & _ & Hb' & _). injection Heq as <-.
           rewrite Hb in Hb'. discriminate Hb'.
      * assert (Hb : forallb (fun line => negb (nonblank line)) todo = false).
        { destruct (forallb _ todo) eqn:Hb; [| reflexivity].
          pose proof (proj2 Hnil eq_refl) as Habs. discriminate Habs. }
        split; [| split; [| split]].
        -- intros html. destruct (generate_html (item :: items)) as [h |] eqn:Hg.
           ++ split.
              ** intros H. injection H as <-. exists todo.
                 split; [reflexivity |]. split; [exact Hall |].
                 split; [exact Hb |]. rewrite Hp. exact Hg.
              ** intros (todo' & Heq & _ & _ & Hg'). injection Heq as <-.
                 rewrite Hp, Hg in Hg'. injection Hg' as ->. reflexivity.
           ++ split; [discriminate |].
              intros (todo' & Heq & _ & _ & Hg'). injection Heq as <-.
              rewrite Hp, Hg in Hg'. discriminate Hg'.
        -- split.
           ++ destruct (generate_html (item :: items)); discriminate.
           ++ intros [H | (todo' & Heq & Hb')]; [discriminate H |].
              injection Heq as <-. rewrite Hb in Hb'. discriminate Hb'.
        -- intros f. split.
           ++ destruct (generate_html (item :: items)); discriminate.
           ++ intros H. destruct (Hno f H).
        -- destruct (generate_html (item :: items)) as [h |] eqn:Hg.
           ++ split; [discriminate |].
              intros (todo' & Heq & _ & _ & Hg'). injection Heq as <-.
              rewrite Hp, Hg in Hg'. discriminate Hg'.
           ++ split; [| reflexivity]. intros _. exists todo.
              split; [reflexivity |]. split; [exact Hall |].
              split; [exact Hb |]. rewrite Hp. exact Hg.
  - split; [| split; [| split]].
    + intros html. split; [discriminate |].
      intros (todo & H & _). discriminate H.
    + split; [intros _; left; reflexivity | reflexivity].
    + intros f. split; [discriminate |].
      intros (todo & line & H & _). discriminate H.
    + split; [discriminate |]. intros (todo & H & _). discriminate H.
Qed.

End Reader.

Lemma get_data_and_load_data_witness :
  (forall line, In line StorageSamples.noisy_file -> nonblank line = true ->
                StorageSamples.keep_object line <> inl OtherError)
  /\ get_data string StorageSamples.keep_object (Some StorageSamples.noisy_file)
     = inr [ String "{" (String "}" (String Py.LF EmptyString));
             String "{" (String "}" EmptyString) ]
  /\ first_bad_line StorageSamples.keep_object StorageSamples.noisy_file
                    StorageSamples.bad_line JSONDecodeError
  /\ load_data string StorageSamples.keep_object (Some StorageSamples.noisy_file)
     = inl JSONDecodeError.
Proof.
  assert (H1 : forall line, In line StorageSamples.noisy_file ->
                            nonblank line = true ->
                            StorageSamples.keep_object line <> inl OtherError).
  { intros line [<- | [<- | [<- | [<- | []]]]] _; discriminate. }
  assert (H2 : first_bad_line StorageSamples.keep_object StorageSamples.noisy_file
                              StorageSamples.bad_line JSONDecodeError).
  { exists [ String "{" (String "}" (String Py.LF EmptyString));
             String " " (String Py.LF EmptyString) ],
           [ String "{" (String "}" EmptyString) ].
    split; [reflexivity |]. split.
    - intros line [<- | [<- | []]] Hn; [eexists; reflexivity | discriminate Hn].
    - split; reflexivity. }
  destruct (get_data_and_load_data string StorageSamples.keep_object
              (Some StorageSamples.noisy_file)) as (Hget & _ & _ & Hload).
  split; [exact H1 |]. split.
  - apply Hget. right. exists StorageSamples.noisy_file.
    split; [reflexivity |]. split; [reflexivity | exact H1].
  - split; [exact H2 |]. apply Hload.
    exists StorageSamples.noisy_file, StorageSamples.bad_line.
    split; [reflexivity | exact H2].
Defined.

Lemma main_writes_only_with_data_witness :
  (@None (list string) = None
   \/ exists todo,
       @None (list string) = Some todo
       /\ forallb (fun line => negb (nonblank line)) todo = true)
  /\ main string StorageSamples.keep_object (fun _ => Some "") None
     = NothingWritten
  /\ (exists todo,
         Some StorageSamples.two_records = Some todo
         /\ all_parse StorageSamples.keep_object todo
         /\ forallb (fun line => negb (nonblank line)) todo = false
         /\ StorageSamples.count_lines (parsed StorageSamples.keep_object todo)
            = Some "2")
  /\ main string StorageSamples.keep_object StorageSamples.count_lines
          (Some StorageSamples.two_records)
     = Written "2".
Proof.
  assert (H1 : @None (list string) = None
               \/ exists todo,
                   @None (list string) = Some todo
                   /\ forallb (fun line => negb (nonblank line)) todo = true)
    by (left; reflexivity).
  assert (H2 : exists todo,
             Some StorageSamples.two_records = Some todo
             /\ all_parse StorageSamples.keep_object todo
             /\ forallb (fun line => negb (nonblank line)) todo = false
             /\ StorageSamples.count_lines
                  (parsed StorageSamples.keep_object todo) = Some "2").
  { exists StorageSamples.two_records. split; [reflexivity |]. split.
    - intros line [<- | [<- | [<- | []]]] Hn;
        try (eexists; reflexivity); discriminate Hn.
    - split; reflexivity. }
  split; [exact H1 |].
  split; [exact (proj2 (proj1 (proj2 (main_writes_only_with_data
                   string StorageSamples.keep_object (fun _ => Some "") None)))
                 H1) |].
  split; [exact H2 |].
  exact (proj2 (proj1 (main_writes_only_with_data
                  string StorageSamples.keep_object StorageSamples.count_lines
                  (Some StorageSamples.two_records)) "2") H2).
Defined.

(** X18: saving and loading compose: when the decoder reads every saved
    record line back as [decode] of its record, [load_data] on the file
    that [save_jsonl] of the scroll crawler has written answers the
    records in the order they were saved, on either platform. *)
Theorem load_data_of_saved_file
    {J : Type} (loads : string -> failure + J)
    (decode : ShoppingScroll.LiItem -> J)
    (windows : bool) (items : list ShoppingScroll.LiItem) :
  (forall it, In it items ->
              loads (Json.dumps (ShoppingScroll.asdict it) ++ String Py.LF "")%string
              = inr (decode it)) ->
  load_data J loads
    (Some (Py.lines (Py.read_text
                       (Py.write_text windows (ShoppingScroll.save_jsonl items)))))
  = inr (map decode items).
Proof.
  intros Hloads.
  rewrite scroll_file_lines.
  cbn [load_data]. rewrite load_lines_parsed. cbn [app].
  assert (H : forall l,
             (forall it, In it l ->
                         loads (Json.dumps (ShoppingScroll.asdict it)
                                  ++ String Py.LF "")%string = inr (decode it)) ->
             first_failure (fun _ => false) loads
                     (map (fun it => (Json.dumps (ShoppingScroll.asdict it)
                                        ++ String Py.LF "")%string) l) = None
             /\ parsed loads
                  (map (fun it => (Json.dumps (ShoppingScroll.asdict it)
                                     ++ String Py.LF "")%string) l)
                = map decode l).
  { induction l as [| it l IH]; intros Hl; [split; reflexivity |].
    destruct (IH (fun x Hx => Hl x (or_intror Hx))) as [Hall Hparsed].
    cbn [map first_failure parsed flat_map].
    fold (parsed loads (map (fun it => (Json.dumps (ShoppingScroll.asdict it)
                                          ++ String Py.LF "")%string) l)).
    rewrite dumps_line_nonblank, (Hl it (or_introl eq_refl)), Hall, Hparsed.
    split; reflexivity. }
  destruct (H items Hloads) as [Hall Hparsed]. rewrite Hall, Hparsed.
  reflexivity.
Qed.

Lemma load_data_of_saved_file_witness :
  (forall it, In it ExtraScrollSamples.items_stalls_once ->
              StorageSamples.keep_object
                (Json.dumps (ShoppingScroll.asdict it) ++ String Py.LF "")%string
              = inr (StorageSamples.line_of it))
  /\ load_data string StorageSamples.keep_object
       (Some (Py.lines (Py.read_text
                          (Py.write_text true
                             (ShoppingScroll.save_jsonl
                                ExtraScrollSamples.items_stalls_once)))))
     = inr (map StorageSamples.line_of ExtraScrollSamples.items_stalls_once).
Proof.
  assert (H : forall it, In it ExtraScrollSamples.items_stalls_once ->
                         StorageSamples.keep_object
                           (Json.dumps (ShoppingScroll.asdict it)
                              ++ String Py.LF "")%string
                         = inr (StorageSamples.line_of it))
    by (intros it _; reflexivity).
  split; [exact H |].
  exact (load_data_of_saved_file StorageSamples.keep_object StorageSamples.line_of
           true ExtraScrollSamples.items_stalls_once H).
Defined.

End ReadingBack.
